(** * Knowledge subsystem of the personal AI agent: embedding and properties

    The development follows the four Python classes of [src/knowledge]:
    [VectorDatabase], [MemoryManager], [RetrievalEngine] and the facade
    [KnowledgeModule], and the [EmbeddingService] of [src/llm] that they
    call for their embeddings.

    Conventions of the embedding.
    - A Python [float] is read as a real number ([R]) wherever a score is
      only stored, compared, sorted or weighted: the properties of the
      searches and of the context window are about which values are
      returned and in which order.  That reading is exact arithmetic: it
      has no rounding, no infinity and no NaN, and it does not show that
      [2 ** x] raises [OverflowError] or underflows to [0.0].  Where a
      property depends on the arithmetic itself, the same expression is
      embedded on IEEE binary64 numbers (module [Binary64], on Rocq's
      primitive floats), which is what the code computes.  A Python [int]
      is a [Z].
    - A Python [dict] is an association list in insertion order with unique
      keys ([PyDict]); iteration order matters to the stable sorts of the
      searches and of the context window.
    - [uuid.uuid4()] and [datetime.now()] are inputs of the operation that
      calls them (the generated identifier, the clock reading in seconds);
      the clock is read once per operation, as if the operation took no
      time.
    - A method that mutates [self] is a function from the state to a result
      and the new state; an exception is an [Err] result.
    - Items are stored by value. Within the operations of a class an object
      is reachable through one entry only; a caller that keeps a reference
      to a stored object and mutates it behind the class is not modelled.
    - Strings are byte strings: [len], [lower] and [split] are those of
      Python on ASCII text; on other text Python's [str] methods work on
      code points and differ.
    - [knowledge_module.py] does not compile as it is written: see the
      module [KnowledgeModule] for what is embedded of it. *)

From Stdlib Require Import List String Ascii ZArith Reals Lra Lia Bool.
From Stdlib Require Import Permutation Sorted.
From Stdlib Require Floats.
Import ListNotations.

Local Open Scope string_scope.
Local Open Scope Z_scope.

(** ** Python values and exceptions *)

(** Values of the [Dict[str, Any]] metadata and filter maps. *)
Inductive pyval : Type :=
| PyStr (s : string)
| PyNum (x : R)
| PyNone.

Definition pyval_eqb (a b : pyval) : bool :=
  match a, b with
  | PyStr s, PyStr t => String.eqb s t
  | PyNum x, PyNum y => if Req_EM_T x y then true else false
  | PyNone, PyNone => true
  | _, _ => false
  end.

(** The exceptions raised by the modelled code. [vector_database.py] raises
    [ValueError] with two messages, kept apart here, as are the [ValueError]
    of [np.dot] on arrays of different lengths and the [ValueError] or
    [TypeError] of [float]. *)
Inductive exn : Type :=
| CollectionNotFound (collection_id : string)
| DimensionMismatch (expected got : Z)
| ShapesNotAligned (n m : Z)
| KeyError (key : string)
| FloatConversionError (v : pyval).

Inductive result (A : Type) : Type :=
| Ok (a : A)
| Err (e : exn).
Arguments Ok {A} a.
Arguments Err {A} e.

Definition bind {A B : Type} (r : result A) (k : A -> result B) : result B :=
  match r with
  | Ok a => k a
  | Err e => Err e
  end.

Notation "x <- r ;; k" := (bind r (fun x => k))
  (at level 61, r at next level, right associativity).

(** ** Insertion-ordered dictionaries *)

Module PyDict.
Section Dict.
Context {V : Type}.

Definition t := list (string * V).

Definition empty : t := [].

(** [d.get(k)] *)
Fixpoint get (d : t) (k : string) : option V :=
  match d with
  | [] => None
  | (k', v) :: d' => if String.eqb k k' then Some v else get d' k
  end.

(** [k in d] *)
Definition mem (d : t) (k : string) : bool :=
  match get d k with
  | Some _ => true
  | None => false
  end.

(** [d[k] = v]: an existing key keeps its position, a new one goes last. *)
Fixpoint set (d : t) (k : string) (v : V) : t :=
  match d with
  | [] => [(k, v)]
  | (k', v') :: d' =>
      if String.eqb k k' then (k, v) :: d' else (k', v') :: set d' k v
  end.

(** [del d[k]]: the key is gone afterwards; every [del] of the source is
    guarded by [k in d]. *)
Fixpoint del (d : t) (k : string) : t :=
  match d with
  | [] => []
  | (k', v') :: d' =>
      if String.eqb k k' then del d' k else (k', v') :: del d' k
  end.

Definition keys (d : t) : list string := map fst d.
Definition values (d : t) : list V := map snd d.

(** [{k: v for k, v in pairs}] *)
Definition of_list (pairs : list (string * V)) : t :=
  fold_left (fun d kv => set d (fst kv) (snd kv)) pairs empty.
End Dict.
Arguments t V : clear implicits.
End PyDict.

Abbreviation dict := PyDict.t.

(** ** Python list and string primitives *)

(** [x in l] for a list of strings *)
Definition str_in (x : string) (l : list string) : bool :=
  existsb (String.eqb x) l.

(** [l.remove(x)]: drops the first occurrence (guarded by [x in l]). *)
Fixpoint list_remove (x : string) (l : list string) : list string :=
  match l with
  | [] => []
  | y :: l' => if String.eqb x y then l' else y :: list_remove x l'
  end.

(** [l[:k]], with Python's reading of a negative bound. *)
Definition slice_to {A : Type} (k : Z) (l : list A) : list A :=
  if k <? 0
  then firstn (Z.to_nat (Z.of_nat (List.length l) + k)) l
  else firstn (Z.to_nat k) l.

(** [l[-k:]] for a positive constant [k]. *)
Definition last_n {A : Type} (k : nat) (l : list A) : list A :=
  skipn (List.length l - k) l.

(** [l[-k:]], with Python's reading of a bound that is not positive: [l[-0:]]
    is the whole list. *)
Definition slice_last {A : Type} (k : Z) (l : list A) : list A :=
  if 0 <? k then skipn (List.length l - Z.to_nat k) l
  else skipn (Z.to_nat (- k)) l.

(** [l.sort(key=key, reverse=True)]: stable, descending. *)
Section SortDesc.
Context {A : Type} (key : A -> R).

Fixpoint insert_desc (x : A) (l : list A) : list A :=
  match l with
  | [] => [x]
  | y :: l' =>
      if Rlt_dec (key x) (key y) then y :: insert_desc x l' else x :: l
  end.

Definition sort_desc (l : list A) : list A := fold_right insert_desc [] l.

(** [x] may come before [y] in a descending list: its key is at least as
    large. *)
Definition desc (x y : A) : Prop := (key y <= key x)%R.
End SortDesc.

(** [l.sort(key=lambda x: x[0])] on pairs keyed by a string: stable,
    ascending in the code-point order of the key. *)
Section SortById.
Context {A : Type}.

Fixpoint insert_by_id (x : string * A) (l : list (string * A))
  : list (string * A) :=
  match l with
  | [] => [x]
  | y :: l' =>
      if String.ltb (fst y) (fst x) then y :: insert_by_id x l' else x :: l
  end.

Definition sort_by_id (l : list (string * A)) : list (string * A) :=
  fold_right insert_by_id [] l.
End SortById.

(** [s.lower()] on the ASCII letters. *)
Definition lower_ascii (c : ascii) : ascii :=
  let n := nat_of_ascii c in
  if (65 <=? n)%nat && (n <=? 90)%nat then ascii_of_nat (n + 32) else c.

Fixpoint lower (s : string) : string :=
  match s with
  | EmptyString => EmptyString
  | String c s' => String (lower_ascii c) (lower s')
  end.

(** The ASCII characters on which [str.split()] cuts. *)
Definition is_space (c : ascii) : bool :=
  let n := nat_of_ascii c in
  ((9 <=? n)%nat && (n <=? 13)%nat) || ((28 <=? n)%nat && (n <=? 32)%nat).

(** [s.split()]: maximal runs of non-space characters. [cur] is the run being
    read, in reverse. *)
Fixpoint split_from (cur : list ascii) (s : string) : list string :=
  let flush (rest : list string) :=
    match cur with
    | [] => rest
    | _ => string_of_list_ascii (rev cur) :: rest
    end in
  match s with
  | EmptyString => flush []
  | String c s' =>
      if is_space c then flush (split_from [] s')
      else split_from (c :: cur) s'
  end.

Definition split (s : string) : list string := split_from [] s.

(** [set(l)] as a duplicate-free list *)
Definition to_set (l : list string) : list string := nodup string_dec l.

(** [len(a.intersection(b))] *)
Definition intersection_size (a b : list string) : nat :=
  List.length (filter (fun x => str_in x b) a).

(** [sub in s] for strings *)
Fixpoint is_prefix (p s : string) : bool :=
  match p, s with
  | EmptyString, _ => true
  | String a p', String b s' => Ascii.eqb a b && is_prefix p' s'
  | String _ _, EmptyString => false
  end.

Fixpoint contains (sub s : string) : bool :=
  is_prefix sub s ||
  match s with
  | EmptyString => false
  | String _ s' => contains sub s'
  end.

(** ** Data model ([knowledge/models.py]) *)

(** Modelled from the spec: [knowledge/models.py] is not among the sources.
    The enumerations carry the members that the four classes name, the
    records the fields that they read and write; a field keeps the name it
    has in the source behind a prefix for its class. *)
Inductive MemoryType : Type := SHORT_TERM | LONG_TERM | SEMANTIC.

Inductive QueryType : Type := Q_SEMANTIC | Q_KEYWORD | Q_HYBRID | Q_EXACT.

Inductive KnowledgeEventType : Type :=
| ITEM_ADDED | ITEM_REMOVED | QUERY_EXECUTED | CONTEXT_UPDATED.

Record VectorCollection : Type := {
  vc_collection_id : string;
  vc_name : string;
  vc_dimension : Z;
  vc_index_type : string;
  vc_metadata : dict pyval
}.

Record VectorEntry : Type := {
  ve_entry_id : string;
  ve_vector : list R;
  ve_item_id : string;
  ve_metadata : dict pyval
}.

Record MemoryItem : Type := {
  mi_item_id : string;
  mi_content : string;
  mi_memory_type : MemoryType;
  mi_embedding : list R;
  mi_metadata : dict pyval;
  mi_importance : R;
  mi_access_count : Z;
  mi_last_accessed : R
}.

Record MemoryCategory : Type := {
  mc_category_id : string;
  mc_name : string;
  mc_description : string;
  mc_parent_id : option string;
  mc_items : list string
}.

Record ContextItem : Type := {
  ci_item_id : string;
  ci_content : string;
  ci_importance : R;
  ci_recency : R;
  ci_token_count : Z;
  ci_source : string;
  ci_metadata : dict pyval
}.

Record ContextWindow : Type := {
  cw_window_id : string;
  cw_items : list ContextItem;
  cw_max_tokens : Z;
  cw_current_tokens : Z;
  cw_strategy : string
}.

Record OptimizationResult : Type := {
  or_success : bool;
  or_items_affected : Z;
  or_space_saved : Z;
  or_initial_short_term_count : Z;
  or_final_short_term_count : Z;
  or_items_moved : list string
}.

Record KnowledgeItem : Type := {
  ki_item_id : string;
  ki_content : string;
  ki_source : string;
  ki_confidence : R;
  ki_metadata : dict pyval;
  ki_created_at : option R
}.

Record KnowledgeQuery : Type := {
  kq_query_id : string;
  kq_query_text : string;
  kq_query_type : QueryType;
  kq_filters : dict pyval;
  kq_top_k : Z;
  kq_threshold : R
}.

Record KnowledgeResponse : Type := {
  kr_query_id : string;
  kr_items : list KnowledgeItem;
  kr_scores : dict R;
  kr_result_count : Z
}.

Record KnowledgeEvent : Type := {
  ev_event_id : string;
  ev_event_type : KnowledgeEventType;
  ev_details : dict pyval;
  ev_timestamp : R
}.

Record KnowledgeState : Type := {
  ks_session_id : string;
  ks_context_window : option ContextWindow;
  ks_recent_queries : list KnowledgeQuery;
  ks_recent_results : dict KnowledgeResponse
}.

(** [len(l)] as a Python integer *)
Definition len {A : Type} (l : list A) : Z := Z.of_nat (List.length l).

(** [not d] for a dictionary *)
Definition is_empty {A : Type} (l : list A) : bool :=
  match l with
  | [] => true
  | _ :: _ => false
  end.

(** ** [vector_database.py] *)

Module VectorDatabase.

Record t : Type := {
  collections : dict VectorCollection;
  entries : dict (dict VectorEntry);
  item_mapping : dict (list (string * string))
}.

(** [__init__] *)
Definition init : t :=
  {| collections := []; entries := []; item_mapping := [] |}.

Definition with_entries (db : t) (e : dict (dict VectorEntry)) : t :=
  {| collections := collections db; entries := e;
     item_mapping := item_mapping db |}.

Definition with_item_mapping (db : t) (m : dict (list (string * string))) : t :=
  {| collections := collections db; entries := entries db;
     item_mapping := m |}.

(** [create_collection]; [uuid4] and [uuid1] are the two generated
    identifiers. *)
Definition create_collection (uuid4 uuid1 : string)
    (name : string) (dimension : Z) (index_type : string) (db : t)
  : string * t :=
  let collection_id := uuid4 in
  let collection :=
    {| vc_collection_id := collection_id; vc_name := name;
       vc_dimension := dimension; vc_index_type := index_type;
       vc_metadata := [("created_at", PyStr uuid1)] |} in
  (collection_id,
   {| collections := PyDict.set (collections db) collection_id collection;
      entries := PyDict.set (entries db) collection_id [];
      item_mapping := item_mapping db |}).

(** [add_vector]; [uuid4] is the generated entry identifier. *)
Definition add_vector (uuid4 : string) (collection_id : string)
    (vector : list R) (item_id : string) (metadata : option (dict pyval))
    (db : t) : result string * t :=
  match PyDict.get (collections db) collection_id with
  | None => (Err (CollectionNotFound collection_id), db)
  | Some collection =>
      if negb (len vector =? vc_dimension collection)
      then (Err (DimensionMismatch (vc_dimension collection) (len vector)), db)
      else
        let entry_id := uuid4 in
        let entry :=
          {| ve_entry_id := entry_id; ve_vector := vector;
             ve_item_id := item_id;
             ve_metadata := match metadata with Some m => m | None => [] end |} in
        match PyDict.get (entries db) collection_id with
        | None => (Err (KeyError collection_id), db)
        | Some es =>
            let db1 :=
              with_entries db
                (PyDict.set (entries db) collection_id
                   (PyDict.set es entry_id entry)) in
            let db2 :=
              if negb (PyDict.mem (item_mapping db1) item_id)
              then with_item_mapping db1
                     (PyDict.set (item_mapping db1) item_id [])
              else db1 in
            match PyDict.get (item_mapping db2) item_id with
            | None => (Err (KeyError item_id), db2)
            | Some refs =>
                (Ok entry_id,
                 with_item_mapping db2
                   (PyDict.set (item_mapping db2) item_id
                      (refs ++ [(collection_id, entry_id)])%list))
            end
        end
  end.

(** [np.dot] and [np.linalg.norm] on one-dimensional arrays, in exact
    arithmetic *)
Definition dot (a b : list R) : R :=
  fold_right Rplus 0%R (map (fun p => (fst p * snd p)%R) (combine a b)).

Definition norm (a : list R) : R := sqrt (dot a a).

(** [_cosine_similarity]; [np.dot] raises on arrays of different lengths.
    The value is that of the expression in exact arithmetic. The code
    evaluates it on doubles ([Binary64._cosine_similarity]), where the
    result is rounded, can leave the interval from -1 to 1, is [0.0] for a
    vector whose squared norm underflows and NaN when it overflows. The
    searches below use this function for the score of an entry and never
    its arithmetic. *)
Definition _cosine_similarity (vec1 vec2 : list R) : result R :=
  if negb (len vec1 =? len vec2)
  then Err (ShapesNotAligned (len vec1) (len vec2))
  else
    let dot_product := dot vec1 vec2 in
    let norm1 := norm vec1 in
    let norm2 := norm vec2 in
    if Req_EM_T norm1 0 then Ok 0%R
    else if Req_EM_T norm2 0 then Ok 0%R
    else Ok (dot_product / (norm1 * norm2))%R.

(** [_matches_metadata_filter] *)
Fixpoint _matches_metadata_filter (metadata filter_metadata : dict pyval)
  : bool :=
  match filter_metadata with
  | [] => true
  | (key, value) :: rest =>
      match PyDict.get metadata key with
      | None => false
      | Some v =>
          if negb (pyval_eqb v value) then false
          else _matches_metadata_filter metadata rest
      end
  end.

(** The loop of [search_vectors] over [self.entries[collection_id].items()] *)
Fixpoint similarities_of (query_vector : list R) (threshold : R)
    (filter_metadata : dict pyval) (es : dict VectorEntry)
  : result (list (string * R)) :=
  match es with
  | [] => Ok []
  | (entry_id, entry) :: rest =>
      if negb (is_empty filter_metadata)
         && negb (_matches_metadata_filter (ve_metadata entry) filter_metadata)
      then similarities_of query_vector threshold filter_metadata rest
      else
        similarity <- _cosine_similarity query_vector (ve_vector entry) ;;
        tail <- similarities_of query_vector threshold filter_metadata rest ;;
        if Rge_dec similarity threshold
        then Ok ((entry_id, similarity) :: tail)
        else Ok tail
  end.

(** [search_vectors] *)
Definition search_vectors (collection_id : string) (query_vector : list R)
    (top_k : Z) (threshold : R) (filter_metadata : dict pyval) (db : t)
  : result (list (string * R)) :=
  match PyDict.get (collections db) collection_id with
  | None => Err (CollectionNotFound collection_id)
  | Some collection =>
      if negb (len query_vector =? vc_dimension collection)
      then Err (DimensionMismatch (vc_dimension collection) (len query_vector))
      else
        match PyDict.get (entries db) collection_id with
        | None => Err (KeyError collection_id)
        | Some es =>
            similarities <-
              similarities_of query_vector threshold filter_metadata es ;;
            Ok (slice_to top_k (sort_desc snd similarities))
        end
  end.

(** The loop of [search_items]: entry ids to item ids, first occurrence
    kept. *)
Fixpoint dedup_items (es : dict VectorEntry) (seen_items : list string)
    (vector_results : list (string * R)) : result (list (string * R)) :=
  match vector_results with
  | [] => Ok []
  | (entry_id, score) :: rest =>
      match PyDict.get es entry_id with
      | None => Err (KeyError entry_id)
      | Some entry =>
          let item_id := ve_item_id entry in
          if negb (str_in item_id seen_items)
          then
            tail <- dedup_items es (item_id :: seen_items) rest ;;
            Ok ((item_id, score) :: tail)
          else dedup_items es seen_items rest
      end
  end.

(** [search_items] *)
Definition search_items (collection_id : string) (query_vector : list R)
    (top_k : Z) (threshold : R) (filter_metadata : dict pyval) (db : t)
  : result (list (string * R)) :=
  vector_results <-
    search_vectors collection_id query_vector top_k threshold
      filter_metadata db ;;
  match PyDict.get (entries db) collection_id with
  | None => Err (KeyError collection_id)
  | Some es => dedup_items es [] vector_results
  end.

(** The list comprehension of [delete_vector] on an item's references *)
Definition drop_ref (collection_id entry_id : string)
    (refs : list (string * string)) : list (string * string) :=
  filter (fun r => negb (String.eqb (fst r) collection_id)
                   || negb (String.eqb (snd r) entry_id)) refs.

(** [delete_vector] *)
Definition delete_vector (collection_id entry_id : string) (db : t)
  : result bool * t :=
  if negb (PyDict.mem (collections db) collection_id) then (Ok false, db)
  else
    match PyDict.get (entries db) collection_id with
    | None => (Err (KeyError collection_id), db)
    | Some es =>
        match PyDict.get es entry_id with
        | None => (Ok false, db)
        | Some entry =>
            let item_id := ve_item_id entry in
            let db1 :=
              with_entries db
                (PyDict.set (entries db) collection_id
                   (PyDict.del es entry_id)) in
            let db2 :=
              match PyDict.get (item_mapping db1) item_id with
              | None => db1
              | Some refs =>
                  let refs' := drop_ref collection_id entry_id refs in
                  if is_empty refs'
                  then with_item_mapping db1
                         (PyDict.del (item_mapping db1) item_id)
                  else with_item_mapping db1
                         (PyDict.set (item_mapping db1) item_id refs')
              end in
            (Ok true, db2)
        end
    end.

(** The loop of [delete_item_vectors] over the copied reference list *)
Fixpoint delete_each (vectors : list (string * string)) (count : Z) (db : t)
  : result Z * t :=
  match vectors with
  | [] => (Ok count, db)
  | (collection_id, entry_id) :: rest =>
      match delete_vector collection_id entry_id db with
      | (Ok true, db') => delete_each rest (count + 1) db'
      | (Ok false, db') => delete_each rest count db'
      | (Err e, db') => (Err e, db')
      end
  end.

(** [delete_item_vectors] *)
Definition delete_item_vectors (item_id : string) (db : t) : result Z * t :=
  match PyDict.get (item_mapping db) item_id with
  | None => (Ok 0, db)
  | Some vectors => delete_each vectors 0 db
  end.

(** The first loop of [delete_collection], over the collection's entries *)
Fixpoint unmap_entries (collection_id : string) (es : list VectorEntry)
    (m : dict (list (string * string))) : dict (list (string * string)) :=
  match es with
  | [] => m
  | entry :: rest =>
      let item_id := ve_item_id entry in
      let m' :=
        match PyDict.get m item_id with
        | None => m
        | Some refs =>
            let refs' :=
              filter (fun r => negb (String.eqb (fst r) collection_id)) refs in
            if is_empty refs' then PyDict.del m item_id
            else PyDict.set m item_id refs'
        end in
      unmap_entries collection_id rest m'
  end.

(** [delete_collection] *)
Definition delete_collection (collection_id : string) (db : t)
  : result bool * t :=
  if negb (PyDict.mem (collections db) collection_id) then (Ok false, db)
  else
    match PyDict.get (entries db) collection_id with
    | None => (Err (KeyError collection_id), db)
    | Some es =>
        (Ok true,
         {| collections := PyDict.del (collections db) collection_id;
            entries := PyDict.del (entries db) collection_id;
            item_mapping :=
              unmap_entries collection_id (PyDict.values es)
                (item_mapping db) |})
    end.

(** [get_item_vectors] *)
Definition get_item_vectors (item_id : string) (db : t)
  : list (string * string) :=
  match PyDict.get (item_mapping db) item_id with
  | Some refs => refs
  | None => []
  end.

(** The references of an item after [delete_vector] dropped one of its
    entries: an empty list is taken out of the index. *)
Definition refs_without (c e : string) (refs : option (list (string * string)))
  : option (list (string * string)) :=
  match refs with
  | None => None
  | Some refs =>
      if is_empty (drop_ref c e refs) then None
      else Some (drop_ref c e refs)
  end.

(** The references of an item after [delete_collection] dropped those into
    the collection. *)
Definition refs_outside (c : string) (refs : option (list (string * string)))
  : option (list (string * string)) :=
  match refs with
  | None => None
  | Some refs =>
      let refs' := filter (fun r => negb (String.eqb (fst r) c)) refs in
      if is_empty refs' then None else Some refs'
  end.

(** Some entry of the list belongs to the item. *)
Definition has_entry_of (id : string) (es : list VectorEntry) : bool :=
  existsb (fun entry => String.eqb (ve_item_id entry) id) es.

(** The entry filed under an identifier of a collection, if any *)
Definition entry_at (db : t) (collection_id entry_id : string)
  : option VectorEntry :=
  match PyDict.get (entries db) collection_id with
  | Some es => PyDict.get es entry_id
  | None => None
  end.

(** The reverse index and the collections describe the same entries: every
    collection has its entry map; the references of an item are not empty,
    pairwise different, and each leads to an entry of that item in an
    existing collection; every entry is referenced under its item. *)
Definition indexed (db : t) : Prop :=
  (forall c, PyDict.mem (collections db) c = true ->
             PyDict.mem (entries db) c = true) /\
  (forall item_id refs,
      PyDict.get (item_mapping db) item_id = Some refs ->
      refs <> [] /\ NoDup refs /\
      forall c e, In (c, e) refs ->
        PyDict.mem (collections db) c = true /\
        exists entry,
          entry_at db c e = Some entry /\ ve_item_id entry = item_id) /\
  (forall c e entry,
      entry_at db c e = Some entry ->
      In (c, e) (get_item_vectors (ve_item_id entry) db)).

(** [get_collection] *)
Definition get_collection (collection_id : string) (db : t)
  : option VectorCollection :=
  PyDict.get (collections db) collection_id.

(** [get_entry]; [self.entries[collection_id]] raises for a collection
    without entry map. *)
Definition get_entry (collection_id entry_id : string) (db : t)
  : result (option VectorEntry) :=
  if negb (PyDict.mem (collections db) collection_id) then Ok None
  else
    match PyDict.get (entries db) collection_id with
    | None => Err (KeyError collection_id)
    | Some es => Ok (PyDict.get es entry_id)
    end.

(** Every collection has its entry map. *)
Definition mapped (db : t) : Prop :=
  forall c, PyDict.mem (collections db) c = true ->
            PyDict.mem (entries db) c = true.

(** Every stored vector has the dimension of its collection. *)
Definition dimensioned (db : t) : Prop :=
  forall c collection es e entry,
    PyDict.get (collections db) c = Some collection ->
    PyDict.get (entries db) c = Some es ->
    In (e, entry) es ->
    len (ve_vector entry) = vc_dimension collection.

(** What [search_vectors] ranks: an entry that passes the metadata filter,
    with its similarity to the query when that meets the threshold. *)
Definition candidate (query_vector : list R) (threshold : R)
    (filter_metadata : dict pyval) (es : dict VectorEntry)
    (entry_id : string) (similarity : R) : Prop :=
  exists entry,
    In (entry_id, entry) es /\
    (is_empty filter_metadata = true \/
     _matches_metadata_filter (ve_metadata entry) filter_metadata = true) /\
    _cosine_similarity query_vector (ve_vector entry) = Ok similarity /\
    (similarity >= threshold)%R.

(** The operations that change the store, as the letters of a trace. *)
Inductive op : Type :=
| CreateCollection (uuid4 uuid1 name : string) (dimension : Z)
    (index_type : string)
| AddVector (uuid4 collection_id : string) (vector : list R)
    (item_id : string) (metadata : option (dict pyval))
| DeleteVector (collection_id entry_id : string)
| DeleteItemVectors (item_id : string)
| DeleteCollection (collection_id : string).

Definition step (o : op) (db : t) : t :=
  match o with
  | CreateCollection uuid4 uuid1 name dimension index_type =>
      snd (create_collection uuid4 uuid1 name dimension index_type db)
  | AddVector uuid4 collection_id vector item_id metadata =>
      snd (add_vector uuid4 collection_id vector item_id metadata db)
  | DeleteVector collection_id entry_id =>
      snd (delete_vector collection_id entry_id db)
  | DeleteItemVectors item_id => snd (delete_item_vectors item_id db)
  | DeleteCollection collection_id => snd (delete_collection collection_id db)
  end.

Definition run (ops : list op) (db : t) : t :=
  fold_left (fun d o => step o d) ops db.

(** The identifier that [uuid.uuid4()] gives to a new collection or to a new
    entry is not in use. *)
Definition fresh_id (o : op) (db : t) : Prop :=
  match o with
  | CreateCollection uuid4 _ _ _ _ => PyDict.mem (collections db) uuid4 = false
  | AddVector uuid4 collection_id _ _ _ =>
      entry_at db collection_id uuid4 = None
  | _ => True
  end.

Fixpoint fresh_ids (ops : list op) (db : t) : Prop :=
  match ops with
  | [] => True
  | o :: rest => fresh_id o db /\ fresh_ids rest (step o db)
  end.

End VectorDatabase.

(** ** The cosine similarity on doubles *)

(** [VectorDatabase._cosine_similarity] (vector_database.py, lines 409-427)
    on IEEE binary64 numbers, the [float64] of [numpy]. [np.dot] is the sum
    of the products taken from left to right, starting from [0.0];
    [np.linalg.norm] of a one-dimensional array is the square root of the
    dot product of the array with itself. A BLAS routine may add the
    products of a long vector in another order. *)
Module Binary64.
Import PrimFloat.

Definition dot (a b : list float) : float :=
  fold_left (fun acc p => (acc + fst p * snd p)%float) (combine a b) 0%float.

Definition norm (a : list float) : float := PrimFloat.sqrt (dot a a).

Definition _cosine_similarity (vec1 vec2 : list float) : result float :=
  if negb (len vec1 =? len vec2)
  then Err (ShapesNotAligned (len vec1) (len vec2))
  else
    let dot_product := dot vec1 vec2 in
    let norm1 := norm vec1 in
    let norm2 := norm vec2 in
    if (norm1 =? 0)%float || (norm2 =? 0)%float then Ok 0%float
    else Ok (dot_product / (norm1 * norm2))%float.

End Binary64.

(** ** [memory_manager.py] *)

Module MemoryManager.

Record t : Type := {
  short_term_memory : dict MemoryItem;
  long_term_memory : dict MemoryItem;
  categories : dict MemoryCategory
}.

(** [__init__] *)
Definition init : t :=
  {| short_term_memory := []; long_term_memory := []; categories := [] |}.

Definition with_item_id (item : MemoryItem) (id : string) : MemoryItem :=
  {| mi_item_id := id; mi_content := mi_content item;
     mi_memory_type := mi_memory_type item; mi_embedding := mi_embedding item;
     mi_metadata := mi_metadata item; mi_importance := mi_importance item;
     mi_access_count := mi_access_count item;
     mi_last_accessed := mi_last_accessed item |}.

Definition with_memory_type (item : MemoryItem) (ty : MemoryType)
  : MemoryItem :=
  {| mi_item_id := mi_item_id item; mi_content := mi_content item;
     mi_memory_type := ty; mi_embedding := mi_embedding item;
     mi_metadata := mi_metadata item; mi_importance := mi_importance item;
     mi_access_count := mi_access_count item;
     mi_last_accessed := mi_last_accessed item |}.

(** [item.last_accessed = datetime.now(); item.access_count += 1] *)
Definition touch (now : R) (item : MemoryItem) : MemoryItem :=
  {| mi_item_id := mi_item_id item; mi_content := mi_content item;
     mi_memory_type := mi_memory_type item; mi_embedding := mi_embedding item;
     mi_metadata := mi_metadata item; mi_importance := mi_importance item;
     mi_access_count := mi_access_count item + 1;
     mi_last_accessed := now |}.

Definition is_short_term (ty : MemoryType) : bool :=
  match ty with
  | SHORT_TERM => true
  | _ => false
  end.

(** [store_item]; [uuid4] is used when the item comes without identifier. *)
Definition store_item (uuid4 : string) (item : MemoryItem) (mm : t)
  : string * t :=
  let item :=
    if String.eqb (mi_item_id item) "" then with_item_id item uuid4
    else item in
  let mm' :=
    if is_short_term (mi_memory_type item)
    then {| short_term_memory :=
              PyDict.set (short_term_memory mm) (mi_item_id item) item;
            long_term_memory := long_term_memory mm;
            categories := categories mm |}
    else {| short_term_memory := short_term_memory mm;
            long_term_memory :=
              PyDict.set (long_term_memory mm) (mi_item_id item) item;
            categories := categories mm |} in
  (mi_item_id item, mm').

(** [retrieve_item]; the access metadata of the stored item is updated. *)
Definition retrieve_item (now : R) (item_id : string) (mm : t)
  : option MemoryItem * t :=
  match PyDict.get (short_term_memory mm) item_id with
  | Some item =>
      let item := touch now item in
      (Some item,
       {| short_term_memory := PyDict.set (short_term_memory mm) item_id item;
          long_term_memory := long_term_memory mm;
          categories := categories mm |})
  | None =>
      match PyDict.get (long_term_memory mm) item_id with
      | Some item =>
          let item := touch now item in
          (Some item,
           {| short_term_memory := short_term_memory mm;
              long_term_memory :=
                PyDict.set (long_term_memory mm) item_id item;
              categories := categories mm |})
      | None => (None, mm)
      end
  end.

(** [update_item] *)
Definition update_item (item : MemoryItem) (mm : t) : bool * t :=
  if PyDict.mem (short_term_memory mm) (mi_item_id item)
  then (true,
        {| short_term_memory :=
             PyDict.set (short_term_memory mm) (mi_item_id item) item;
           long_term_memory := long_term_memory mm;
           categories := categories mm |})
  else if PyDict.mem (long_term_memory mm) (mi_item_id item)
  then (true,
        {| short_term_memory := short_term_memory mm;
           long_term_memory :=
             PyDict.set (long_term_memory mm) (mi_item_id item) item;
           categories := categories mm |})
  else (false, mm).

(** The loop of [delete_item] over [self.categories.values()] *)
Definition purge_category (item_id : string) (category : MemoryCategory)
  : MemoryCategory :=
  if str_in item_id (mc_items category)
  then {| mc_category_id := mc_category_id category;
          mc_name := mc_name category;
          mc_description := mc_description category;
          mc_parent_id := mc_parent_id category;
          mc_items := list_remove item_id (mc_items category) |}
  else category.

Definition purge_categories (item_id : string) (cs : dict MemoryCategory)
  : dict MemoryCategory :=
  map (fun kc => (fst kc, purge_category item_id (snd kc))) cs.

(** [delete_item] *)
Definition delete_item (item_id : string) (mm : t) : bool * t :=
  if PyDict.mem (short_term_memory mm) item_id
  then (true,
        {| short_term_memory := PyDict.del (short_term_memory mm) item_id;
           long_term_memory := long_term_memory mm;
           categories := purge_categories item_id (categories mm) |})
  else if PyDict.mem (long_term_memory mm) item_id
  then (true,
        {| short_term_memory := short_term_memory mm;
           long_term_memory := PyDict.del (long_term_memory mm) item_id;
           categories := purge_categories item_id (categories mm) |})
  else (false, mm).

(** [create_category] *)
Definition create_category (uuid4 : string) (name description : string)
    (parent_id : option string) (mm : t) : string * t :=
  let category_id := uuid4 in
  let category :=
    {| mc_category_id := category_id; mc_name := name;
       mc_description := description; mc_parent_id := parent_id;
       mc_items := [] |} in
  (category_id,
   {| short_term_memory := short_term_memory mm;
      long_term_memory := long_term_memory mm;
      categories := PyDict.set (categories mm) category_id category |}).

(** [add_item_to_category] *)
Definition add_item_to_category (item_id category_id : string) (mm : t)
  : bool * t :=
  match PyDict.get (categories mm) category_id with
  | None => (false, mm)
  | Some category =>
      if negb (PyDict.mem (short_term_memory mm) item_id)
         && negb (PyDict.mem (long_term_memory mm) item_id)
      then (false, mm)
      else if negb (str_in item_id (mc_items category))
      then (true,
            {| short_term_memory := short_term_memory mm;
               long_term_memory := long_term_memory mm;
               categories :=
                 PyDict.set (categories mm) category_id
                   {| mc_category_id := mc_category_id category;
                      mc_name := mc_name category;
                      mc_description := mc_description category;
                      mc_parent_id := mc_parent_id category;
                      mc_items := (mc_items category ++ [item_id])%list |} |})
      else (true, mm)
  end.

(** [move_to_long_term] *)
Definition move_to_long_term (item_id : string) (mm : t) : bool * t :=
  match PyDict.get (short_term_memory mm) item_id with
  | None => (false, mm)
  | Some item =>
      let item := with_memory_type item LONG_TERM in
      (true,
       {| short_term_memory := PyDict.del (short_term_memory mm) item_id;
          long_term_memory := PyDict.set (long_term_memory mm) item_id item;
          categories := categories mm |})
  end.

(** [move_to_short_term] *)
Definition move_to_short_term (item_id : string) (mm : t) : bool * t :=
  match PyDict.get (long_term_memory mm) item_id with
  | None => (false, mm)
  | Some item =>
      let item := with_memory_type item SHORT_TERM in
      (true,
       {| short_term_memory := PyDict.set (short_term_memory mm) item_id item;
          long_term_memory := PyDict.del (long_term_memory mm) item_id;
          categories := categories mm |})
  end.

(** The heuristic of [optimize_memory] *)
Definition low_value (item : MemoryItem) : bool :=
  (if Rlt_dec (mi_importance item) 0.3 then true else false)
  && (mi_access_count item <? 3).

(** [optimize_memory]; the timing of the result is left out. *)
Definition optimize_memory (mm : t) : OptimizationResult * t :=
  let initial_short_term_count := len (short_term_memory mm) in
  let items_to_move :=
    map fst (filter (fun kv => low_value (snd kv)) (short_term_memory mm)) in
  let mm' :=
    fold_left (fun m item_id => snd (move_to_long_term item_id m))
      items_to_move mm in
  let items_affected := len items_to_move in
  ({| or_success := true;
      or_items_affected := items_affected;
      or_space_saved := items_affected;
      or_initial_short_term_count := initial_short_term_count;
      or_final_short_term_count := initial_short_term_count - items_affected;
      or_items_moved := items_to_move |},
   mm').

(** [_calculate_recency]: [2 ** (-time_diff / 3600)] clamped to [0, 1], in
    exact arithmetic. On doubles the power underflows to [0.0] for an item
    last accessed more than about 1075 hours ago, and Python raises
    [OverflowError] for a timestamp more than about 1024 hours ahead of the
    clock; neither shows here. The context window uses the value as part of
    a sort key only. *)
Definition _calculate_recency (now timestamp : R) : R :=
  let time_diff := (now - timestamp)%R in
  let recency := Rpower 2 (- time_diff / 3600) in
  Rmax 0 (Rmin 1 recency).

(** [_estimate_token_count] *)
Definition _estimate_token_count (text : string) : Z :=
  Z.of_nat (String.length text) / 4 + 1.

Definition to_context_item (now : R) (item : MemoryItem) : ContextItem :=
  {| ci_item_id := mi_item_id item;
     ci_content := mi_content item;
     ci_importance := mi_importance item;
     ci_recency := _calculate_recency now (mi_last_accessed item);
     ci_token_count := _estimate_token_count (mi_content item);
     ci_source := "memory";
     ci_metadata := mi_metadata item |}.

(** The three sort keys and the strategy dispatch; an unknown strategy leaves
    the insertion order. *)
Definition sort_by_strategy (strategy : string)
    (context_items : list ContextItem) : list ContextItem :=
  if String.eqb strategy "importance_recency"
  then sort_desc (fun x => (ci_importance x * 0.7 + ci_recency x * 0.3)%R)
         context_items
  else if String.eqb strategy "importance"
  then sort_desc ci_importance context_items
  else if String.eqb strategy "recency"
  then sort_desc ci_recency context_items
  else context_items.

(** The selection loop: accept while the budget allows, stop at the first
    item that does not fit. *)
Fixpoint select_items (max_tokens : Z) (context_items : list ContextItem)
    (selected_items : list ContextItem) (current_tokens : Z)
  : list ContextItem * Z :=
  match context_items with
  | [] => (selected_items, current_tokens)
  | item :: rest =>
      if current_tokens + ci_token_count item <=? max_tokens
      then select_items max_tokens rest (selected_items ++ [item])%list
             (current_tokens + ci_token_count item)
      else (selected_items, current_tokens)
  end.

(** [create_context_window]; [now] is read once for the whole call. *)
Definition create_context_window (uuid4 : string) (now : R)
    (max_tokens : Z) (strategy : string) (mm : t) : ContextWindow :=
  let window_id := uuid4 in
  let all_items := PyDict.values (short_term_memory mm) in
  let context_items := map (to_context_item now) all_items in
  let context_items := sort_by_strategy strategy context_items in
  let '(selected_items, current_tokens) :=
    select_items max_tokens context_items [] 0 in
  {| cw_window_id := window_id;
     cw_items := selected_items;
     cw_max_tokens := max_tokens;
     cw_current_tokens := current_tokens;
     cw_strategy := strategy |}.

(** [get_memory_stats] *)
Definition get_memory_stats (mm : t) : Z * Z * Z * Z :=
  (len (short_term_memory mm), len (long_term_memory mm),
   len (categories mm),
   len (short_term_memory mm) + len (long_term_memory mm)).

(** The public operations that change the manager, as the letters of a trace. *)
Inductive op : Type :=
| Store (uuid4 : string) (item : MemoryItem)
| Retrieve (now : R) (item_id : string)
| Update (item : MemoryItem)
| Delete (item_id : string)
| CreateCategory (uuid4 name description : string) (parent_id : option string)
| AddItemToCategory (item_id category_id : string)
| MoveToLongTerm (item_id : string)
| MoveToShortTerm (item_id : string)
| OptimizeMemory.

Definition step (o : op) (mm : t) : t :=
  match o with
  | Store uuid4 item => snd (store_item uuid4 item mm)
  | Retrieve now item_id => snd (retrieve_item now item_id mm)
  | Update item => snd (update_item item mm)
  | Delete item_id => snd (delete_item item_id mm)
  | CreateCategory uuid4 name description parent_id =>
      snd (create_category uuid4 name description parent_id mm)
  | AddItemToCategory item_id category_id =>
      snd (add_item_to_category item_id category_id mm)
  | MoveToLongTerm item_id => snd (move_to_long_term item_id mm)
  | MoveToShortTerm item_id => snd (move_to_short_term item_id mm)
  | OptimizeMemory => snd (optimize_memory mm)
  end.

Definition run (ops : list op) (mm : t) : t :=
  fold_left (fun m o => step o m) ops mm.

(** The identifier under which [store_item] files an item. *)
Definition stored_id (uuid4 : string) (item : MemoryItem) : string :=
  if String.eqb (mi_item_id item) "" then uuid4 else mi_item_id item.

(** Tier exclusivity: no identifier is a key of both tier maps. *)
Definition exclusive (mm : t) : Prop :=
  forall id : string,
    PyDict.mem (short_term_memory mm) id = true ->
    PyDict.mem (long_term_memory mm) id = true -> False.

(** A [store_item] call does not reuse an identifier that the other tier
    holds. *)
Definition fresh_store (o : op) (mm : t) : Prop :=
  match o with
  | Store uuid4 item =>
      if is_short_term (mi_memory_type item)
      then PyDict.mem (long_term_memory mm) (stored_id uuid4 item) = false
      else PyDict.mem (short_term_memory mm) (stored_id uuid4 item) = false
  | _ => True
  end.

Fixpoint fresh_stores (ops : list op) (mm : t) : Prop :=
  match ops with
  | [] => True
  | o :: rest => fresh_store o mm /\ fresh_stores rest (step o mm)
  end.

(** [item_id in self.short_term_memory or item_id in self.long_term_memory] *)
Definition stored (mm : t) (item_id : string) : bool :=
  PyDict.mem (short_term_memory mm) item_id
  || PyDict.mem (long_term_memory mm) item_id.

(** The operations that put an item under [item_id] into the short-term
    tier: the move up, and a [store_item] of a short-term item under that
    identifier. *)
Definition promotes (item_id : string) (o : op) : Prop :=
  match o with
  | MoveToShortTerm id => id = item_id
  | Store uuid4 item =>
      stored_id uuid4 item = item_id /\
      is_short_term (mi_memory_type item) = true
  | _ => False
  end.

(** Every stored item is filed under its own identifier. *)
Definition keyed (mm : t) : Prop :=
  forall (k : string) (item : MemoryItem),
    In (k, item) (short_term_memory mm) \/ In (k, item) (long_term_memory mm) ->
    mi_item_id item = k.

(** The categories refer to stored items only, each at most once. *)
Definition categories_ok (mm : t) : Prop :=
  forall category_id category,
    PyDict.get (categories mm) category_id = Some category ->
    NoDup (mc_items category) /\
    forall item_id, In item_id (mc_items category) ->
      PyDict.mem (short_term_memory mm) item_id = true \/
      PyDict.mem (long_term_memory mm) item_id = true.

(** No category refers to the item. *)
Definition unreferenced (item_id : string) (mm : t) : Prop :=
  forall category_id category,
    PyDict.get (categories mm) category_id = Some category ->
    ~ In item_id (mc_items category).

(** The candidates of a context window in the order of the strategy. *)
Definition ranked_items (now : R) (strategy : string) (mm : t)
  : list ContextItem :=
  sort_by_strategy strategy
    (map (to_context_item now) (PyDict.values (short_term_memory mm))).

Definition token_sum (items : list ContextItem) : Z :=
  fold_right (fun item acc => ci_token_count item + acc) 0 items.

(** The budget property as the specification words it: the budget is kept
    and, for a non-empty window, no short-term item left out would still
    fit. *)
Definition budget_and_no_fitting_item_left (mm : t) (w : ContextWindow)
  : Prop :=
  cw_current_tokens w <= cw_max_tokens w /\
  (cw_items w <> [] ->
   forall item : MemoryItem,
     In item (PyDict.values (short_term_memory mm)) ->
     ~ In (mi_item_id item) (map ci_item_id (cw_items w)) ->
     ~ (_estimate_token_count (mi_content item)
        <= cw_max_tokens w - cw_current_tokens w)).

(** The loop of [get_items_by_category]: each identifier is retrieved, which
    updates the access metadata of the item. *)
Fixpoint retrieve_each (now : R) (item_ids : list string) (mm : t)
  : list MemoryItem * t :=
  match item_ids with
  | [] => ([], mm)
  | item_id :: rest =>
      let '(found, mm1) := retrieve_item now item_id mm in
      let '(items, mm2) := retrieve_each now rest mm1 in
      (match found with
       | Some item => item :: items
       | None => items
       end, mm2)
  end.

(** [get_items_by_category] *)
Definition get_items_by_category (now : R) (category_id : string) (mm : t)
  : list MemoryItem * t :=
  match PyDict.get (categories mm) category_id with
  | None => ([], mm)
  | Some category => retrieve_each now (mc_items category) mm
  end.

(** The item that [retrieve_item] would find, the short-term tier first *)
Definition lookup (mm : t) (item_id : string) : option MemoryItem :=
  match PyDict.get (short_term_memory mm) item_id with
  | Some item => Some item
  | None => PyDict.get (long_term_memory mm) item_id
  end.

(** The sort key of a strategy; [None] for a strategy that the code does not
    know. *)
Definition strategy_key (strategy : string) : option (ContextItem -> R) :=
  if String.eqb strategy "importance_recency"
  then Some (fun x => (ci_importance x * 0.7 + ci_recency x * 0.3)%R)
  else if String.eqb strategy "importance" then Some ci_importance
  else if String.eqb strategy "recency" then Some ci_recency
  else None.

End MemoryManager.

(** ** [retrieval_engine.py] *)

Module RetrievalEngine.

(** What the engine takes from outside: the embedding provider, Python's
    [float(str)], and the order in which a [set] of identifiers is
    iterated. *)
Record Services : Type := {
  get_embedding : string -> list R;
  parse_float : string -> option R;
  set_order : list string -> list string
}.

(** [float(value)] *)
Definition to_float (svc : Services) (value : pyval) : result R :=
  match value with
  | PyNum x => Ok x
  | PyStr s =>
      match parse_float svc s with
      | Some x => Ok x
      | None => Err (FloatConversionError value)
      end
  | PyNone => Err (FloatConversionError value)
  end.

(** One turn of the loop of [_matches_filters]: [Ok true] when the chain of
    conditions reaches a [return False]. *)
Definition rejects (svc : Services) (now : R) (item : KnowledgeItem)
    (key : string) (value : pyval) : result bool :=
  if String.eqb key "source" && negb (pyval_eqb value (PyStr (ki_source item)))
  then Ok true
  else
    below <-
      (if String.eqb key "min_confidence"
       then
         bound <- to_float svc value ;;
         Ok (if Rlt_dec (ki_confidence item) bound then true else false)
       else Ok false) ;;
    if (below : bool) then Ok true
    else
      match (if String.eqb key "max_age" then ki_created_at item else None) with
      | Some created_at =>
          let age := ((now - created_at) / 86400)%R in
          bound <- to_float svc value ;;
          Ok (if Rgt_dec age bound then true else false)
      | None =>
          match PyDict.get (ki_metadata item) key with
          | Some v => Ok (negb (pyval_eqb v value))
          | None => Ok false
          end
      end.

(** [_matches_filters] *)
Fixpoint _matches_filters (svc : Services) (now : R) (item : KnowledgeItem)
    (filters : dict pyval) : result bool :=
  match filters with
  | [] => Ok true
  | (key, value) :: rest =>
      r <- rejects svc now item key value ;;
      if (r : bool) then Ok false else _matches_filters svc now item rest
  end.

(** [if query.filters and not self._matches_filters(item, query.filters)] *)
Definition filtered_out (svc : Services) (now : R) (item : KnowledgeItem)
    (filters : dict pyval) : result bool :=
  if is_empty filters then Ok false
  else
    m <- _matches_filters svc now item filters ;;
    Ok (negb m).

(** [_semantic_search] *)
Definition _semantic_search (svc : Services) (db : VectorDatabase.t)
    (default_collection_id : option string) (query : KnowledgeQuery)
    (items_dict : dict KnowledgeItem) : result (list (string * R)) :=
  match default_collection_id with
  | None => Ok []
  | Some collection_id =>
      if String.eqb collection_id "" then Ok []
      else
        let query_embedding := get_embedding svc (kq_query_text query) in
        results <-
          VectorDatabase.search_items collection_id query_embedding
            (kq_top_k query) (kq_threshold query) (kq_filters query) db ;;
        Ok (filter (fun r => PyDict.mem items_dict (fst r)) results)
  end.

(** The score of [_keyword_search] for one item *)
Definition keyword_score (query_tokens item_tokens : list string) : R :=
  if is_empty query_tokens || is_empty item_tokens then 0%R
  else
    let overlap := intersection_size query_tokens item_tokens in
    (INR overlap / INR (List.length query_tokens))%R.

(** The loop of [_keyword_search] over [items_dict.items()] *)
Fixpoint keyword_scores (svc : Services) (now : R) (query : KnowledgeQuery)
    (query_tokens : list string) (items : dict KnowledgeItem)
  : result (list (string * R)) :=
  match items with
  | [] => Ok []
  | (item_id, item) :: rest =>
      skip <- filtered_out svc now item (kq_filters query) ;;
      if (skip : bool) then keyword_scores svc now query query_tokens rest
      else
        let item_tokens := to_set (split (lower (ki_content item))) in
        let score := keyword_score query_tokens item_tokens in
        tail <- keyword_scores svc now query query_tokens rest ;;
        if Rge_dec score (kq_threshold query)
        then Ok ((item_id, score) :: tail)
        else Ok tail
  end.

(** [_keyword_search] *)
Definition _keyword_search (svc : Services) (now : R) (query : KnowledgeQuery)
    (items_dict : dict KnowledgeItem) : result (list (string * R)) :=
  let query_tokens := to_set (split (lower (kq_query_text query))) in
  scores <- keyword_scores svc now query query_tokens items_dict ;;
  Ok (slice_to (kq_top_k query) (sort_desc snd scores)).

(** [d.get(item_id, 0.0)] *)
Definition score_or_zero (d : dict R) (item_id : string) : R :=
  match PyDict.get d item_id with
  | Some s => s
  | None => 0%R
  end.

Definition semantic_weight : R := 0.7.
Definition keyword_weight : R := 0.3.

(** The loop of [_hybrid_search] over [all_item_ids] *)
Fixpoint combine_scores (semantic_scores keyword_scores : dict R)
    (threshold : R) (all_item_ids : list string) : list (string * R) :=
  match all_item_ids with
  | [] => []
  | item_id :: rest =>
      let semantic_score := score_or_zero semantic_scores item_id in
      let keyword_score := score_or_zero keyword_scores item_id in
      let combined_score :=
        (semantic_score * semantic_weight + keyword_score * keyword_weight)%R in
      if Rge_dec combined_score threshold
      then (item_id, combined_score)
             :: combine_scores semantic_scores keyword_scores threshold rest
      else combine_scores semantic_scores keyword_scores threshold rest
  end.

(** [_hybrid_search] *)
Definition _hybrid_search (svc : Services) (now : R) (db : VectorDatabase.t)
    (default_collection_id : option string) (query : KnowledgeQuery)
    (items_dict : dict KnowledgeItem) : result (list (string * R)) :=
  semantic_results <-
    _semantic_search svc db default_collection_id query items_dict ;;
  keyword_results <- _keyword_search svc now query items_dict ;;
  let semantic_scores := PyDict.of_list semantic_results in
  let keyword_scores := PyDict.of_list keyword_results in
  let all_item_ids :=
    set_order svc
      (PyDict.keys semantic_scores ++ PyDict.keys keyword_scores)%list in
  let combined_scores :=
    combine_scores semantic_scores keyword_scores (kq_threshold query)
      all_item_ids in
  Ok (slice_to (kq_top_k query) (sort_desc snd combined_scores)).

(** The loop of [_exact_search] over [items_dict.items()] *)
Fixpoint exact_matches (svc : Services) (now : R) (query : KnowledgeQuery)
    (query_text : string) (items : dict KnowledgeItem)
  : result (list (string * R)) :=
  match items with
  | [] => Ok []
  | (item_id, item) :: rest =>
      skip <- filtered_out svc now item (kq_filters query) ;;
      if (skip : bool) then exact_matches svc now query query_text rest
      else
        tail <- exact_matches svc now query query_text rest ;;
        if contains query_text (lower (ki_content item))
        then Ok ((item_id, 1%R) :: tail)
        else Ok tail
  end.

(** [_exact_search] *)
Definition _exact_search (svc : Services) (now : R) (query : KnowledgeQuery)
    (items_dict : dict KnowledgeItem) : result (list (string * R)) :=
  let query_text := lower (kq_query_text query) in
  matches <- exact_matches svc now query query_text items_dict ;;
  Ok (slice_to (kq_top_k query) (sort_by_id matches)).

(** The dispatch of [process_query] on the query type *)
Definition search (svc : Services) (now : R) (db : VectorDatabase.t)
    (default_collection_id : option string) (query : KnowledgeQuery)
    (items_dict : dict KnowledgeItem) : result (list (string * R)) :=
  match kq_query_type query with
  | Q_SEMANTIC => _semantic_search svc db default_collection_id query items_dict
  | Q_KEYWORD => _keyword_search svc now query items_dict
  | Q_HYBRID =>
      _hybrid_search svc now db default_collection_id query items_dict
  | Q_EXACT => _exact_search svc now query items_dict
  end.

(** [[items_dict[item_id] for item_id, _ in results]] *)
Fixpoint lookup_items (items_dict : dict KnowledgeItem)
    (results : list (string * R)) : result (list KnowledgeItem) :=
  match results with
  | [] => Ok []
  | (item_id, _) :: rest =>
      match PyDict.get items_dict item_id with
      | None => Err (KeyError item_id)
      | Some item =>
          tail <- lookup_items items_dict rest ;;
          Ok (item :: tail)
      end
  end.

(** [process_query] *)
Definition process_query (svc : Services) (now : R) (db : VectorDatabase.t)
    (default_collection_id : option string) (query : KnowledgeQuery)
    (items_dict : dict KnowledgeItem) : result KnowledgeResponse :=
  results <- search svc now db default_collection_id query items_dict ;;
  items <- lookup_items items_dict results ;;
  Ok {| kr_query_id := kq_query_id query;
        kr_items := items;
        kr_scores := PyDict.of_list results;
        kr_result_count := len results |}.

(** The engine's own [_cosine_similarity], on Python lists, in exact
    arithmetic: the code computes [sum(...)] and [** 0.5] on doubles, with
    the rounding, underflow and overflow described at
    [VectorDatabase._cosine_similarity]. [rank_results] uses the value as
    a sort key only. *)
Definition _cosine_similarity (vec1 vec2 : list R) : R :=
  if is_empty vec1 || is_empty vec2 || negb (len vec1 =? len vec2) then 0%R
  else
    let dot_product := VectorDatabase.dot vec1 vec2 in
    let magnitude1 := sqrt (VectorDatabase.dot vec1 vec1) in
    let magnitude2 := sqrt (VectorDatabase.dot vec2 vec2) in
    if Req_EM_T magnitude1 0 then 0%R
    else if Req_EM_T magnitude2 0 then 0%R
    else (dot_product / (magnitude1 * magnitude2))%R.

(** The conditions under which one filter entry excludes an item, in the
    words of the specification but for a metadata key that the item does
    not carry. *)
Definition unmatched (svc : Services) (now : R) (item : KnowledgeItem)
    (key : string) (value : pyval) : Prop :=
  (key = "source" /\ value <> PyStr (ki_source item)) \/
  (key = "min_confidence" /\
   exists bound,
     to_float svc value = Ok bound /\ (ki_confidence item < bound)%R) \/
  (key = "max_age" /\
   exists created_at bound,
     ki_created_at item = Some created_at /\
     to_float svc value = Ok bound /\
     ((now - created_at) / 86400 > bound)%R) \/
  (key <> "source" /\ key <> "min_confidence" /\ key <> "max_age" /\
   exists v, PyDict.get (ki_metadata item) key = Some v /\ v <> value).

(** [compute_relevance] *)
Definition compute_relevance (svc : Services) (query : string)
    (item : KnowledgeItem) : R :=
  let query_embedding := get_embedding svc query in
  let item_embedding := get_embedding svc (ki_content item) in
  _cosine_similarity query_embedding item_embedding.

(** [rank_results] *)
Definition rank_results (svc : Services) (items : list KnowledgeItem)
    (query : string) : list KnowledgeItem :=
  let scored_items :=
    map (fun item => (item, compute_relevance svc query item)) items in
  map fst (sort_desc snd scored_items).

(** The tokens of a text as the keyword search compares them *)
Definition tokens (text : string) : list string :=
  to_set (split (lower text)).

(** Scores do not increase along a result list. *)
Definition non_increasing (results : list (string * R)) : Prop :=
  Sorted (desc snd) results.

(** The top-k contract as the specification words it. *)
Definition top_k_contract (query : KnowledgeQuery)
    (results : list (string * R)) : Prop :=
  len results <= kq_top_k query /\
  Forall (fun r => (snd r >= kq_threshold query)%R) results /\
  non_increasing results.

End RetrievalEngine.

(** ** [knowledge_module.py] *)

(** [knowledge_module.py] is not valid Python as it is written. In the
    dict display of lines 110-114, inside [add_knowledge_item],

      [metadata={"source": source, "confidence": confidence,
                 **metadata or {}}]

    the item of line 113 is [**] followed by [metadata or {}]; the grammar
    takes a bitwise-or expression after [**], so the parser stops at [or]
    and raises [SyntaxError]. The error is raised when the module is
    imported: with the file as it is, no method of the facade can be
    called.

    The methods other than [add_knowledge_item] are embedded from their own
    text, which is well formed, and the properties stated of them are
    properties of that text. [add_knowledge_item] is embedded under the
    reading [**(metadata or {})] of line 113, the smallest change that
    parses. It serves to build the example store [Scenario.one_fact],
    with the lemma that it keeps the vector index in step; no other
    property below depends on it, and none depends on what the reading
    puts into the metadata of the memory item. *)
Module KnowledgeModule.

(** The facade owns one memory manager and one vector database; the retrieval
    engine works on that same database, which is therefore passed to it. *)
Record t : Type := {
  memory_manager : MemoryManager.t;
  vector_database : VectorDatabase.t;
  default_collection_id : string;
  knowledge_items : dict KnowledgeItem;
  session_states : dict KnowledgeState;
  events : list KnowledgeEvent
}.

(** [__init__] *)
Definition init (uuid4 uuid1 : string) : t :=
  let '(collection_id, db) :=
    VectorDatabase.create_collection uuid4 uuid1 "default_knowledge" 768
      "flat" VectorDatabase.init in
  {| memory_manager := MemoryManager.init;
     vector_database := db;
     default_collection_id := collection_id;
     knowledge_items := [];
     session_states := [];
     events := [] |}.

(** [_log_event]: append, then keep the last 1000 events. *)
Definition _log_event (uuid4 : string) (now : R)
    (event_type : KnowledgeEventType) (details : dict pyval)
    (events : list KnowledgeEvent) : list KnowledgeEvent :=
  let event :=
    {| ev_event_id := uuid4; ev_event_type := event_type;
       ev_details := details; ev_timestamp := now |} in
  let events := (events ++ [event])%list in
  if 1000 <? len events then last_n 1000 events else events.

Definition with_events (km : t) (ev : list KnowledgeEvent) : t :=
  {| memory_manager := memory_manager km;
     vector_database := vector_database km;
     default_collection_id := default_collection_id km;
     knowledge_items := knowledge_items km;
     session_states := session_states km;
     events := ev |}.

(** The dict display of lines 110-114 under the reading
    [{"source": source, "confidence": confidence, **(metadata or {})}]; as
    it is written, with [**metadata or {}], the display is a syntax
    error. *)
Definition memory_metadata (source : string) (confidence : R)
    (metadata : option (dict pyval)) : dict pyval :=
  fold_left (fun d kv => PyDict.set d (fst kv) (snd kv))
    (match metadata with Some m => m | None => [] end)
    [("source", PyStr source); ("confidence", PyNum confidence)].

(** The [MemoryItem] of lines 104-117, for a given value of its metadata
    display. It is built without access count and access time; the defaults
    of the dataclass are read as [0] and the time of creation. *)
Definition memory_item (item_id content : string) (embedding : list R)
    (metadata : dict pyval) (confidence now : R) : MemoryItem :=
  {| mi_item_id := item_id; mi_content := content;
     mi_memory_type := SEMANTIC; mi_embedding := embedding;
     mi_metadata := metadata;
     mi_importance := confidence;
     mi_access_count := 0;
     mi_last_accessed := now |}.

(** [content[:100] + "..." if len(content) > 100 else content] *)
Definition content_preview (content : string) : string :=
  if (100 <? String.length content)%nat
  then substring 0 100 content ++ "..."
  else content.

(** [add_knowledge_item], under the reading of line 113 given above: the
    method as it is written cannot be called. The identifiers are those of
    the item, of the vector entry, of [store_item] (unused: the item has an
    identifier) and of the event. When [add_vector] raises, the item stays
    in the catalog and nothing else has happened. *)
Definition add_knowledge_item (item_uuid entry_uuid store_uuid event_uuid : string)
    (now : R) (get_embedding : string -> list R)
    (content source : string) (confidence : R)
    (metadata : option (dict pyval)) (km : t) : result string * t :=
  let item_id := item_uuid in
  let item :=
    {| ki_item_id := item_id; ki_content := content; ki_source := source;
       ki_confidence := confidence;
       ki_metadata := match metadata with Some m => m | None => [] end;
       ki_created_at := Some now |} in
  let items := PyDict.set (knowledge_items km) item_id item in
  let embedding := get_embedding content in
  match VectorDatabase.add_vector entry_uuid (default_collection_id km)
          embedding item_id metadata (vector_database km) with
  | (Err e, db) =>
      (Err e,
       {| memory_manager := memory_manager km;
          vector_database := db;
          default_collection_id := default_collection_id km;
          knowledge_items := items;
          session_states := session_states km;
          events := events km |})
  | (Ok _, db) =>
      let memory_item :=
        memory_item item_id content embedding
          (memory_metadata source confidence metadata) confidence now in
      let '(_, mm) :=
        MemoryManager.store_item store_uuid memory_item (memory_manager km) in
      (Ok item_id,
       {| memory_manager := mm;
          vector_database := db;
          default_collection_id := default_collection_id km;
          knowledge_items := items;
          session_states := session_states km;
          events :=
            _log_event event_uuid now ITEM_ADDED
              [("item_id", PyStr item_id);
               ("content_preview", PyStr (content_preview content));
               ("source", PyStr source)]
              (events km) |})
  end.

(** [delete_knowledge_item] *)
Definition delete_knowledge_item (event_uuid : string) (now : R)
    (item_id : string) (km : t) : result bool * t :=
  if negb (PyDict.mem (knowledge_items km) item_id) then (Ok false, km)
  else
    let items := PyDict.del (knowledge_items km) item_id in
    match VectorDatabase.delete_item_vectors item_id (vector_database km) with
    | (Err e, db) =>
        (Err e,
         {| memory_manager := memory_manager km;
            vector_database := db;
            default_collection_id := default_collection_id km;
            knowledge_items := items;
            session_states := session_states km;
            events := events km |})
    | (Ok _, db) =>
        let '(_, mm) := MemoryManager.delete_item item_id (memory_manager km) in
        (Ok true,
         {| memory_manager := mm;
            vector_database := db;
            default_collection_id := default_collection_id km;
            knowledge_items := items;
            session_states := session_states km;
            events :=
              _log_event event_uuid now ITEM_REMOVED
                [("item_id", PyStr item_id)] (events km) |})
    end.

(** [create_context_window] of the facade *)
Definition create_context_window (window_uuid event_uuid : string) (now : R)
    (session_id : string) (max_tokens : Z) (strategy : string) (km : t)
  : ContextWindow * t :=
  let context_window :=
    MemoryManager.create_context_window window_uuid now max_tokens strategy
      (memory_manager km) in
  let state :=
    match PyDict.get (session_states km) session_id with
    | Some st =>
        {| ks_session_id := ks_session_id st;
           ks_context_window := Some context_window;
           ks_recent_queries := ks_recent_queries st;
           ks_recent_results := ks_recent_results st |}
    | None =>
        {| ks_session_id := session_id;
           ks_context_window := Some context_window;
           ks_recent_queries := [];
           ks_recent_results := [] |}
    end in
  (context_window,
   {| memory_manager := memory_manager km;
      vector_database := vector_database km;
      default_collection_id := default_collection_id km;
      knowledge_items := knowledge_items km;
      session_states := PyDict.set (session_states km) session_id state;
      events :=
        _log_event event_uuid now CONTEXT_UPDATED
          [("session_id", PyStr session_id);
           ("context_size", PyNum (IZR (cw_current_tokens context_window)));
           ("item_count", PyNum (IZR (len (cw_items context_window))))]
          (events km) |}).

(** Modelled from the spec: [QueryType.value]. The declaration of the enum
    ([knowledge/models.py]) is not part of the sources; the specification
    names the four query types semantic, keyword, hybrid and exact. *)
Definition query_type_value (query_type : QueryType) : string :=
  match query_type with
  | Q_SEMANTIC => "semantic"
  | Q_KEYWORD => "keyword"
  | Q_HYBRID => "hybrid"
  | Q_EXACT => "exact"
  end.

(** [query_knowledge] *)
Definition query_knowledge (query_uuid event_uuid : string) (now : R)
    (svc : RetrievalEngine.Services) (query_text : string)
    (query_type : QueryType) (filters : dict pyval) (top_k : Z)
    (threshold : R) (km : t) : result KnowledgeResponse * t :=
  let query :=
    {| kq_query_id := query_uuid; kq_query_text := query_text;
       kq_query_type := query_type; kq_filters := filters;
       kq_top_k := top_k; kq_threshold := threshold |} in
  match RetrievalEngine.process_query svc now (vector_database km)
          (Some (default_collection_id km)) query (knowledge_items km) with
  | Err e => (Err e, km)
  | Ok response =>
      (Ok response,
       with_events km
         (_log_event event_uuid now QUERY_EXECUTED
            [("query_id", PyStr query_uuid);
             ("query_text", PyStr query_text);
             ("query_type", PyStr (query_type_value query_type));
             ("result_count", PyNum (IZR (len (kr_items response))))]
            (events km)))
  end.

(** [get_knowledge_item] *)
Definition get_knowledge_item (item_id : string) (km : t)
  : option KnowledgeItem :=
  PyDict.get (knowledge_items km) item_id.

(** [get_session_state] *)
Definition get_session_state (session_id : string) (km : t)
  : option KnowledgeState :=
  PyDict.get (session_states km) session_id.

(** [get_recent_events]: [self.events[-limit:] if self.events else []] *)
Definition get_recent_events (limit : Z) (km : t) : list KnowledgeEvent :=
  if is_empty (events km) then [] else slice_last limit (events km).

(** [update_context]. The identifiers are those of the query, of its event,
    of the window and of its event. *)
Definition update_context
    (query_uuid query_event_uuid window_uuid window_event_uuid : string)
    (now : R) (svc : RetrievalEngine.Services) (session_id query_text : string)
    (max_tokens : Z) (km : t) : result ContextWindow * t :=
  match query_knowledge query_uuid query_event_uuid now svc query_text
          Q_SEMANTIC [] 5 0%R km with
  | (Err e, km1) => (Err e, km1)
  | (Ok response, km1) =>
      let states :=
        if negb (PyDict.mem (session_states km1) session_id)
        then PyDict.set (session_states km1) session_id
               {| ks_session_id := session_id;
                  ks_context_window := None;
                  ks_recent_queries := [];
                  ks_recent_results := [] |}
        else session_states km1 in
      match PyDict.get states session_id with
      | None => (Err (KeyError session_id), km1)
      | Some state =>
          let query :=
            {| kq_query_id := kr_query_id response;
               kq_query_text := query_text;
               kq_query_type := Q_SEMANTIC;
               kq_filters := [];
               kq_top_k := 5;
               kq_threshold := 0%R |} in
          let recent_queries := (ks_recent_queries state ++ [query])%list in
          let recent_queries :=
            if 10 <? len recent_queries then last_n 10 recent_queries
            else recent_queries in
          let state :=
            {| ks_session_id := ks_session_id state;
               ks_context_window := ks_context_window state;
               ks_recent_queries := recent_queries;
               ks_recent_results :=
                 PyDict.set (ks_recent_results state) (kr_query_id response)
                   response |} in
          let km2 :=
            {| memory_manager := memory_manager km1;
               vector_database := vector_database km1;
               default_collection_id := default_collection_id km1;
               knowledge_items := knowledge_items km1;
               session_states := PyDict.set states session_id state;
               events := events km1 |} in
          let '(context_window, km3) :=
            create_context_window window_uuid window_event_uuid now session_id
              max_tokens "importance_recency" km2 in
          (Ok context_window, km3)
      end
  end.

(** The vector store's index is in step and the categories are in order. *)
Definition consistent (km : t) : Prop :=
  VectorDatabase.indexed (vector_database km) /\
  MemoryManager.categories_ok (memory_manager km).

End KnowledgeModule.

(** ** [llm/embedding_service.py] *)

Module EmbeddingService.

(** The service with its configuration and its cache. The language model
    behind it is an input of [get_embedding]: what the provider returns for
    a text, a provider and a model, [None] when the call raises. *)
Record t : Type := {
  default_provider : string;
  default_model : string;
  embedding_dimension : Z;
  cache_enabled : bool;
  cache : dict (list R);
  max_cache_size : Z
}.

Definition provider_call : Type := string -> string -> string -> option (list R).

Definition with_cache (svc : t) (c : dict (list R)) : t :=
  {| default_provider := default_provider svc;
     default_model := default_model svc;
     embedding_dimension := embedding_dimension svc;
     cache_enabled := cache_enabled svc;
     cache := c;
     max_cache_size := max_cache_size svc |}.

(** [x or default] for an optional string *)
Definition or_default (x : option string) (default : string) : string :=
  match x with
  | Some s => if String.eqb s "" then default else s
  | None => default
  end.

(** [f"{provider}:{model}:{text}"] *)
Definition cache_key (provider model text : string) : string :=
  provider ++ ":" ++ model ++ ":" ++ text.

(** [[0.0] * self.embedding_dimension] *)
Definition zero_vector (svc : t) : list R :=
  repeat 0%R (Z.to_nat (embedding_dimension svc)).

(** [_add_to_cache]; [None] when [next(iter(self.cache))] raises
    [StopIteration] on an empty cache. *)
Definition _add_to_cache (key : string) (embedding : list R) (svc : t)
  : option t :=
  if max_cache_size svc <=? len (cache svc)
  then
    match cache svc with
    | [] => None
    | (oldest_key, _) :: _ =>
        Some (with_cache svc
                (PyDict.set (PyDict.del (cache svc) oldest_key) key embedding))
    end
  else Some (with_cache svc (PyDict.set (cache svc) key embedding)).

(** [get_embedding]; every exception of the [try] block, that of the provider
    as that of [_add_to_cache], ends in the zero vector. *)
Definition get_embedding (llm : provider_call) (text : string)
    (provider model : option string) (use_cache : bool) (svc : t)
  : list R * t :=
  let provider := or_default provider (default_provider svc) in
  let model := or_default model (default_model svc) in
  let key := cache_key provider model text in
  match (if cache_enabled svc && use_cache
         then PyDict.get (cache svc) key else None) with
  | Some cached => (cached, svc)
  | None =>
      match llm text provider model with
      | None => (zero_vector svc, svc)
      | Some embedding =>
          if cache_enabled svc && use_cache
          then
            match _add_to_cache key embedding svc with
            | Some svc' => (embedding, svc')
            | None => (zero_vector svc, svc)
            end
          else (embedding, svc)
      end
  end.

(** [get_embeddings] *)
Fixpoint get_embeddings (llm : provider_call) (texts : list string)
    (provider model : option string) (use_cache : bool) (svc : t)
  : list (list R) * t :=
  match texts with
  | [] => ([], svc)
  | text :: rest =>
      let '(embedding, svc1) :=
        get_embedding llm text provider model use_cache svc in
      let '(embeddings, svc2) :=
        get_embeddings llm rest provider model use_cache svc1 in
      (embedding :: embeddings, svc2)
  end.

(** [_cosine_similarity]: the same [numpy] expression as in the vector
    database, in exact arithmetic as there; [find_most_similar] uses the
    value as a sort key only. *)
Definition _cosine_similarity (vec1 vec2 : list R) : result R :=
  VectorDatabase._cosine_similarity vec1 vec2.

(** One result of [find_most_similar] *)
Record Similar : Type := {
  sim_text : string;
  sim_similarity : R;
  sim_index : Z
}.

(** The two comprehensions of [find_most_similar] *)
Fixpoint similarities (query_embedding : list R)
    (candidate_embeddings : list (list R)) : result (list R) :=
  match candidate_embeddings with
  | [] => Ok []
  | candidate_embedding :: rest =>
      similarity <- _cosine_similarity query_embedding candidate_embedding ;;
      tail <- similarities query_embedding rest ;;
      Ok (similarity :: tail)
  end.

Fixpoint result_items (i : Z) (pairs : list (string * R)) : list Similar :=
  match pairs with
  | [] => []
  | (text, similarity) :: rest =>
      {| sim_text := text; sim_similarity := similarity; sim_index := i |}
        :: result_items (i + 1) rest
  end.

(** [find_most_similar] *)
Definition find_most_similar (llm : provider_call) (query_text : string)
    (candidate_texts : list string) (provider model : option string)
    (top_k : Z) (svc : t) : result (list Similar) * t :=
  let '(query_embedding, svc1) :=
    get_embedding llm query_text provider model true svc in
  let '(candidate_embeddings, svc2) :=
    get_embeddings llm candidate_texts provider model true svc1 in
  (sims <- similarities query_embedding candidate_embeddings ;;
   Ok (slice_to top_k
         (sort_desc sim_similarity
            (result_items 0 (combine candidate_texts sims)))),
   svc2).

(** [clear_cache] *)
Definition clear_cache (svc : t) : t := with_cache svc [].

End EmbeddingService.

(** ** Scenarios

    Concrete states and inputs on which the properties below are exercised. *)

Module Scenario.

Definition memory_item (id content : string) (ty : MemoryType)
    (importance : R) : MemoryItem :=
  {| mi_item_id := id; mi_content := content; mi_memory_type := ty;
     mi_embedding := []; mi_metadata := []; mi_importance := importance;
     mi_access_count := 0; mi_last_accessed := 0%R |}.

(** Three short-term items of 2, 8 and 5 estimated tokens, stored in
    increasing order of importance. *)
Definition note_c : MemoryItem := memory_item "c" "cccc" SHORT_TERM 0.1.
Definition note_b : MemoryItem :=
  memory_item "b" "bbbbbbbbbbbbbbbbbbbbbbbbbbbb" SHORT_TERM 0.5.
Definition note_a : MemoryItem :=
  memory_item "a" "aaaaaaaaaaaaaaaa" SHORT_TERM 0.9.

Definition three_notes : MemoryManager.t :=
  MemoryManager.run
    [MemoryManager.Store "u1" note_c; MemoryManager.Store "u2" note_b;
     MemoryManager.Store "u3" note_a]
    MemoryManager.init.

(** The same identifier stored once as short-term and once as long-term. *)
Definition stored_twice : list MemoryManager.op :=
  [MemoryManager.Store "u1" (memory_item "a" "first" SHORT_TERM 0.5);
   MemoryManager.Store "u2" (memory_item "a" "second" LONG_TERM 0.5)].

(** A store, a move down and a move up again. *)
Definition moved_around : list MemoryManager.op :=
  [MemoryManager.Store "u1" note_a; MemoryManager.MoveToLongTerm "a";
   MemoryManager.OptimizeMemory; MemoryManager.MoveToShortTerm "a"].

(** A collection of dimension 3. *)
Definition docs : VectorDatabase.t :=
  snd (VectorDatabase.create_collection "docs" "t0" "docs" 3 "flat"
         VectorDatabase.init).

(** Two embeddings of item A and one of item B in a collection of
    dimension 2. *)
Definition chunks : VectorDatabase.t :=
  let db0 :=
    snd (VectorDatabase.create_collection "kb" "t0" "kb" 2 "flat"
           VectorDatabase.init) in
  let db1 := snd (VectorDatabase.add_vector "e1" "kb" [1; 0]%R "A" None db0) in
  let db2 := snd (VectorDatabase.add_vector "e2" "kb" [1; 0]%R "A" None db1) in
  snd (VectorDatabase.add_vector "e3" "kb" [0; 1]%R "B" None db2).

(** An entry as [add_vector] files it under its identifier. *)
Definition chunk (entry_id : string) (vector : list R) (item_id : string)
  : string * VectorEntry :=
  (entry_id,
   {| ve_entry_id := entry_id; ve_vector := vector; ve_item_id := item_id;
      ve_metadata := [] |}).

Definition knowledge_item (id content source : string) (confidence : R)
    (metadata : dict pyval) : KnowledgeItem :=
  {| ki_item_id := id; ki_content := content; ki_source := source;
     ki_confidence := confidence; ki_metadata := metadata;
     ki_created_at := Some 0%R |}.

(** An embedding provider that maps every text to the first unit vector. *)
Definition services : RetrievalEngine.Services :=
  {| RetrievalEngine.get_embedding := fun _ => [1; 0]%R;
     RetrievalEngine.parse_float := fun _ => None;
     RetrievalEngine.set_order := to_set |}.

Definition car : KnowledgeItem :=
  knowledge_item "A" "a red sports car" "web" 0.9 [].

Definition bike : KnowledgeItem :=
  knowledge_item "B" "a blue bike" "web" 0.5 [].

Definition catalog : dict KnowledgeItem := [("A", car); ("B", bike)].

Definition query (text : string) (ty : QueryType) (filters : dict pyval)
    (top_k : Z) (threshold : R) : KnowledgeQuery :=
  {| kq_query_id := "q"; kq_query_text := text; kq_query_type := ty;
     kq_filters := filters; kq_top_k := top_k; kq_threshold := threshold |}.

(** The collection with one more entry, of item D, at cosine [0.6] from the
    first unit vector, and the catalog with that item. *)
Definition shelf : VectorDatabase.t :=
  snd (VectorDatabase.add_vector "e4" "kb" [3; 4]%R "D" None chunks).

Definition tree : KnowledgeItem :=
  knowledge_item "D" "an old oak tree" "web" 0.7 [].

Definition library : dict KnowledgeItem :=
  [("A", car); ("B", bike); ("D", tree)].

(** A hybrid query that item A matches on both sides with different scores
    (semantic [1], keyword [0.5]), item D on the semantic side only
    ([0.6]) and item B on the keyword side only ([0.5]). *)
Definition mixed_query : KnowledgeQuery :=
  query "red bike" Q_HYBRID [] 5 0.1.

(** The facade after one [add_knowledge_item], with an embedding provider of
    the default dimension. *)
Definition zero_embedding (text : string) : list R := repeat 0%R 768.

Definition one_fact : KnowledgeModule.t :=
  snd (KnowledgeModule.add_knowledge_item "i1" "e1" "s1" "ev1" 0
         zero_embedding "a red sports car" "web" 0.9 None
         (KnowledgeModule.init "kb" "t0")).

(** A facade that holds two knowledge items, put together with the
    operations of its two stores: the first item has two vectors in the
    default collection and the second has one; both are long-term memory
    items, listed in one category. *)
Definition two_facts : KnowledgeModule.t :=
  let km := KnowledgeModule.init "kb" "t0" in
  let db1 :=
    snd (VectorDatabase.add_vector "e1" "kb" (zero_embedding "") "i1" None
           (KnowledgeModule.vector_database km)) in
  let db2 :=
    snd (VectorDatabase.add_vector "e2" "kb" (zero_embedding "") "i1" None
           db1) in
  let db3 :=
    snd (VectorDatabase.add_vector "e3" "kb" (zero_embedding "") "i2" None
           db2) in
  {| KnowledgeModule.memory_manager :=
       MemoryManager.run
         [MemoryManager.Store "s1"
            (KnowledgeModule.memory_item "i1" "a red sports car" [] []
               0.9 0);
          MemoryManager.Store "s2"
            (KnowledgeModule.memory_item "i2" "a blue bike" [] [] 0.5 0);
          MemoryManager.CreateCategory "cat" "vehicles" "cars and bikes"
            None;
          MemoryManager.AddItemToCategory "i1" "cat";
          MemoryManager.AddItemToCategory "i2" "cat"]
         MemoryManager.init;
     KnowledgeModule.vector_database := db3;
     KnowledgeModule.default_collection_id := "kb";
     KnowledgeModule.knowledge_items :=
       [("i1", knowledge_item "i1" "a red sports car" "web" 0.9 []);
        ("i2", knowledge_item "i2" "a blue bike" "web" 0.5 [])];
     KnowledgeModule.session_states := [];
     KnowledgeModule.events := [] |}.

(** The memory item of a knowledge item, as lines 104-117 of
    [add_knowledge_item] build it, and a second [store_item] by a caller
    that files a short-term item under the same identifier. *)
Definition fact : MemoryItem :=
  KnowledgeModule.memory_item "i1" "a red sports car" []
    [("source", PyStr "web"); ("confidence", PyNum 0.9)] 0.9 0.

Definition stored_again : list MemoryManager.op :=
  [MemoryManager.Store "u"
     (MemoryManager.with_memory_type fact SHORT_TERM)].

(** A filter on a metadata key that the items of the catalog do not carry. *)
Definition news_only : dict pyval := [("category", PyStr "news")].

(** The three notes, of which the first and the last are put into a
    category. *)
Definition filed_notes : MemoryManager.t :=
  MemoryManager.run
    [MemoryManager.CreateCategory "cat" "letters" "a and c" None;
     MemoryManager.AddItemToCategory "a" "cat";
     MemoryManager.AddItemToCategory "c" "cat"]
    three_notes.

(** An embedding service with the defaults of [__init__] and an empty
    cache, and a provider that answers every text with the first unit
    vector. *)
Definition embedder : EmbeddingService.t :=
  {| EmbeddingService.default_provider := "deepseek";
     EmbeddingService.default_model := "deepseek-embedding";
     EmbeddingService.embedding_dimension := 768;
     EmbeddingService.cache_enabled := true;
     EmbeddingService.cache := [];
     EmbeddingService.max_cache_size := 10000 |}.

Definition provider : EmbeddingService.provider_call :=
  fun _ _ _ => Some [1; 0]%R.

(** A provider that answers the text "b" with the second unit vector and
    every other text with the first. *)
Definition two_way_provider : EmbeddingService.provider_call :=
  fun text _ _ =>
    if String.eqb text "b" then Some [0; 1]%R else Some [1; 0]%R.

End Scenario.

(** * Properties *)

(** Splits a successful [bind] in hypothesis [H]. *)
Ltac bind_inv H :=
  match type of H with
  | bind ?r _ = Ok _ =>
      let E := fresh "E" in
      destruct r eqn:E; simpl in H; [|discriminate H]
  end.

(** Decides one comparison of concrete reals in the goal. *)
Ltac decide_real :=
  match goal with
  | |- context [Rlt_dec ?a ?b] =>
      destruct (Rlt_dec a b); [try (exfalso; lra) | try (exfalso; lra)]
  | |- context [Rge_dec ?a ?b] =>
      destruct (Rge_dec a b); [try (exfalso; lra) | try (exfalso; lra)]
  | |- context [Rgt_dec ?a ?b] =>
      destruct (Rgt_dec a b); [try (exfalso; lra) | try (exfalso; lra)]
  | |- context [Req_EM_T ?a ?b] =>
      destruct (Req_EM_T a b); [try (exfalso; lra) | try (exfalso; lra)]
  end.

(** ** Dictionaries *)

Section DictFacts.
Context {V : Type}.
Implicit Types (d : dict V) (k : string) (v : V).

Lemma get_set_same d k v : PyDict.get (PyDict.set d k v) k = Some v.
Proof.
  induction d as [|[k' v'] d IH]; simpl.
  - now rewrite String.eqb_refl.
  - destruct (String.eqb k k') eqn:E; simpl.
    + now rewrite String.eqb_refl.
    + now rewrite E.
Qed.

Lemma get_set_other d k k' v :
  k <> k' -> PyDict.get (PyDict.set d k v) k' = PyDict.get d k'.
Proof.
  intros Hne. induction d as [|[k0 v0] d IH]; simpl.
  - destruct (String.eqb k' k) eqn:E; [|reflexivity].
    apply String.eqb_eq in E. congruence.
  - destruct (String.eqb k k0) eqn:E; simpl.
    + apply String.eqb_eq in E. subst k0.
      destruct (String.eqb k' k) eqn:E'; [|reflexivity].
      apply String.eqb_eq in E'. congruence.
    + now rewrite IH.
Qed.

Lemma get_set d k k' v :
  PyDict.get (PyDict.set d k v) k' =
  if String.eqb k k' then Some v else PyDict.get d k'.
Proof.
  destruct (String.eqb k k') eqn:E.
  - apply String.eqb_eq in E. subst. apply get_set_same.
  - apply String.eqb_neq in E. now apply get_set_other.
Qed.

Lemma get_del_same d k : PyDict.get (PyDict.del d k) k = None.
Proof.
  induction d as [|[k' v'] d IH]; simpl; [reflexivity|].
  destruct (String.eqb k k') eqn:E; simpl; [assumption|].
  now rewrite E.
Qed.

Lemma get_del_other d k k' :
  k <> k' -> PyDict.get (PyDict.del d k) k' = PyDict.get d k'.
Proof.
  intros Hne. induction d as [|[k0 v0] d IH]; simpl; [reflexivity|].
  destruct (String.eqb k k0) eqn:E; simpl.
  - apply String.eqb_eq in E. subst k0.
    destruct (String.eqb k' k) eqn:E'; [|assumption].
    apply String.eqb_eq in E'. congruence.
  - now rewrite IH.
Qed.

Lemma get_del d k k' :
  PyDict.get (PyDict.del d k) k' =
  if String.eqb k k' then None else PyDict.get d k'.
Proof.
  destruct (String.eqb k k') eqn:E.
  - apply String.eqb_eq in E. subst. apply get_del_same.
  - apply String.eqb_neq in E. now apply get_del_other.
Qed.

Lemma mem_set d k k' v :
  PyDict.mem (PyDict.set d k v) k' = String.eqb k k' || PyDict.mem d k'.
Proof.
  unfold PyDict.mem. rewrite get_set.
  now destruct (String.eqb k k').
Qed.

Lemma mem_del d k k' :
  PyDict.mem (PyDict.del d k) k' = negb (String.eqb k k') && PyDict.mem d k'.
Proof.
  unfold PyDict.mem. rewrite get_del.
  now destruct (String.eqb k k').
Qed.

Lemma mem_get_some d k v : PyDict.get d k = Some v -> PyDict.mem d k = true.
Proof. unfold PyDict.mem. now intros ->. Qed.

Lemma mem_get_none d k : PyDict.get d k = None <-> PyDict.mem d k = false.
Proof. unfold PyDict.mem. destruct (PyDict.get d k); split; congruence. Qed.

Lemma mem_true_get d k : PyDict.mem d k = true -> exists v, PyDict.get d k = Some v.
Proof.
  unfold PyDict.mem. destruct (PyDict.get d k) as [v|]; [eauto|discriminate].
Qed.

Lemma get_in d k v : PyDict.get d k = Some v -> In (k, v) d.
Proof.
  induction d as [|[k' v'] d IH]; simpl; [discriminate|].
  destruct (String.eqb k k') eqn:E.
  - apply String.eqb_eq in E. intros [= ->]. subst. now left.
  - intros H. right. auto.
Qed.

Lemma mem_keys d k : PyDict.mem d k = true <-> In k (PyDict.keys d).
Proof.
  unfold PyDict.mem, PyDict.keys.
  induction d as [|[k' v'] d IH]; simpl.
  - split; [discriminate|tauto].
  - destruct (String.eqb k k') eqn:E.
    + apply String.eqb_eq in E. subst. split; auto.
    + apply String.eqb_neq in E. rewrite IH. split; [tauto|].
      intros [H|H]; [congruence|assumption].
Qed.


Lemma keys_set_in d k v k' :
  In k' (PyDict.keys (PyDict.set d k v)) <-> k' = k \/ In k' (PyDict.keys d).
Proof.
  rewrite <- !mem_keys, mem_set.
  destruct (String.eqb k k') eqn:E; simpl.
  - apply String.eqb_eq in E. subst. tauto.
  - apply String.eqb_neq in E. split; [tauto|]. intros [?|?]; congruence.
Qed.

Lemma nodup_keys_set d k v :
  NoDup (PyDict.keys d) -> NoDup (PyDict.keys (PyDict.set d k v)).
Proof.
  unfold PyDict.keys.
  induction d as [|[k' v'] d IH]; simpl; intros Hnd.
  - constructor; [tauto|constructor].
  - inversion Hnd as [|? ? Hnotin Hnd']; subst.
    destruct (String.eqb k k') eqn:E; simpl.
    + apply String.eqb_eq in E. subst. now constructor.
    + apply String.eqb_neq in E. constructor; [|auto].
      intros Hin. apply (keys_set_in d k v k') in Hin.
      destruct Hin; [congruence|contradiction].
Qed.

Lemma keys_del_in d k k' :
  In k' (PyDict.keys (PyDict.del d k)) <-> k' <> k /\ In k' (PyDict.keys d).
Proof.
  rewrite <- !mem_keys, mem_del.
  destruct (String.eqb k k') eqn:E; simpl.
  - apply String.eqb_eq in E. subst. split; [discriminate|tauto].
  - apply String.eqb_neq in E. split; [|tauto]. intros H; split; congruence.
Qed.

Lemma nodup_keys_del d k :
  NoDup (PyDict.keys d) -> NoDup (PyDict.keys (PyDict.del d k)).
Proof.
  unfold PyDict.keys.
  induction d as [|[k' v'] d IH]; simpl; intros Hnd; [constructor|].
  inversion Hnd as [|? ? Hnotin Hnd']; subst.
  destruct (String.eqb k k') eqn:E; simpl; [auto|].
  constructor; [|auto].
  intros Hin. apply (keys_del_in d k k') in Hin. tauto.
Qed.
End DictFacts.

(** ** Lists, slices and sorts *)

Lemma str_in_In x l : str_in x l = true <-> In x l.
Proof.
  unfold str_in. rewrite existsb_exists. split.
  - intros (y & Hy & E). apply String.eqb_eq in E. now subst.
  - intros H. exists x. split; [assumption|apply String.eqb_refl].
Qed.

Lemma str_in_false x l : str_in x l = false <-> ~ In x l.
Proof.
  rewrite <- str_in_In. destruct (str_in x l); split; congruence.
Qed.

Lemma list_remove_in x y l :
  In y (list_remove x l) -> In y l.
Proof.
  induction l as [|z l IH]; simpl; [tauto|].
  destruct (String.eqb x z); simpl; tauto.
Qed.

Lemma list_remove_nodup x l :
  NoDup l -> NoDup (list_remove x l) /\ ~ In x (list_remove x l).
Proof.
  induction l as [|z l IH]; simpl; intros Hnd.
  - split; [constructor|tauto].
  - inversion Hnd as [|? ? Hnotin Hnd']; subst.
    destruct (String.eqb x z) eqn:E.
    + apply String.eqb_eq in E. subst. tauto.
    + apply String.eqb_neq in E. destruct (IH Hnd') as [IH1 IH2]. split.
      * constructor; [|assumption]. intros H. apply Hnotin.
        now apply list_remove_in in H.
      * simpl. intros [H|H]; [congruence|contradiction].
Qed.

(** A slice [l[:k]] is a prefix of [l]. *)
Lemma slice_to_prefix {A : Type} (k : Z) (l : list A) :
  exists rest, l = (slice_to k l ++ rest)%list.
Proof.
  unfold slice_to. destruct (k <? 0).
  - eexists. symmetry. apply firstn_skipn.
  - eexists. symmetry. apply firstn_skipn.
Qed.

Lemma slice_to_length {A : Type} (k : Z) (l : list A) :
  0 <= k -> len (slice_to k l) <= k.
Proof.
  intros Hk. unfold slice_to, len.
  destruct (k <? 0) eqn:E; [apply Z.ltb_lt in E; lia|].
  rewrite length_firstn. lia.
Qed.


Lemma Forall_prefix {A : Type} (P : A -> Prop) (l1 l2 : list A) :
  Forall P (l1 ++ l2) -> Forall P l1.
Proof. intros H. apply Forall_app in H. tauto. Qed.

Lemma StronglySorted_prefix {A : Type} (Rel : A -> A -> Prop) (l1 l2 : list A) :
  StronglySorted Rel (l1 ++ l2) -> StronglySorted Rel l1.
Proof.
  induction l1 as [|x l1 IH]; simpl; intros H; [constructor|].
  inversion H as [|? ? Hs Hf]; subst. constructor; [auto|].
  now apply Forall_prefix in Hf.
Qed.

Lemma StronglySorted_filter {A : Type} (Rel : A -> A -> Prop) (f : A -> bool)
    (l : list A) :
  StronglySorted Rel l -> StronglySorted Rel (filter f l).
Proof.
  induction l as [|x l IH]; simpl; intros H; [constructor|].
  inversion H as [|? ? Hs Hf]; subst.
  destruct (f x); [|auto]. constructor; [auto|].
  rewrite Forall_forall in *. intros y Hy. apply filter_In in Hy. apply Hf, Hy.
Qed.

Lemma Forall_filter {A : Type} (P : A -> Prop) (f : A -> bool) (l : list A) :
  Forall P l -> Forall P (filter f l).
Proof.
  rewrite !Forall_forall. intros H y Hy. apply filter_In in Hy. apply H, Hy.
Qed.

Section SortDescFacts.
Context {A : Type} (key : A -> R).

Lemma insert_desc_perm x l : Permutation (x :: l) (insert_desc key x l).
Proof.
  induction l as [|y l IH]; simpl; [reflexivity|].
  destruct (Rlt_dec (key x) (key y)); [|reflexivity].
  rewrite perm_swap. now constructor.
Qed.

Lemma sort_desc_perm l : Permutation l (sort_desc key l).
Proof.
  induction l as [|x l IH]; simpl; [constructor|].
  rewrite <- insert_desc_perm. now constructor.
Qed.

Lemma insert_desc_sorted x l :
  StronglySorted (desc key) l -> StronglySorted (desc key) (insert_desc key x l).
Proof.
  induction l as [|y l IH]; simpl; intros Hs.
  - repeat constructor.
  - inversion Hs as [|? ? Hs' Hf]; subst.
    destruct (Rlt_dec (key x) (key y)) as [Hlt|Hge].
    + constructor; [auto|].
      rewrite Forall_forall in *. intros z Hz.
      apply (Permutation_in _ (Permutation_sym (insert_desc_perm x l))) in Hz.
      destruct Hz as [<-|Hz]; [unfold desc; lra|auto].
    + constructor; [assumption|].
      constructor; [unfold desc; lra|].
      rewrite Forall_forall in *. intros z Hz.
      specialize (Hf z Hz). unfold desc in *. lra.
Qed.

Lemma sort_desc_sorted l : StronglySorted (desc key) (sort_desc key l).
Proof.
  induction l as [|x l IH]; simpl; [constructor|].
  now apply insert_desc_sorted.
Qed.

Lemma sort_desc_Forall (P : A -> Prop) l :
  Forall P l -> Forall P (sort_desc key l).
Proof.
  rewrite !Forall_forall. intros H x Hx. apply H.
  now apply (Permutation_in _ (Permutation_sym (sort_desc_perm l))).
Qed.
End SortDescFacts.

Section SortByIdFacts.
Context {A : Type}.

Lemma insert_by_id_perm (x : string * A) l :
  Permutation (x :: l) (insert_by_id x l).
Proof.
  induction l as [|y l IH]; simpl; [reflexivity|].
  destruct (String.ltb (fst y) (fst x)); [|reflexivity].
  rewrite perm_swap. now constructor.
Qed.

Lemma sort_by_id_perm (l : list (string * A)) :
  Permutation l (sort_by_id l).
Proof.
  induction l as [|x l IH]; simpl; [constructor|].
  rewrite <- insert_by_id_perm. now constructor.
Qed.

Lemma sort_by_id_Forall (P : string * A -> Prop) l :
  Forall P l -> Forall P (sort_by_id l).
Proof.
  rewrite !Forall_forall. intros H x Hx. apply H.
  now apply (Permutation_in _ (Permutation_sym (sort_by_id_perm l))).
Qed.
End SortByIdFacts.

(** Rewriting the decisions on concrete reals. *)
Lemma if_Rlt_dec_true {A : Type} (a b : R) (x y : A) :
  (a < b)%R -> (if Rlt_dec a b then x else y) = x.
Proof. intros H. destruct (Rlt_dec a b); [reflexivity|contradiction]. Qed.

Lemma if_Rlt_dec_false {A : Type} (a b : R) (x y : A) :
  (b <= a)%R -> (if Rlt_dec a b then x else y) = y.
Proof. intros H. destruct (Rlt_dec a b); [lra|reflexivity]. Qed.

Lemma if_Rge_dec_true {A : Type} (a b : R) (x y : A) :
  (b <= a)%R -> (if Rge_dec a b then x else y) = x.
Proof. intros H. destruct (Rge_dec a b); [reflexivity|lra]. Qed.

Lemma if_Rge_dec_false {A : Type} (a b : R) (x y : A) :
  (a < b)%R -> (if Rge_dec a b then x else y) = y.
Proof. intros H. destruct (Rge_dec a b); [lra|reflexivity]. Qed.

Lemma if_Req_EM_T_true {A : Type} (a b : R) (x y : A) :
  a = b -> (if Req_EM_T a b then x else y) = x.
Proof. intros H. destruct (Req_EM_T a b); [reflexivity|contradiction]. Qed.

Lemma if_Req_EM_T_false {A : Type} (a b : R) (x y : A) :
  a <> b -> (if Req_EM_T a b then x else y) = y.
Proof. intros H. destruct (Req_EM_T a b); [contradiction|reflexivity]. Qed.

(** ** The vector store *)

Module VectorDatabaseFacts.
Import VectorDatabase.
Local Open Scope R_scope.

Lemma dot_self_nonneg (v : list R) : 0 <= dot v v.
Proof.
  unfold dot. induction v as [|x v IH]; simpl; [lra|].
  pose proof (Rle_0_sqr x) as Hx. unfold Rsqr in Hx. lra.
Qed.

Lemma dot_self_zero (v : list R) : dot v v = 0 -> Forall (fun x => x = 0) v.
Proof.
  unfold dot. induction v as [|x v IH]; simpl; intros H; [constructor|].
  pose proof (Rle_0_sqr x) as Hx. unfold Rsqr in Hx.
  pose proof (dot_self_nonneg v) as Hv. unfold dot in Hv.
  assert (Hxx : x * x = 0) by lra.
  constructor; [|apply IH; lra].
  destruct (Rmult_integral _ _ Hxx); assumption.
Qed.

Lemma dot_self_pos (v : list R) : Exists (fun x => x <> 0) v -> 0 < dot v v.
Proof.
  intros Hex. pose proof (dot_self_nonneg v) as Hge.
  destruct (Req_dec (dot v v) 0) as [Hz|Hnz]; [|lra].
  apply dot_self_zero in Hz. rewrite Forall_forall in Hz.
  apply Exists_exists in Hex. destruct Hex as (x & Hin & Hx).
  elim Hx. auto.
Qed.

Lemma norm_pos (v : list R) : Exists (fun x => x <> 0) v -> 0 < norm v.
Proof. intros H. apply sqrt_lt_R0. now apply dot_self_pos. Qed.

Lemma norm_sqr (v : list R) : norm v * norm v = dot v v.
Proof. apply sqrt_sqrt, dot_self_nonneg. Qed.

Lemma dot_opp_r (v w : list R) : dot v (map Ropp w) = - dot v w.
Proof.
  unfold dot. revert w. induction v as [|x v IH]; intros [|y w]; simpl;
    try lra.
  rewrite IH. lra.
Qed.

Lemma dot_opp_opp (v : list R) : dot (map Ropp v) (map Ropp v) = dot v v.
Proof.
  unfold dot. induction v as [|x v IH]; simpl; [reflexivity|].
  rewrite IH. lra.
Qed.

Lemma len_eq {A B : Type} (l : list A) (l' : list B) :
  List.length l = List.length l' -> (len l =? len l')%Z = true.
Proof. unfold len. intros ->. apply Z.eqb_refl. Qed.

(** In exact arithmetic the cosine similarity is 1 between a nonzero vector
    and itself and -1 between a nonzero vector and its opposite. *)
Lemma cosine_exact_arithmetic (v : list R) :
  Exists (fun x => x <> 0) v ->
  _cosine_similarity v v = Ok 1 /\
  _cosine_similarity v (map Ropp v) = Ok (-1).
Proof.
  intros Hnz. pose proof (norm_pos v Hnz) as Hpos.
  pose proof (norm_sqr v) as Hsq.
  assert (Hopp : norm (map Ropp v) = norm v).
  { unfold norm. now rewrite dot_opp_opp. }
  split; unfold _cosine_similarity.
  - rewrite Z.eqb_refl. simpl.
    rewrite !if_Req_EM_T_false by lra.
    f_equal. rewrite Hsq, <- Hsq. field. lra.
  - rewrite (len_eq v (map Ropp v)) by now rewrite length_map. simpl.
    rewrite Hopp, dot_opp_r.
    rewrite !if_Req_EM_T_false by lra.
    f_equal. rewrite Hsq, <- Hsq. field. lra.
Qed.

(** C7: on an existing collection, [add_vector] with a vector whose length is
    not the collection's dimension fails with the dimension-mismatch error
    and returns the database as it was: entries and reverse index are
    untouched. *)
Theorem add_vector_dimension_mismatch
    (uuid4 collection_id : string) (vector : list R) (item_id : string)
    (metadata : option (dict pyval)) (db : t) (collection : VectorCollection) :
  PyDict.get (collections db) collection_id = Some collection ->
  len vector <> vc_dimension collection ->
  add_vector uuid4 collection_id vector item_id metadata db =
  (Err (DimensionMismatch (vc_dimension collection) (len vector)), db).
Proof.
  intros Hc Hdim. unfold add_vector. rewrite Hc.
  apply Z.eqb_neq in Hdim. now rewrite Hdim.
Qed.

End VectorDatabaseFacts.

Module VectorDatabaseExamples.
Import VectorDatabase.

Lemma add_vector_dimension_mismatch_witness :
  add_vector "e1" "docs" [1%R; 2%R] "item" None Scenario.docs =
  (Err (DimensionMismatch 3 2), Scenario.docs).
Proof.
  apply (VectorDatabaseFacts.add_vector_dimension_mismatch
           "e1" "docs" [1%R; 2%R] "item" None Scenario.docs
           {| vc_collection_id := "docs"; vc_name := "docs";
              vc_dimension := 3; vc_index_type := "flat";
              vc_metadata := [("created_at", PyStr "t0")] |}).
  - reflexivity.
  - unfold len. simpl. lia.
Defined.

End VectorDatabaseExamples.

(** ** The cosine similarity as the code computes it *)

Module Binary64Facts.
Import PrimFloat Binary64.

(** The product of two doubles does not depend on their order. *)
Lemma mul_comm (x y : float) : (x * y)%float = (y * x)%float.
Proof.
  apply FloatAxioms.Prim2SF_inj. rewrite !FloatAxioms.mul_spec.
  unfold FloatAxioms.SF64mul, SpecFloat.SFmul.
  destruct (FloatOps.Prim2SF x) as [sx|sx| |sx mx ex],
           (FloatOps.Prim2SF y) as [sy|sy| |sy my ey];
    try reflexivity; rewrite (xorb_comm sx sy); try reflexivity.
  now rewrite Pos.mul_comm, Z.add_comm.
Qed.

Lemma fold_dot_comm (a b : list float) :
  forall acc,
    fold_left (fun acc p => (acc + fst p * snd p)%float) (combine a b) acc =
    fold_left (fun acc p => (acc + fst p * snd p)%float) (combine b a) acc.
Proof.
  revert b. induction a as [|x a IH]; intros [|y b] acc; simpl;
    try reflexivity.
  rewrite (mul_comm x y). apply IH.
Qed.

Lemma dot_comm (a b : list float) : dot a b = dot b a.
Proof. apply fold_dot_comm. Qed.

Lemma dot_zero (n : nat) :
  dot (repeat 0%float n) (repeat 0%float n) = 0%float.
Proof.
  unfold dot. induction n as [|n IH]; simpl; [reflexivity|].
  change (0 + 0 * 0)%float with 0%float. exact IH.
Qed.

Lemma norm_of_zeros (n : nat) : norm (repeat 0%float n) = 0%float.
Proof. unfold norm. rewrite dot_zero. reflexivity. Qed.

(** Either argument with a computed norm of zero gives [0.0]. *)
Lemma cosine_zero_norm (v w : list float) :
  List.length w = List.length v ->
  (norm v =? 0)%float = true \/ (norm w =? 0)%float = true ->
  _cosine_similarity v w = Ok 0%float.
Proof.
  intros Hlen Hz. unfold _cosine_similarity.
  rewrite (VectorDatabaseFacts.len_eq v w) by auto. simpl.
  destruct Hz as [-> | ->]; [reflexivity|].
  now rewrite orb_true_r.
Qed.

End Binary64Facts.

Module CosineLaws.
Import PrimFloat.

(** C6, as the code has it. In exact arithmetic the expression
    [dot(a,b) / (norm(a) * norm(b))] is 1 for a nonzero vector and itself
    and -1 for a nonzero vector and its opposite; the code evaluates it on
    doubles, where these two values are not always attained
    ([similarity_of_a_vector_with_itself] below). On doubles the similarity
    of any vector and the zero vector of its length is exactly [0.0], in
    either order, as whenever the computed norm of either argument is
    zero. *)
Theorem cosine_similarity_laws (v : list R) (u : list float) :
  (Exists (fun x => x <> 0%R) v ->
     VectorDatabase._cosine_similarity v v = Ok 1%R /\
     VectorDatabase._cosine_similarity v (map Ropp v) = Ok (-1)%R) /\
  Binary64._cosine_similarity u (repeat 0%float (List.length u))
    = Ok 0%float /\
  Binary64._cosine_similarity (repeat 0%float (List.length u)) u
    = Ok 0%float /\
  (forall w, List.length w = List.length u ->
     (Binary64.norm u =? 0)%float = true \/
     (Binary64.norm w =? 0)%float = true ->
     Binary64._cosine_similarity u w = Ok 0%float /\
     Binary64._cosine_similarity w u = Ok 0%float).
Proof.
  split; [apply VectorDatabaseFacts.cosine_exact_arithmetic|].
  split; [|split].
  - apply Binary64Facts.cosine_zero_norm; [apply repeat_length|].
    right. rewrite Binary64Facts.norm_of_zeros. reflexivity.
  - apply Binary64Facts.cosine_zero_norm;
      [symmetry; apply repeat_length|].
    left. rewrite Binary64Facts.norm_of_zeros. reflexivity.
  - intros w Hlen Hz.
    split; apply Binary64Facts.cosine_zero_norm; auto; tauto.
Qed.

(** On doubles the similarity of the nonzero vector [[1, 1]] with itself is
    [0.9999999999999998], which is less than [1.0], and its similarity with
    its opposite is [-0.9999999999999998]: the norm is the rounded square
    root of 2, and its square is not 2. *)
Lemma similarity_of_a_vector_with_itself :
  Binary64._cosine_similarity [1; 1]%float [1; 1]%float
    = Ok 0x1.ffffffffffffep-1%float /\
  Binary64._cosine_similarity [1; 1]%float [-1; -1]%float
    = Ok (-0x1.ffffffffffffep-1)%float /\
  (0x1.ffffffffffffep-1 <? 1)%float = true /\
  Binary64._cosine_similarity [1; 1]%float [1; 1]%float <> Ok 1%float /\
  Binary64._cosine_similarity [1; 1]%float [-1; -1]%float <> Ok (-1)%float.
Proof.
  repeat split; try reflexivity; intros H; vm_compute in H; discriminate H.
Qed.

End CosineLaws.

(** ** The memory manager: tiers *)

Module MemoryManagerFacts.
Import MemoryManager.


Lemma store_item_tiers uuid4 item mm :
  let id := stored_id uuid4 item in
  exists item',
    mi_memory_type item' = mi_memory_type item /\
    snd (store_item uuid4 item mm) =
    if is_short_term (mi_memory_type item)
    then {| short_term_memory := PyDict.set (short_term_memory mm) id item';
            long_term_memory := long_term_memory mm;
            categories := categories mm |}
    else {| short_term_memory := short_term_memory mm;
            long_term_memory := PyDict.set (long_term_memory mm) id item';
            categories := categories mm |}.
Proof.
  unfold store_item, stored_id.
  destruct (String.eqb (mi_item_id item) "");
    eexists; (split; [|reflexivity]); reflexivity.
Qed.

Lemma store_item_exclusive uuid4 item mm :
  fresh_store (Store uuid4 item) mm -> exclusive mm ->
  exclusive (snd (store_item uuid4 item mm)).
Proof.
  intros Hfresh Hex.
  destruct (store_item_tiers uuid4 item mm) as (item' & _ & ->).
  simpl in Hfresh.
  destruct (is_short_term (mi_memory_type item)); intros k; simpl;
    rewrite mem_set;
    destruct (String.eqb (stored_id uuid4 item) k) eqn:E; simpl;
    try (apply String.eqb_eq in E; subst k; congruence);
    apply Hex.
Qed.

Lemma retrieve_item_exclusive now item_id mm :
  exclusive mm -> exclusive (snd (retrieve_item now item_id mm)).
Proof.
  intros Hex. unfold retrieve_item.
  destruct (PyDict.get (short_term_memory mm) item_id) eqn:Hs.
  - intros k; simpl. rewrite mem_set.
    destruct (String.eqb item_id k) eqn:E; simpl; [|apply Hex].
    apply String.eqb_eq in E. subst k. intros _.
    apply Hex. now apply mem_get_some in Hs.
  - destruct (PyDict.get (long_term_memory mm) item_id) eqn:Hl;
      [|assumption].
    intros k; simpl. rewrite mem_set.
    destruct (String.eqb item_id k) eqn:E; simpl; [|apply Hex].
    apply String.eqb_eq in E. subst k. intros Hk _.
    apply (Hex item_id Hk). now apply mem_get_some in Hl.
Qed.

Lemma update_item_exclusive item mm :
  exclusive mm -> exclusive (snd (update_item item mm)).
Proof.
  intros Hex. unfold update_item.
  destruct (PyDict.mem (short_term_memory mm) (mi_item_id item)) eqn:Hs.
  - intros k; simpl. rewrite mem_set.
    destruct (String.eqb (mi_item_id item) k) eqn:E; simpl; [|apply Hex].
    apply String.eqb_eq in E. subst k. intros _. now apply Hex.
  - destruct (PyDict.mem (long_term_memory mm) (mi_item_id item)) eqn:Hl;
      [|assumption].
    intros k; simpl. rewrite mem_set.
    destruct (String.eqb (mi_item_id item) k) eqn:E; simpl; [|apply Hex].
    apply String.eqb_eq in E. subst k. congruence.
Qed.

Lemma delete_item_exclusive item_id mm :
  exclusive mm -> exclusive (snd (delete_item item_id mm)).
Proof.
  intros Hex. unfold delete_item.
  destruct (PyDict.mem (short_term_memory mm) item_id).
  - intros k; simpl. rewrite mem_del.
    destruct (String.eqb item_id k); simpl; [discriminate|apply Hex].
  - destruct (PyDict.mem (long_term_memory mm) item_id); [|assumption].
    intros k; simpl. rewrite mem_del.
    destruct (String.eqb item_id k); simpl; [discriminate|apply Hex].
Qed.

Lemma add_item_to_category_tiers item_id category_id mm :
  short_term_memory (snd (add_item_to_category item_id category_id mm)) =
    short_term_memory mm /\
  long_term_memory (snd (add_item_to_category item_id category_id mm)) =
    long_term_memory mm.
Proof.
  unfold add_item_to_category.
  destruct (PyDict.get (categories mm) category_id); [|tauto].
  destruct (negb (PyDict.mem (short_term_memory mm) item_id)
            && negb (PyDict.mem (long_term_memory mm) item_id)); [tauto|].
  destruct (negb (str_in item_id (mc_items m))); simpl; tauto.
Qed.

Lemma move_to_long_term_exclusive item_id mm :
  exclusive mm -> exclusive (snd (move_to_long_term item_id mm)).
Proof.
  intros Hex. unfold move_to_long_term.
  destruct (PyDict.get (short_term_memory mm) item_id); [|assumption].
  intros k; simpl. rewrite mem_del, mem_set.
  destruct (String.eqb item_id k); simpl; [discriminate|apply Hex].
Qed.

Lemma move_to_short_term_exclusive item_id mm :
  exclusive mm -> exclusive (snd (move_to_short_term item_id mm)).
Proof.
  intros Hex. unfold move_to_short_term.
  destruct (PyDict.get (long_term_memory mm) item_id); [|assumption].
  intros k; simpl. rewrite mem_del, mem_set.
  destruct (String.eqb item_id k); simpl; [discriminate|apply Hex].
Qed.

Lemma moves_exclusive ids mm :
  exclusive mm ->
  exclusive (fold_left (fun m id => snd (move_to_long_term id m)) ids mm).
Proof.
  revert mm. induction ids as [|id ids IH]; simpl; intros mm Hex;
    [assumption|].
  apply IH. now apply move_to_long_term_exclusive.
Qed.

Lemma step_exclusive o mm :
  fresh_store o mm -> exclusive mm -> exclusive (step o mm).
Proof.
  intros Hfresh Hex. destruct o; simpl.
  - now apply store_item_exclusive.
  - now apply retrieve_item_exclusive.
  - now apply update_item_exclusive.
  - now apply delete_item_exclusive.
  - assumption.
  - destruct (add_item_to_category_tiers item_id category_id mm) as [Hs Hl].
    intros k. rewrite Hs, Hl. apply Hex.
  - now apply move_to_long_term_exclusive.
  - now apply move_to_short_term_exclusive.
  - now apply moves_exclusive.
Qed.

Lemma run_exclusive ops mm :
  fresh_stores ops mm -> exclusive mm -> exclusive (run ops mm).
Proof.
  unfold run. revert mm.
  induction ops as [|o ops IH]; simpl; intros mm Hfresh Hex; [assumption|].
  destruct Hfresh as [Ho Hrest]. apply IH; [assumption|].
  now apply step_exclusive.
Qed.

Lemma fresh_stores_firstn n ops mm :
  fresh_stores ops mm -> fresh_stores (firstn n ops) mm.
Proof.
  revert ops mm. induction n as [|n IH]; intros [|o ops] mm; simpl; auto.
  intros [Ho Hrest]. split; auto.
Qed.

Lemma init_exclusive : exclusive init.
Proof. intros k. simpl. discriminate. Qed.

(** A move of an identifier that the source tier does not hold fails and
    leaves the manager as it was. *)
Lemma move_absent item_id mm :
  (PyDict.mem (short_term_memory mm) item_id = false ->
   move_to_long_term item_id mm = (false, mm)) /\
  (PyDict.mem (long_term_memory mm) item_id = false ->
   move_to_short_term item_id mm = (false, mm)).
Proof.
  unfold move_to_long_term, move_to_short_term. split; intros H;
    apply mem_get_none in H; now rewrite H.
Qed.

(** A move that succeeds leaves the identifier in the destination tier
    only. *)
Lemma move_present item_id mm :
  (PyDict.mem (short_term_memory mm) item_id = true ->
   let '(moved, mm') := move_to_long_term item_id mm in
   moved = true /\
   PyDict.mem (short_term_memory mm') item_id = false /\
   PyDict.mem (long_term_memory mm') item_id = true) /\
  (PyDict.mem (long_term_memory mm) item_id = true ->
   let '(moved, mm') := move_to_short_term item_id mm in
   moved = true /\
   PyDict.mem (long_term_memory mm') item_id = false /\
   PyDict.mem (short_term_memory mm') item_id = true).
Proof.
  unfold move_to_long_term, move_to_short_term. split; intros H;
    apply mem_true_get in H; destruct H as [item ->]; simpl;
    rewrite mem_del, mem_set, String.eqb_refl; auto.
Qed.

(** C3, as the code has it: along every sequence of manager operations from
    the empty manager in which no [store_item] reuses an identifier held by
    the other tier, no identifier is ever a key of both tier maps; a move of
    an identifier absent from its source tier returns failure and changes
    nothing, and a move that succeeds leaves the identifier in the
    destination tier only. *)
Theorem tier_exclusivity (ops : list op) (item_id : string) :
  fresh_stores ops init ->
  (forall n, exclusive (run (firstn n ops) init)) /\
  let mm := run ops init in
  (PyDict.mem (short_term_memory mm) item_id = false ->
   move_to_long_term item_id mm = (false, mm)) /\
  (PyDict.mem (long_term_memory mm) item_id = false ->
   move_to_short_term item_id mm = (false, mm)) /\
  (PyDict.mem (short_term_memory mm) item_id = true ->
   let '(moved, mm') := move_to_long_term item_id mm in
   moved = true /\
   PyDict.mem (short_term_memory mm') item_id = false /\
   PyDict.mem (long_term_memory mm') item_id = true) /\
  (PyDict.mem (long_term_memory mm) item_id = true ->
   let '(moved, mm') := move_to_short_term item_id mm in
   moved = true /\
   PyDict.mem (long_term_memory mm') item_id = false /\
   PyDict.mem (short_term_memory mm') item_id = true).
Proof.
  intros Hfresh. split.
  - intros n. apply run_exclusive; [|apply init_exclusive].
    now apply fresh_stores_firstn.
  - cbv zeta.
    pose proof (move_absent item_id (run ops init)) as [H1 H2].
    pose proof (move_present item_id (run ops init)) as [H3 H4].
    auto.
Qed.

End MemoryManagerFacts.

Module MemoryManagerExamples.
Import MemoryManager.

Lemma tier_exclusivity_witness :
  exclusive (run Scenario.moved_around init).
Proof.
  assert (Hfresh : fresh_stores Scenario.moved_around init).
  { simpl. repeat split; reflexivity. }
  exact (proj1 (MemoryManagerFacts.tier_exclusivity
                  Scenario.moved_around "a" Hfresh) 4%nat).
Defined.

(** Storing one identifier as a short-term item and then as a long-term item
    leaves it in both tier maps. *)
Lemma tier_exclusivity_counterexample :
  ~ exclusive (run Scenario.stored_twice init).
Proof.
  intros Hex. apply (Hex "a"); reflexivity.
Qed.

End MemoryManagerExamples.

(** ** The memory manager: context windows *)

Module ContextWindowFacts.
Import MemoryManager.

Lemma token_sum_app l1 l2 : token_sum (l1 ++ l2) = token_sum l1 + token_sum l2.
Proof.
  unfold token_sum. induction l1 as [|x l1 IH]; simpl; [reflexivity|].
  rewrite IH. lia.
Qed.

(** The selection loop takes a prefix of its input and stops either at the
    end or in front of an item that does not fit. *)
Lemma select_items_spec max_tokens context_items :
  forall selected current selected' current',
    select_items max_tokens context_items selected current
      = (selected', current') ->
    exists taken rest,
      context_items = (taken ++ rest)%list /\
      selected' = (selected ++ taken)%list /\
      current' = current + token_sum taken /\
      (current <= max_tokens -> current' <= max_tokens) /\
      match rest with
      | [] => True
      | next :: _ => max_tokens - current' < ci_token_count next
      end.
Proof.
  induction context_items as [|item items IH]; simpl;
    intros selected current selected' current' H.
  - injection H as <- <-. exists [], []. simpl.
    rewrite app_nil_r. repeat split; auto; lia.
  - destruct (current + ci_token_count item <=? max_tokens) eqn:E.
    + apply Z.leb_le in E.
      apply IH in H. destruct H as (taken & rest & -> & -> & -> & Hle & Hnext).
      exists (item :: taken), rest. simpl.
      rewrite <- app_assoc. simpl. repeat split; auto; lia.
    + apply Z.leb_gt in E. injection H as <- <-.
      exists [], (item :: items). simpl.
      rewrite app_nil_r. repeat split; auto; lia.
Qed.

(** The window is what the selection loop takes from the ranked
    candidates. *)
Lemma window_is_selection uuid4 now max_tokens strategy mm :
  exists taken rest,
    ranked_items now strategy mm = (taken ++ rest)%list /\
    cw_items (create_context_window uuid4 now max_tokens strategy mm) = taken /\
    cw_current_tokens (create_context_window uuid4 now max_tokens strategy mm)
      = token_sum taken /\
    (0 <= max_tokens -> token_sum taken <= max_tokens) /\
    match rest with
    | [] => True
    | next :: _ => max_tokens - token_sum taken < ci_token_count next
    end.
Proof.
  unfold create_context_window. fold (ranked_items now strategy mm).
  destruct (select_items max_tokens (ranked_items now strategy mm) [] 0)
    as [selected current] eqn:Hsel.
  apply select_items_spec in Hsel.
  destruct Hsel as (taken & rest & Hranked & -> & -> & Hle & Hnext).
  exists taken, rest. simpl. repeat split; auto.
Qed.

(** C1, as the code has it: for a non-negative budget the window's
    [current_tokens] does not exceed [max_tokens]; [current_tokens] is the sum
    of the token counts of the window's items; the window is a prefix of the
    short-term items in the order of the strategy, and the first item left
    out, when there is one, has a token count above
    [max_tokens - current_tokens]. Items ranked after it are left out whether
    they would fit or not. *)
Theorem context_window_greedy_prefix
    (uuid4 : string) (now : R) (max_tokens : Z) (strategy : string) (mm : t) :
  let w := create_context_window uuid4 now max_tokens strategy mm in
  (0 <= max_tokens -> cw_current_tokens w <= max_tokens) /\
  cw_max_tokens w = max_tokens /\
  cw_current_tokens w = token_sum (cw_items w) /\
  exists rest,
    ranked_items now strategy mm = (cw_items w ++ rest)%list /\
    match rest with
    | [] => True
    | next :: _ => max_tokens - cw_current_tokens w < ci_token_count next
    end.
Proof.
  cbv zeta.
  destruct (window_is_selection uuid4 now max_tokens strategy mm)
    as (taken & rest & Hranked & Hitems & Htokens & Hle & Hnext).
  rewrite Hitems, Htokens.
  split; [assumption|]. split; [|split; [reflexivity|]].
  - unfold create_context_window. now destruct (select_items _ _ _ _).
  - exists rest. split; assumption.
Qed.

End ContextWindowFacts.

Module ContextWindowExamples.
Import MemoryManager.

Lemma three_notes_short :
  short_term_memory Scenario.three_notes =
  [("c", Scenario.note_c); ("b", Scenario.note_b); ("a", Scenario.note_a)].
Proof. reflexivity. Qed.

(** The default strategy ranks the three notes by importance: their recency
    is the same. *)
Lemma three_notes_ranked :
  ranked_items 0 "importance_recency" Scenario.three_notes =
  map (to_context_item 0) [Scenario.note_a; Scenario.note_b; Scenario.note_c].
Proof.
  unfold ranked_items. rewrite three_notes_short.
  unfold sort_by_strategy. simpl String.eqb. cbv iota.
  unfold PyDict.values. simpl map. unfold sort_desc. simpl fold_right.
  repeat (decide_real; simpl insert_desc).
  reflexivity.
Qed.

(** With a budget of 10 tokens the window holds the 5-token note alone: the
    8-token note stops the loop in front of the 2-token note. *)
Lemma three_notes_window :
  create_context_window "w" 0 10 "importance_recency" Scenario.three_notes =
  {| cw_window_id := "w";
     cw_items := [to_context_item 0 Scenario.note_a];
     cw_max_tokens := 10;
     cw_current_tokens := 5;
     cw_strategy := "importance_recency" |}.
Proof.
  unfold create_context_window.
  fold (ranked_items 0 "importance_recency" Scenario.three_notes).
  rewrite three_notes_ranked. reflexivity.
Qed.

Lemma context_window_budget_counterexample :
  ~ budget_and_no_fitting_item_left Scenario.three_notes
      (create_context_window "w" 0 10 "importance_recency"
         Scenario.three_notes).
Proof.
  rewrite three_notes_window. intros [_ Hfit].
  apply (Hfit ltac:(discriminate) Scenario.note_c).
  - rewrite three_notes_short. simpl. auto.
  - simpl. intros [E|[]]. discriminate.
  - vm_compute. discriminate.
Qed.

(** A negative budget is not kept either: the empty window counts 0 tokens. *)
Lemma negative_budget_window :
  cw_current_tokens (create_context_window "w" 0 (-1) "fifo" init) = 0 /\
  cw_max_tokens (create_context_window "w" 0 (-1) "fifo" init) = -1.
Proof. split; reflexivity. Qed.

Lemma context_window_greedy_prefix_witness :
  cw_current_tokens
    (create_context_window "w" 0 10 "importance_recency" Scenario.three_notes)
  <= 10.
Proof.
  apply (proj1 (ContextWindowFacts.context_window_greedy_prefix
                  "w" 0 10 "importance_recency" Scenario.three_notes)).
  lia.
Defined.

End ContextWindowExamples.

(** ** Search results of the vector store *)

Module SearchFacts.
Import VectorDatabase.
Local Open Scope R_scope.

Lemma similarities_of_threshold query_vector threshold filter_metadata es :
  forall sims,
    similarities_of query_vector threshold filter_metadata es = Ok sims ->
    Forall (fun r => snd r >= threshold) sims.
Proof.
  induction es as [|[entry_id entry] es IH]; simpl; intros sims H.
  - injection H as <-. constructor.
  - destruct (negb (is_empty filter_metadata)
              && negb (_matches_metadata_filter (ve_metadata entry)
                         filter_metadata)); [auto|].
    bind_inv H. bind_inv H.
    destruct (Rge_dec a threshold); injection H as <-; auto.
Qed.

(** What [search_vectors] returns: at most [top_k] pairs for a non-negative
    [top_k], every score at or above the threshold, in descending order. *)
Lemma search_vectors_contract collection_id query_vector top_k threshold
    filter_metadata db results :
  search_vectors collection_id query_vector top_k threshold filter_metadata db
    = Ok results ->
  ((0 <= top_k)%Z -> (len results <= top_k)%Z) /\
  Forall (fun r => snd r >= threshold) results /\
  StronglySorted (desc snd) results.
Proof.
  unfold search_vectors. intros H.
  destruct (PyDict.get (collections db) collection_id); [|discriminate].
  destruct (negb (len query_vector =? vc_dimension v)%Z); [discriminate|].
  destruct (PyDict.get (entries db) collection_id) as [es|]; [|discriminate].
  bind_inv H. injection H as <-.
  apply similarities_of_threshold in E.
  destruct (slice_to_prefix top_k (sort_desc snd a)) as [rest Hrest].
  split; [|split].
  - now apply slice_to_length.
  - apply (Forall_prefix _ _ rest). rewrite <- Hrest.
    now apply sort_desc_Forall.
  - apply (StronglySorted_prefix _ _ rest). rewrite <- Hrest.
    apply sort_desc_sorted.
Qed.

(** The deduplication keeps a subsequence of the scores, under item ids that
    are pairwise different and not yet seen. *)
Lemma dedup_items_spec es vector_results :
  forall seen results,
    dedup_items es seen vector_results = Ok results ->
    (List.length results <= List.length vector_results)%nat /\
    (forall P : R -> Prop,
        Forall (fun r => P (snd r)) vector_results ->
        Forall (fun r => P (snd r)) results) /\
    (StronglySorted (desc snd) vector_results ->
     StronglySorted (desc snd) results) /\
    NoDup (map fst results) /\
    (forall id, In id (map fst results) -> ~ In id seen).
Proof.
  induction vector_results as [|[entry_id score] rest IH]; simpl;
    intros seen results H.
  - injection H as <-. simpl. repeat split; auto; constructor.
  - destruct (PyDict.get es entry_id) as [entry|]; [|discriminate].
    destruct (negb (str_in (ve_item_id entry) seen)) eqn:Hseen.
    + bind_inv H. injection H as <-.
      apply IH in E. destruct E as (Hlen & HP & Hsorted & Hnd & Hnew).
      simpl. repeat split.
      * lia.
      * intros P HF. inversion HF; subst. constructor; auto.
      * intros HS. inversion HS as [|? ? HS' HF]; subst.
        constructor; [auto|].
        apply (HP (fun s => s <= score)). exact HF.
      * constructor; [|assumption].
        intros Hin. apply Hnew in Hin. apply Hin. now left.
      * intros id [<-|Hin].
        -- apply negb_true_iff in Hseen. now apply str_in_false.
        -- intros Hs. apply (Hnew id Hin). now right.
    + apply IH in H. destruct H as (Hlen & HP & Hsorted & Hnd & Hnew).
      repeat split; auto.
      * intros P HF. inversion HF; subst. auto.
      * intros HS. inversion HS; subst. auto.
Qed.

(** What [search_items] returns. *)
Lemma search_items_contract collection_id query_vector top_k threshold
    filter_metadata db results :
  search_items collection_id query_vector top_k threshold filter_metadata db
    = Ok results ->
  ((0 <= top_k)%Z -> (len results <= top_k)%Z) /\
  Forall (fun r => snd r >= threshold) results /\
  StronglySorted (desc snd) results /\
  NoDup (map fst results).
Proof.
  unfold search_items. intros H. bind_inv H.
  apply search_vectors_contract in E. destruct E as (Hlen & Hthr & Hsorted).
  destruct (PyDict.get (entries db) collection_id) as [es|]; [|discriminate].
  apply dedup_items_spec in H. destruct H as (Hl & HP & HS & Hnd & _).
  repeat split; auto.
  - intros Hk. specialize (Hlen Hk). unfold len in *. lia.
  - apply (HP (fun s => s >= threshold)). exact Hthr.
Qed.

End SearchFacts.

(** ** The retrieval engine *)

Module RetrievalEngineFacts.
Import RetrievalEngine.
Local Open Scope R_scope.

Lemma NoDup_map_filter {A : Type} (f : string * A -> bool)
    (l : list (string * A)) :
  NoDup (map fst l) -> NoDup (map fst (filter f l)).
Proof.
  induction l as [|x l IH]; simpl; intros Hnd; [constructor|].
  inversion Hnd as [|? ? Hnotin Hnd']; subst.
  destruct (f x); simpl; [|auto]. constructor; [|auto].
  intros Hin. apply Hnotin. apply in_map_iff in Hin.
  destruct Hin as (y & Hy & Hin). apply filter_In in Hin.
  apply in_map_iff. exists y. tauto.
Qed.

Lemma NoDup_prefix {A : Type} (l1 l2 : list A) :
  NoDup (l1 ++ l2) -> NoDup l1.
Proof. apply NoDup_app_remove_r. Qed.

Lemma constant_scores_sorted (c : R) (l : list (string * R)) :
  Forall (fun r => snd r = c) l -> StronglySorted (desc snd) l.
Proof.
  induction 1 as [|x l Hx Hl IH]; constructor; [assumption|].
  rewrite Forall_forall in *. intros y Hy. unfold desc.
  rewrite Hx, (Hl y Hy). lra.
Qed.

(** *** Semantic search *)

Lemma semantic_search_contract svc db default_collection_id query items_dict
    results :
  _semantic_search svc db default_collection_id query items_dict = Ok results ->
  ((0 <= kq_top_k query)%Z -> (len results <= kq_top_k query)%Z) /\
  Forall (fun r => snd r >= kq_threshold query) results /\
  StronglySorted (desc snd) results /\
  NoDup (map fst results).
Proof.
  unfold _semantic_search. intros H.
  destruct default_collection_id as [collection_id|].
  2:{ injection H as <-. repeat split; try constructor. simpl. auto. }
  destruct (String.eqb collection_id "").
  { injection H as <-. repeat split; try constructor. simpl. auto. }
  bind_inv H. injection H as <-.
  apply SearchFacts.search_items_contract in E.
  destruct E as (Hlen & Hthr & Hsorted & Hnd).
  repeat split.
  - intros Hk. specialize (Hlen Hk). unfold len in *.
    pose proof (filter_length_le
                  (fun r : string * R => PyDict.mem items_dict (fst r)) a).
    lia.
  - now apply Forall_filter.
  - now apply StronglySorted_filter.
  - now apply NoDup_map_filter.
Qed.

(** *** Keyword search *)

Lemma keyword_scores_spec svc now query query_tokens items :
  forall scores,
    keyword_scores svc now query query_tokens items = Ok scores ->
    Forall (fun r => snd r >= kq_threshold query) scores /\
    (forall id, In id (map fst scores) -> In id (PyDict.keys items)) /\
    (NoDup (PyDict.keys items) -> NoDup (map fst scores)).
Proof.
  unfold PyDict.keys.
  induction items as [|[item_id item] items IH]; simpl; intros scores H.
  - injection H as <-. repeat split; auto; constructor.
  - bind_inv H. destruct a.
    + apply IH in H. destruct H as (Hthr & Hsub & Hnd).
      repeat split; auto.
      intros Hnd'. inversion Hnd'; auto.
    + bind_inv H. destruct (IH _ eq_refl) as (Hthr & Hsub & Hnd).
      destruct (Rge_dec _ _); injection H as <-.
      * simpl. repeat split.
        -- constructor; auto.
        -- intros id [<-|Hin]; auto.
        -- intros Hnd'. inversion Hnd' as [|? ? Hnotin Hnd'']; subst.
           constructor; auto.
      * repeat split; auto.
        intros Hnd'. inversion Hnd'; auto.
Qed.

Lemma keyword_search_contract svc now query items_dict results :
  _keyword_search svc now query items_dict = Ok results ->
  ((0 <= kq_top_k query)%Z -> (len results <= kq_top_k query)%Z) /\
  Forall (fun r => snd r >= kq_threshold query) results /\
  StronglySorted (desc snd) results /\
  (NoDup (PyDict.keys items_dict) -> NoDup (map fst results)).
Proof.
  unfold _keyword_search. intros H. bind_inv H. injection H as <-.
  apply keyword_scores_spec in E. destruct E as (Hthr & _ & Hnd).
  destruct (slice_to_prefix (kq_top_k query) (sort_desc snd a))
    as [rest Hrest].
  repeat split.
  - now apply slice_to_length.
  - apply (Forall_prefix _ _ rest). rewrite <- Hrest.
    now apply sort_desc_Forall.
  - apply (StronglySorted_prefix _ _ rest). rewrite <- Hrest.
    apply sort_desc_sorted.
  - intros Hk. apply (NoDup_prefix _ (map fst rest)).
    rewrite <- map_app, <- Hrest.
    apply (Permutation_NoDup (l := map fst a)); [|auto].
    apply Permutation_map, sort_desc_perm.
Qed.

(** *** Hybrid search *)

Lemma combine_scores_spec semantic_scores keyword_scores threshold ids :
  forall id c,
    In (id, c) (combine_scores semantic_scores keyword_scores threshold ids) ->
    c = score_or_zero semantic_scores id * semantic_weight
        + score_or_zero keyword_scores id * keyword_weight /\
    c >= threshold.
Proof.
  induction ids as [|i ids IH]; simpl; intros id c Hin; [contradiction|].
  destruct (Rge_dec _ _) as [Hge|Hlt]; [|auto].
  destruct Hin as [Heq|Hin]; [|auto].
  injection Heq as <- <-. auto.
Qed.

Lemma hybrid_search_results svc now db default_collection_id query items_dict
    results :
  _hybrid_search svc now db default_collection_id query items_dict
    = Ok results ->
  exists semantic_results keyword_results combined,
    _semantic_search svc db default_collection_id query items_dict
      = Ok semantic_results /\
    _keyword_search svc now query items_dict = Ok keyword_results /\
    combined =
      combine_scores (PyDict.of_list semantic_results)
        (PyDict.of_list keyword_results) (kq_threshold query)
        (set_order svc
           (PyDict.keys (PyDict.of_list semantic_results)
            ++ PyDict.keys (PyDict.of_list keyword_results))%list) /\
    results = slice_to (kq_top_k query) (sort_desc snd combined).
Proof.
  unfold _hybrid_search. intros H. bind_inv H. bind_inv H.
  injection H as <-. eauto 10.
Qed.

Lemma hybrid_search_contract svc now db default_collection_id query items_dict
    results :
  _hybrid_search svc now db default_collection_id query items_dict
    = Ok results ->
  ((0 <= kq_top_k query)%Z -> (len results <= kq_top_k query)%Z) /\
  Forall (fun r => snd r >= kq_threshold query) results /\
  StronglySorted (desc snd) results.
Proof.
  intros H. apply hybrid_search_results in H.
  destruct H as (sem & kw & combined & _ & _ & Hc & ->).
  destruct (slice_to_prefix (kq_top_k query) (sort_desc snd combined))
    as [rest Hrest].
  repeat split.
  - now apply slice_to_length.
  - apply (Forall_prefix _ _ rest). rewrite <- Hrest.
    apply sort_desc_Forall. rewrite Forall_forall. intros [id c] Hin.
    subst combined. apply combine_scores_spec in Hin. tauto.
  - apply (StronglySorted_prefix _ _ rest). rewrite <- Hrest.
    apply sort_desc_sorted.
Qed.

(** *** Exact search *)

Lemma exact_matches_spec svc now query query_text items :
  forall matches,
    exact_matches svc now query query_text items = Ok matches ->
    Forall (fun r => snd r = 1) matches.
Proof.
  induction items as [|[item_id item] items IH]; simpl; intros matches H.
  - injection H as <-. constructor.
  - bind_inv H. destruct a; [auto|].
    bind_inv H. specialize (IH _ eq_refl).
    destruct (contains _ _); injection H as <-; auto.
Qed.

Lemma exact_search_contract svc now query items_dict results :
  _exact_search svc now query items_dict = Ok results ->
  ((0 <= kq_top_k query)%Z -> (len results <= kq_top_k query)%Z) /\
  Forall (fun r => snd r = 1) results /\
  StronglySorted (desc snd) results.
Proof.
  unfold _exact_search. intros H. bind_inv H. injection H as <-.
  apply exact_matches_spec in E.
  destruct (slice_to_prefix (kq_top_k query) (sort_by_id a)) as [rest Hrest].
  assert (Hone : Forall (fun r : string * R => snd r = 1)
                   (slice_to (kq_top_k query) (sort_by_id a))).
  { apply (Forall_prefix _ _ rest). rewrite <- Hrest.
    now apply sort_by_id_Forall. }
  repeat split.
  - now apply slice_to_length.
  - exact Hone.
  - now apply (constant_scores_sorted 1).
Qed.

Lemma lookup_items_length items_dict results :
  forall items,
    lookup_items items_dict results = Ok items ->
    List.length items = List.length results.
Proof.
  induction results as [|[item_id score] results IH]; simpl; intros items H.
  - now injection H as <-.
  - destruct (PyDict.get items_dict item_id); [|discriminate].
    bind_inv H. injection H as <-. simpl. f_equal. auto.
Qed.

(** C2, as the code has it: the response of [process_query] carries the
    items and scores of a result list that has at most [top_k] entries when
    [top_k] is not negative, whose scores do not increase, and whose scores
    are at or above the threshold for semantic, keyword and hybrid queries;
    for an exact query every score is [1.0], whatever the threshold. *)
Theorem process_query_contract
    (svc : Services) (now : R) (db : VectorDatabase.t)
    (default_collection_id : option string) (query : KnowledgeQuery)
    (items_dict : dict KnowledgeItem) (response : KnowledgeResponse) :
  process_query svc now db default_collection_id query items_dict
    = Ok response ->
  exists results,
    search svc now db default_collection_id query items_dict = Ok results /\
    kr_scores response = PyDict.of_list results /\
    List.length (kr_items response) = List.length results /\
    ((0 <= kq_top_k query)%Z -> (len results <= kq_top_k query)%Z) /\
    (kq_query_type query <> Q_EXACT ->
     Forall (fun r => snd r >= kq_threshold query) results) /\
    (kq_query_type query = Q_EXACT -> Forall (fun r => snd r = 1) results) /\
    non_increasing results.
Proof.
  unfold process_query. intros H. bind_inv H. bind_inv H.
  injection H as <-. simpl. exists a. split; [reflexivity|].
  split; [reflexivity|].
  split; [exact (lookup_items_length _ _ _ E0)|].
  clear E0. unfold search in E. unfold non_increasing.
  destruct (kq_query_type query).
  - apply semantic_search_contract in E. destruct E as (? & ? & ? & ?).
    repeat split; auto; try discriminate. now apply StronglySorted_Sorted.
  - apply keyword_search_contract in E. destruct E as (? & ? & ? & ?).
    repeat split; auto; try discriminate. now apply StronglySorted_Sorted.
  - apply hybrid_search_contract in E. destruct E as (? & ? & ?).
    repeat split; auto; try discriminate. now apply StronglySorted_Sorted.
  - apply exact_search_contract in E. destruct E as (? & ? & ?).
    repeat split; auto; try congruence. now apply StronglySorted_Sorted.
Qed.

End RetrievalEngineFacts.

(** ** Hybrid scores *)

Module HybridFacts.
Import RetrievalEngine.
Local Open Scope R_scope.

Section OfList.
Context {V : Type}.

Lemma fold_set_absent (l : list (string * V)) :
  forall (d : dict V) k,
    ~ In k (map fst l) ->
    PyDict.get (fold_left (fun d kv => PyDict.set d (fst kv) (snd kv)) l d) k
    = PyDict.get d k.
Proof.
  induction l as [|[k' v'] l IH]; simpl; intros d k Hnotin; [reflexivity|].
  rewrite IH by tauto. apply get_set_other. intros ->. tauto.
Qed.

Lemma fold_set_present (l : list (string * V)) :
  forall (d : dict V) k v,
    NoDup (map fst l) -> In (k, v) l ->
    PyDict.get (fold_left (fun d kv => PyDict.set d (fst kv) (snd kv)) l d) k
    = Some v.
Proof.
  induction l as [|[k' v'] l IH]; simpl; intros d k v Hnd Hin;
    [contradiction|].
  inversion Hnd as [|? ? Hnotin Hnd']; subst.
  destruct Hin as [Heq|Hin].
  - injection Heq as -> ->. rewrite fold_set_absent by assumption.
    apply get_set_same.
  - now apply IH.
Qed.

(** A dictionary built from pairs with pairwise different keys maps each
    key to the value it is paired with, and nothing else. *)
Lemma of_list_present (l : list (string * V)) k v :
  NoDup (map fst l) -> In (k, v) l -> PyDict.get (PyDict.of_list l) k = Some v.
Proof. apply fold_set_present. Qed.

Lemma of_list_absent (l : list (string * V)) k :
  ~ In k (map fst l) -> PyDict.get (PyDict.of_list l) k = None.
Proof. intros H. unfold PyDict.of_list. now rewrite fold_set_absent. Qed.
End OfList.

Lemma score_or_zero_present (l : list (string * R)) id s :
  NoDup (map fst l) -> In (id, s) l -> score_or_zero (PyDict.of_list l) id = s.
Proof.
  intros Hnd Hin. unfold score_or_zero. now rewrite (of_list_present l id s).
Qed.

Lemma score_or_zero_absent (l : list (string * R)) id :
  ~ In id (map fst l) -> score_or_zero (PyDict.of_list l) id = 0.
Proof. intros H. unfold score_or_zero. now rewrite of_list_absent. Qed.

End HybridFacts.

(** ** Searches on the scenarios *)

Module SearchExamples.
Import VectorDatabase.
Local Open Scope R_scope.

Lemma cosine_same : _cosine_similarity [1; 0] [1; 0] = Ok 1.
Proof.
  unfold _cosine_similarity, norm, dot. simpl.
  replace (1 * 1 + (0 * 0 + 0)) with 1 by lra. rewrite sqrt_1.
  repeat decide_real. f_equal. lra.
Qed.

Lemma cosine_orthogonal : _cosine_similarity [1; 0] [0; 1] = Ok 0.
Proof.
  unfold _cosine_similarity, norm, dot. simpl.
  replace (1 * 1 + (0 * 0 + 0)) with 1 by lra.
  replace (0 * 0 + (1 * 1 + 0)) with 1 by lra. rewrite sqrt_1.
  repeat decide_real. f_equal. lra.
Qed.

Lemma chunks_collection :
  PyDict.get (collections Scenario.chunks) "kb" =
  Some {| vc_collection_id := "kb"; vc_name := "kb"; vc_dimension := 2;
          vc_index_type := "flat";
          vc_metadata := [("created_at", PyStr "t0")] |}.
Proof. reflexivity. Qed.

Lemma chunks_entries :
  PyDict.get (entries Scenario.chunks) "kb" =
  Some [Scenario.chunk "e1" [1; 0] "A"; Scenario.chunk "e2" [1; 0] "A"; Scenario.chunk "e3" [0; 1] "B"].
Proof. reflexivity. Qed.

(** The similarities of the three entries to the first unit vector, in
    descending order. *)
Lemma chunks_search_vectors (top_k : Z) :
  search_vectors "kb" [1; 0] top_k 0 [] Scenario.chunks =
  Ok (slice_to top_k [("e1", 1); ("e2", 1); ("e3", 0)]).
Proof.
  unfold search_vectors. rewrite chunks_collection, chunks_entries.
  cbn -[_cosine_similarity Rge_dec sort_desc slice_to].
  rewrite cosine_same, cosine_orthogonal.
  cbn -[Rge_dec sort_desc slice_to].
  repeat (decide_real; cbn -[Rge_dec Rlt_dec sort_desc slice_to]).
  unfold sort_desc. cbn -[Rlt_dec slice_to].
  repeat (decide_real; cbn -[Rlt_dec slice_to]).
  reflexivity.
Qed.

Lemma chunks_search_items_2 :
  search_items "kb" [1; 0] 2 0 [] Scenario.chunks = Ok [("A", 1)].
Proof.
  unfold search_items. rewrite chunks_search_vectors. cbn [bind].
  rewrite chunks_entries. reflexivity.
Qed.

Lemma chunks_search_items_5 :
  search_items "kb" [1; 0] 5 0 [] Scenario.chunks = Ok [("A", 1); ("B", 0)].
Proof.
  unfold search_items. rewrite chunks_search_vectors. cbn [bind].
  rewrite chunks_entries. reflexivity.
Qed.

(** C10: there are a collection and a query for which [search_items] returns
    fewer than [top_k] item ids although [top_k] different items each have a
    vector whose similarity to the query meets the threshold: the cut to
    [top_k] is made on the entries, and the two entries of one item fill
    it. *)
Theorem search_items_cut_before_dedup :
  exists (db : t) (collection_id : string) (query_vector : list R)
         (top_k : Z) (threshold : R) (results : list (string * R))
         (es : dict VectorEntry) (item_ids : list string),
    search_items collection_id query_vector top_k threshold [] db
      = Ok results /\
    (len results < top_k)%Z /\
    PyDict.get (entries db) collection_id = Some es /\
    NoDup item_ids /\
    (top_k <= len item_ids)%Z /\
    forall item_id, In item_id item_ids ->
      exists entry_id entry similarity,
        PyDict.get es entry_id = Some entry /\
        ve_item_id entry = item_id /\
        _cosine_similarity query_vector (ve_vector entry) = Ok similarity /\
        similarity >= threshold.
Proof.
  exists Scenario.chunks, "kb", [1; 0], 2%Z, 0, [("A", 1)].
  eexists. exists ["A"; "B"].
  split; [exact chunks_search_items_2|].
  split; [reflexivity|].
  split; [exact chunks_entries|].
  split.
  { constructor; [simpl; intros [E|[]]; discriminate|].
    constructor; [simpl; tauto|constructor]. }
  split; [unfold len; simpl; lia|].
  intros item_id [<-|[<-|[]]].
  - exists "e1", (snd (Scenario.chunk "e1" [1; 0] "A")), 1.
    repeat split; [exact cosine_same|lra].
  - exists "e3", (snd (Scenario.chunk "e3" [0; 1] "B")), 0.
    repeat split; [exact cosine_orthogonal|lra].
Qed.

End SearchExamples.

Module RetrievalExamples.
Import RetrievalEngine.
Local Open Scope R_scope.

Lemma exact_search_ignores_threshold :
  search Scenario.services 0 VectorDatabase.init None
    (Scenario.query "Red" Q_EXACT [] 5 2) Scenario.catalog
  = Ok [("A", 1)].
Proof. reflexivity. Qed.

(** An exact query with a threshold above [1.0] still returns its matches,
    with score [1.0]. *)
Lemma top_k_contract_counterexample :
  exists results,
    search Scenario.services 0 VectorDatabase.init None
      (Scenario.query "Red" Q_EXACT [] 5 2) Scenario.catalog
    = Ok results /\
    ~ top_k_contract (Scenario.query "Red" Q_EXACT [] 5 2) results.
Proof.
  exists [("A", 1)]. split; [exact exact_search_ignores_threshold|].
  intros (_ & Hthr & _). inversion Hthr as [|? ? H1 _]; subst.
  simpl in H1. lra.
Qed.

(** A negative [top_k] cuts from the end of the list, as Python slices do:
    the result is longer than [top_k]. *)
Lemma negative_top_k :
  search Scenario.services 0 VectorDatabase.init None
    (Scenario.query "a" Q_EXACT [] (-1) 0) Scenario.catalog
  = Ok [("A", 1)].
Proof. reflexivity. Qed.

Lemma keyword_red_car (top_k : Z) :
  _keyword_search Scenario.services 0
    (Scenario.query "red car" Q_KEYWORD [] top_k 0.5) Scenario.catalog
  = Ok (slice_to top_k [("A", 1)]).
Proof.
  unfold _keyword_search. simpl to_set. simpl keyword_scores.
  unfold keyword_score. simpl.
  repeat (decide_real; simpl).
  repeat f_equal. lra.
Qed.

Lemma process_keyword_query :
  process_query Scenario.services 0 VectorDatabase.init None
    (Scenario.query "red car" Q_KEYWORD [] 1 0.5) Scenario.catalog
  = Ok {| kr_query_id := "q"; kr_items := [Scenario.car];
          kr_scores := [("A", 1)]; kr_result_count := 1 |}.
Proof.
  unfold process_query, search. simpl kq_query_type. cbv iota.
  rewrite keyword_red_car. reflexivity.
Qed.

Lemma process_query_contract_witness :
  exists results,
    search Scenario.services 0 VectorDatabase.init None
      (Scenario.query "red car" Q_KEYWORD [] 1 0.5) Scenario.catalog
    = Ok results /\
    (len results <= 1)%Z /\
    Forall (fun r => snd r >= 0.5) results /\
    non_increasing results.
Proof.
  destruct (RetrievalEngineFacts.process_query_contract
              Scenario.services 0 VectorDatabase.init None
              (Scenario.query "red car" Q_KEYWORD [] 1 0.5) Scenario.catalog
              _ process_keyword_query)
    as (results & Hsearch & _ & _ & Hlen & Hthr & _ & Hsorted).
  exists results. split; [exact Hsearch|].
  split; [apply Hlen; simpl; lia|].
  split; [apply Hthr; simpl; discriminate|exact Hsorted].
Defined.

End RetrievalExamples.

(** ** The filter predicate *)

Module FilterFacts.
Import RetrievalEngine.
Local Open Scope R_scope.

Lemma pyval_eqb_eq (a b : pyval) : pyval_eqb a b = true <-> a = b.
Proof.
  destruct a, b; simpl; split; intros H; try discriminate; try reflexivity.
  - apply String.eqb_eq in H. now subst.
  - injection H as ->. apply String.eqb_refl.
  - destruct (Req_EM_T x x0); [now subst|discriminate].
  - injection H as ->. now destruct (Req_EM_T x0 x0).
Qed.

Lemma pyval_eqb_neq (a b : pyval) : pyval_eqb a b = false <-> a <> b.
Proof.
  rewrite <- pyval_eqb_eq. destruct (pyval_eqb a b); split; congruence.
Qed.

Lemma rejects_unmatched svc now item key value :
  unmatched svc now item key value ->
  rejects svc now item key value = Ok true.
Proof.
  unfold unmatched, rejects.
  intros [(-> & Hne)|[(-> & b & Hb & Hlt)|[(-> & c & b & Hc & Hb & Hgt)|
          (H1 & H2 & H3 & v & Hv & Hne)]]].
  - simpl. apply not_eq_sym in Hne.
    assert (E : pyval_eqb value (PyStr (ki_source item)) = false).
    { apply pyval_eqb_neq. congruence. }
    now rewrite E.
  - simpl. rewrite Hb. simpl. now rewrite if_Rlt_dec_true.
  - simpl. rewrite Hc, Hb. simpl.
    destruct (Rgt_dec ((now - c) / 86400) b); [reflexivity|contradiction].
  - apply String.eqb_neq in H1, H2, H3. rewrite H1, H2, H3. simpl.
    rewrite Hv. apply pyval_eqb_neq in Hne. now rewrite Hne.
Qed.

(** Every condition that the filter predicate does check excludes the item:
    the predicate does not return [True] (it returns [False], or a conversion
    of another filter value raises). *)
Lemma matches_filters_excludes svc now item filters key value :
  In (key, value) filters ->
  unmatched svc now item key value ->
  _matches_filters svc now item filters <> Ok true.
Proof.
  intros Hin Hun. induction filters as [|[k v] filters IH];
    [contradiction|].
  simpl. destruct Hin as [Heq|Hin].
  - injection Heq as -> ->. rewrite (rejects_unmatched _ _ _ _ _ Hun).
    simpl. discriminate.
  - destruct (rejects svc now item k v) as [[|]|e]; simpl;
      [discriminate|auto|discriminate].
Qed.

(** C4, where the code departs from it: an item that does not carry the
    metadata key of a filter entry passes [_matches_filters], and an exact
    query under that filter returns it; the metadata filter of the vector
    store excludes such metadata. *)
Theorem matches_filters_missing_key_passes :
  PyDict.get (ki_metadata Scenario.car) "category" = None /\
  _matches_filters Scenario.services 0 Scenario.car Scenario.news_only
    = Ok true /\
  search Scenario.services 0 VectorDatabase.init None
    (Scenario.query "red" Q_EXACT Scenario.news_only 5 0) Scenario.catalog
    = Ok [("A", 1)] /\
  VectorDatabase._matches_metadata_filter (ki_metadata Scenario.car)
    Scenario.news_only = false.
Proof. repeat split; reflexivity. Qed.

End FilterFacts.

(** ** The reverse index of the vector store *)

Module IndexFacts.
Import VectorDatabase.

Lemma pair_eqb_eq (c e c' e' : string) :
  String.eqb c c' && String.eqb e e' = true <-> (c, e) = (c', e').
Proof.
  rewrite andb_true_iff, !String.eqb_eq. split.
  - intros [-> ->]. reflexivity.
  - intros [= -> ->]. auto.
Qed.

Lemma drop_ref_In c e refs r :
  In r (drop_ref c e refs) <-> In r refs /\ r <> (c, e).
Proof.
  unfold drop_ref. rewrite filter_In. destruct r as [c' e']. simpl.
  rewrite <- negb_andb, negb_true_iff.
  pose proof (pair_eqb_eq c' e' c e) as Hp.
  destruct (String.eqb c' c && String.eqb e' e).
  - split; [intros [_ H]; discriminate|].
    intros [_ H]. elim H. now apply Hp.
  - split; [|tauto]. intros [H _]. split; [assumption|].
    intros Heq. apply Hp in Heq. discriminate.
Qed.

Lemma drop_ref_head c e rest :
  ~ In (c, e) rest -> drop_ref c e ((c, e) :: rest) = rest.
Proof.
  intros Hnotin. unfold drop_ref. simpl. rewrite !String.eqb_refl. simpl.
  induction rest as [|[c' e'] rest IH]; simpl; [reflexivity|].
  pose proof (pair_eqb_eq c' e' c e) as Hp.
  rewrite <- negb_andb.
  destruct (String.eqb c' c && String.eqb e' e); simpl.
  - elim Hnotin. left. apply Hp. reflexivity.
  - f_equal. apply IH. intros H. apply Hnotin. now right.
Qed.

Lemma get_item_vectors_nil item_id db :
  indexed db -> get_item_vectors item_id db = [] ->
  PyDict.get (item_mapping db) item_id = None.
Proof.
  intros (_ & Hrefs & _). unfold get_item_vectors.
  destruct (PyDict.get (item_mapping db) item_id) as [refs|] eqn:E;
    [|reflexivity].
  intros ->. destruct (Hrefs _ _ E) as [Hne _]. now elim Hne.
Qed.

Lemma get_item_vectors_cons item_id db r rest :
  get_item_vectors item_id db = r :: rest ->
  PyDict.get (item_mapping db) item_id = Some (r :: rest).
Proof.
  unfold get_item_vectors.
  destruct (PyDict.get (item_mapping db) item_id); [congruence|discriminate].
Qed.

(** What [delete_vector] does to an entry that exists. *)
Lemma delete_vector_found db c e entry :
  PyDict.mem (collections db) c = true ->
  entry_at db c e = Some entry ->
  exists db',
    delete_vector c e db = (Ok true, db') /\
    collections db' = collections db /\
    (forall c', PyDict.mem (entries db') c' = PyDict.mem (entries db) c') /\
    (forall c' e',
        entry_at db' c' e' =
        if String.eqb c c' && String.eqb e e' then None
        else entry_at db c' e') /\
    (forall id',
        PyDict.get (item_mapping db') id' =
        if String.eqb (ve_item_id entry) id'
        then refs_without c e (PyDict.get (item_mapping db) id')
        else PyDict.get (item_mapping db) id').
Proof.
  intros Hc Hentry. unfold delete_vector. rewrite Hc. simpl.
  unfold entry_at in Hentry.
  destruct (PyDict.get (entries db) c) as [es|] eqn:Hes; [|discriminate].
  rewrite Hentry. eexists. split; [reflexivity|].
  assert (Hmem : forall c',
             PyDict.mem (PyDict.set (entries db) c (PyDict.del es e)) c'
             = PyDict.mem (entries db) c').
  { intros c'. rewrite mem_set.
    destruct (String.eqb c c') eqn:E; [|reflexivity].
    apply String.eqb_eq in E. subst c'. simpl. symmetry.
    now apply (mem_get_some _ _ es). }
  assert (Hat : forall m c' e',
             entry_at
               {| collections := collections db;
                  entries := PyDict.set (entries db) c (PyDict.del es e);
                  item_mapping := m |} c' e'
             = if String.eqb c c' && String.eqb e e' then None
               else entry_at db c' e').
  { intros m c' e'. unfold entry_at. simpl. rewrite get_set.
    destruct (String.eqb c c') eqn:E; simpl; [|reflexivity].
    apply String.eqb_eq in E. subst c'. rewrite Hes. apply get_del. }
  simpl.
  destruct (PyDict.get (item_mapping db) (ve_item_id entry)) as [refs|] eqn:Hr.
  - destruct (is_empty (drop_ref c e refs)) eqn:Hempty; simpl;
      (split; [reflexivity|]); (split; [exact Hmem|]);
      (split; [apply Hat|]); intros id'.
    + rewrite get_del.
      destruct (String.eqb (ve_item_id entry) id') eqn:E; [|reflexivity].
      apply String.eqb_eq in E. subst id'. rewrite Hr. simpl.
      now rewrite Hempty.
    + rewrite get_set.
      destruct (String.eqb (ve_item_id entry) id') eqn:E; [|reflexivity].
      apply String.eqb_eq in E. subst id'. rewrite Hr. simpl.
      now rewrite Hempty.
  - simpl. split; [reflexivity|]. split; [exact Hmem|].
    split; [apply Hat|]. intros id'.
    destruct (String.eqb (ve_item_id entry) id') eqn:E; [|reflexivity].
    apply String.eqb_eq in E. subst id'. now rewrite Hr.
Qed.

Lemma refs_without_In c e refs refs' r :
  refs_without c e refs = Some refs' ->
  In r refs' <-> (exists l, refs = Some l /\ In r l) /\ r <> (c, e).
Proof.
  unfold refs_without. destruct refs as [l|]; [|discriminate].
  destruct (is_empty (drop_ref c e l)); [discriminate|].
  intros [= <-]. rewrite drop_ref_In. split.
  - intros [H1 H2]. split; [eauto|assumption].
  - intros [(l' & [= <-] & H1) H2]. auto.
Qed.

(** [delete_vector] keeps the reverse index and the collections in step. *)
Lemma delete_vector_indexed db c e entry db' :
  indexed db ->
  PyDict.mem (collections db) c = true ->
  entry_at db c e = Some entry ->
  delete_vector c e db = (Ok true, db') ->
  indexed db'.
Proof.
  intros (Hcols & Hrefs & Hentries) Hc Hentry Hdel.
  destruct (delete_vector_found db c e entry Hc Hentry)
    as (db'' & Hdel' & Hcol' & Hmem' & Hat' & Hmap').
  rewrite Hdel in Hdel'. injection Hdel' as <-.
  split; [|split].
  - intros c'. rewrite Hcol', Hmem'. apply Hcols.
  - intros id' refs' Hget. rewrite Hmap' in Hget.
    assert (Hold : exists refs,
               PyDict.get (item_mapping db) id' = Some refs /\
               refs' <> [] /\ NoDup refs' /\
               forall r, In r refs' -> In r refs /\ r <> (c, e) \/
                                       In r refs /\ ve_item_id entry <> id').
    { destruct (String.eqb (ve_item_id entry) id') eqn:E.
      - unfold refs_without in Hget.
        destruct (PyDict.get (item_mapping db) id') as [refs|] eqn:Hr;
          [|discriminate].
        exists refs. split; [reflexivity|].
        destruct (is_empty (drop_ref c e refs)) eqn:Hempty; [discriminate|].
        injection Hget as <-. split; [|split].
        + intros Hnil. rewrite Hnil in Hempty. discriminate.
        + apply NoDup_filter. now apply (Hrefs _ _ Hr).
        + intros r Hr'. left. now apply drop_ref_In.
      - exists refs'. split; [assumption|].
        destruct (Hrefs _ _ Hget) as (Hne & Hnd & _).
        split; [assumption|]. split; [assumption|].
        intros r Hr'. right. split; [assumption|].
        now apply String.eqb_neq. }
    destruct Hold as (refs & Hr & Hne & Hnd & Hsub).
    split; [assumption|]. split; [assumption|].
    intros c' e' Hin. destruct (Hrefs _ _ Hr) as (_ & _ & Hlead).
    assert (Hin' : In (c', e') refs) by (destruct (Hsub _ Hin); tauto).
    destruct (Hlead _ _ Hin') as (Hc' & entry' & Hentry' & Hid').
    rewrite Hcol'. split; [assumption|].
    exists entry'. split; [|assumption]. rewrite Hat'.
    destruct (String.eqb c c' && String.eqb e e') eqn:E; [|assumption].
    apply pair_eqb_eq in E. injection E as <- <-.
    destruct (Hsub _ Hin) as [[_ Hneq]|[_ Hneq]].
    + now elim Hneq.
    + rewrite Hentry in Hentry'. injection Hentry' as <-. now elim Hneq.
  - intros c' e' entry' Hentry'. rewrite Hat' in Hentry'.
    destruct (String.eqb c c' && String.eqb e e') eqn:E; [discriminate|].
    specialize (Hentries _ _ _ Hentry'). unfold get_item_vectors in *.
    rewrite Hmap'.
    destruct (PyDict.get (item_mapping db) (ve_item_id entry')) as [refs|]
      eqn:Hr; [|contradiction].
    destruct (String.eqb (ve_item_id entry) (ve_item_id entry')); simpl;
      [|assumption].
    assert (Hkeep : In (c', e') (drop_ref c e refs)).
    { apply drop_ref_In. split; [assumption|].
      intros Heq. symmetry in Heq. apply pair_eqb_eq in Heq. congruence. }
    destruct (drop_ref c e refs); [contradiction|]. exact Hkeep.
Qed.

(** The loop of [delete_item_vectors] deletes every reference of the item,
    counts each, and leaves the item without references. *)
Lemma delete_each_spec item_id vectors :
  forall count db,
    indexed db ->
    get_item_vectors item_id db = vectors ->
    exists db',
      delete_each vectors count db = (Ok (count + len vectors), db') /\
      indexed db' /\
      collections db' = collections db /\
      PyDict.get (item_mapping db') item_id = None.
Proof.
  induction vectors as [|[c e] rest IH]; intros count db Hidx Hget.
  - exists db. simpl. rewrite Z.add_0_r.
    split; [reflexivity|]. split; [assumption|]. split; [reflexivity|].
    now apply get_item_vectors_nil.
  - apply get_item_vectors_cons in Hget.
    pose proof Hidx as (Hcols & Hrefs & Hentries).
    destruct (Hrefs _ _ Hget) as (_ & Hnd & Hlead).
    destruct (Hlead c e (or_introl eq_refl)) as (Hc & entry & Hentry & Hid).
    destruct (delete_vector_found db c e entry Hc Hentry)
      as (db1 & Hdel & Hcol1 & Hmem1 & Hat1 & Hmap1).
    assert (Hidx1 : indexed db1).
    { now apply (delete_vector_indexed db c e entry). }
    assert (Hget1 : get_item_vectors item_id db1 = rest).
    { unfold get_item_vectors. rewrite Hmap1, Hid, String.eqb_refl, Hget.
      unfold refs_without. inversion Hnd as [|? ? Hnotin _]; subst.
      rewrite drop_ref_head by assumption.
      now destruct rest. }
    destruct (IH (count + 1) db1 Hidx1 Hget1)
      as (db' & Hloop & Hidx' & Hcol' & Hnone).
    exists db'. simpl. rewrite Hdel, Hloop.
    split; [|split; [assumption|split; [congruence|assumption]]].
    f_equal. f_equal. unfold len. simpl List.length. lia.
Qed.

(** [delete_item_vectors] returns the number of references of the item,
    which is the number of its entries, and removes them all. *)
Lemma delete_item_vectors_spec item_id db :
  indexed db ->
  exists db',
    delete_item_vectors item_id db
      = (Ok (len (get_item_vectors item_id db)), db') /\
    indexed db' /\
    collections db' = collections db /\
    PyDict.get (item_mapping db') item_id = None /\
    (forall c e entry,
        entry_at db' c e = Some entry -> ve_item_id entry <> item_id).
Proof.
  intros Hidx. unfold delete_item_vectors.
  assert (Hloop : exists db',
             delete_each (get_item_vectors item_id db) 0 db
               = (Ok (len (get_item_vectors item_id db)), db') /\
             indexed db' /\ collections db' = collections db /\
             PyDict.get (item_mapping db') item_id = None).
  { destruct (delete_each_spec item_id _ 0 db Hidx eq_refl)
      as (db' & H & Hrest).
    exists db'. split; [exact H|exact Hrest]. }
  destruct Hloop as (db' & Hloop & Hidx' & Hcol' & Hnone).
  assert (Hgone : forall c e entry,
             entry_at db' c e = Some entry -> ve_item_id entry <> item_id).
  { intros c e entry Hentry Hid.
    destruct Hidx' as (_ & _ & Hentries).
    specialize (Hentries _ _ _ Hentry). unfold get_item_vectors in Hentries.
    rewrite Hid, Hnone in Hentries. contradiction. }
  unfold get_item_vectors in *.
  destruct (PyDict.get (item_mapping db) item_id) as [refs|] eqn:Hr.
  - exists db'. auto 6.
  - simpl in Hloop. injection Hloop as <-. exists db. auto 6.
Qed.

End IndexFacts.

Module IndexInvariant.
Import VectorDatabase.

Lemma init_indexed : indexed init.
Proof.
  split; [|split].
  - intros c. simpl. discriminate.
  - intros item_id refs. simpl. discriminate.
  - intros c e entry. unfold entry_at. simpl. discriminate.
Qed.

(** An entry is always in an existing collection. *)
Lemma indexed_entry_collection db c e entry :
  indexed db -> entry_at db c e = Some entry ->
  PyDict.mem (collections db) c = true.
Proof.
  intros (_ & Hrefs & Hentries) Hentry.
  specialize (Hentries _ _ _ Hentry). unfold get_item_vectors in Hentries.
  destruct (PyDict.get (item_mapping db) (ve_item_id entry)) as [refs|] eqn:Hr;
    [|contradiction].
  destruct (Hrefs _ _ Hr) as (_ & _ & Hlead).
  now destruct (Hlead _ _ Hentries).
Qed.

(** [create_collection] under a new identifier keeps the index in step. *)
Lemma create_collection_indexed uuid4 uuid1 name dimension index_type db :
  indexed db ->
  PyDict.mem (collections db) uuid4 = false ->
  indexed (snd (create_collection uuid4 uuid1 name dimension index_type db)).
Proof.
  intros Hidx Hfresh. pose proof Hidx as (Hcols & Hrefs & Hentries).
  unfold create_collection. simpl.
  assert (Hat : forall m c e,
             entry_at {| collections := m;
                         entries := PyDict.set (entries db) uuid4 [];
                         item_mapping := item_mapping db |} c e
             = entry_at db c e).
  { intros m c e. unfold entry_at. simpl. rewrite get_set.
    destruct (String.eqb uuid4 c) eqn:E; [|reflexivity].
    apply String.eqb_eq in E. subst c. simpl.
    destruct (PyDict.get (entries db) uuid4) as [es|] eqn:Hes; [|reflexivity].
    destruct (PyDict.get es e) as [entry|] eqn:He; [|reflexivity].
    assert (Hentry : entry_at db uuid4 e = Some entry).
    { unfold entry_at. now rewrite Hes. }
    apply (indexed_entry_collection _ _ _ _ Hidx) in Hentry. congruence. }
  split; [|split].
  - intros c. simpl. rewrite !mem_set.
    destruct (String.eqb uuid4 c); simpl; [reflexivity|apply Hcols].
  - intros item_id refs Hr. simpl in Hr.
    destruct (Hrefs _ _ Hr) as (Hne & Hnd & Hlead).
    split; [assumption|]. split; [assumption|].
    intros c e Hin. destruct (Hlead _ _ Hin) as (Hc & entry & Hentry & Hid).
    simpl. rewrite mem_set, Hc, orb_true_r. split; [reflexivity|].
    exists entry. now rewrite Hat.
  - intros c e entry. rewrite Hat. intros Hentry.
    apply (Hentries _ _ _ Hentry).
Qed.

(** What a successful [add_vector] does. *)
Lemma add_vector_ok db uuid4 c vector item_id metadata collection :
  PyDict.get (collections db) c = Some collection ->
  len vector = vc_dimension collection ->
  PyDict.mem (entries db) c = true ->
  exists db' entry,
    add_vector uuid4 c vector item_id metadata db = (Ok uuid4, db') /\
    ve_item_id entry = item_id /\
    collections db' = collections db /\
    (forall c', PyDict.mem (entries db') c' = PyDict.mem (entries db) c') /\
    (forall c' e',
        entry_at db' c' e' =
        if String.eqb c c' && String.eqb uuid4 e' then Some entry
        else entry_at db c' e') /\
    (forall id',
        PyDict.get (item_mapping db') id' =
        if String.eqb item_id id'
        then Some (get_item_vectors item_id db ++ [(c, uuid4)])%list
        else PyDict.get (item_mapping db) id').
Proof.
  intros Hc Hdim Hes. unfold add_vector. rewrite Hc.
  apply Z.eqb_eq in Hdim. rewrite Hdim. simpl.
  apply mem_true_get in Hes. destruct Hes as [es Hes]. rewrite Hes.
  set (entry := {| ve_entry_id := uuid4; ve_vector := vector;
                   ve_item_id := item_id;
                   ve_metadata := match metadata with
                                  | Some m => m
                                  | None => []
                                  end |}).
  assert (Hmem : forall c',
             PyDict.mem (PyDict.set (entries db) c (PyDict.set es uuid4 entry))
               c' = PyDict.mem (entries db) c').
  { intros c'. rewrite mem_set.
    destruct (String.eqb c c') eqn:E; [|reflexivity].
    apply String.eqb_eq in E. subst c'. simpl. symmetry.
    now apply (mem_get_some _ _ es). }
  assert (Hat : forall m c' e',
             entry_at
               {| collections := collections db;
                  entries :=
                    PyDict.set (entries db) c (PyDict.set es uuid4 entry);
                  item_mapping := m |} c' e'
             = if String.eqb c c' && String.eqb uuid4 e' then Some entry
               else entry_at db c' e').
  { intros m c' e'. unfold entry_at. simpl. rewrite get_set.
    destruct (String.eqb c c') eqn:E; simpl; [|reflexivity].
    apply String.eqb_eq in E. subst c'. rewrite Hes. apply get_set. }
  unfold get_item_vectors.
  destruct (PyDict.mem (item_mapping db) item_id) eqn:Hm; simpl.
  - apply mem_true_get in Hm. destruct Hm as [refs Hr]. rewrite Hr.
    exists (with_item_mapping
              (with_entries db
                 (PyDict.set (entries db) c (PyDict.set es uuid4 entry)))
              (PyDict.set (item_mapping db) item_id
                 (refs ++ [(c, uuid4)])%list)), entry.
    split; [reflexivity|]. split; [reflexivity|]. split; [reflexivity|].
    split; [exact Hmem|]. split; [apply Hat|].
    intros id'. simpl. apply get_set.
  - rewrite get_set_same.
    exists (with_item_mapping
              (with_item_mapping
                 (with_entries db
                    (PyDict.set (entries db) c (PyDict.set es uuid4 entry)))
                 (PyDict.set (item_mapping db) item_id []))
              (PyDict.set (PyDict.set (item_mapping db) item_id []) item_id
                 ([] ++ [(c, uuid4)])%list)), entry.
    split; [reflexivity|]. split; [reflexivity|]. split; [reflexivity|].
    split; [exact Hmem|]. split; [apply Hat|].
    intros id'. simpl. rewrite !get_set.
    apply mem_get_none in Hm. rewrite Hm.
    destruct (String.eqb item_id id'); reflexivity.
Qed.

(** [add_vector] under an entry identifier that is new to the collection
    keeps the index in step. *)
Lemma add_vector_indexed db uuid4 c vector item_id metadata db' :
  indexed db ->
  entry_at db c uuid4 = None ->
  add_vector uuid4 c vector item_id metadata db = (Ok uuid4, db') ->
  indexed db'.
Proof.
  intros Hidx Hfresh Hadd. pose proof Hidx as (Hcols & Hrefs & Hentries).
  assert (Hpre : exists collection,
             PyDict.get (collections db) c = Some collection /\
             len vector = vc_dimension collection).
  { unfold add_vector in Hadd.
    destruct (PyDict.get (collections db) c) as [collection|];
      [|discriminate].
    exists collection. split; [reflexivity|].
    destruct (len vector =? vc_dimension collection) eqn:E;
      [now apply Z.eqb_eq|discriminate]. }
  destruct Hpre as (collection & Hc & Hdim).
  assert (Hcm : PyDict.mem (collections db) c = true)
    by now apply (mem_get_some _ _ collection).
  destruct (add_vector_ok db uuid4 c vector item_id metadata collection
              Hc Hdim (Hcols _ Hcm))
    as (db'' & entry & Hadd' & Hid & Hcol' & Hmem' & Hat' & Hmap').
  rewrite Hadd in Hadd'. injection Hadd' as <-.
  assert (Hnew : forall c' e' entry',
             entry_at db c' e' = Some entry' ->
             String.eqb c c' && String.eqb uuid4 e' = false).
  { intros c' e' entry' He.
    destruct (String.eqb c c' && String.eqb uuid4 e') eqn:E; [|reflexivity].
    apply IndexFacts.pair_eqb_eq in E. injection E as <- <-. congruence. }
  assert (Hold : forall refs,
             PyDict.get (item_mapping db) item_id = Some refs ->
             ~ In (c, uuid4) refs).
  { intros refs Hr Hin. destruct (Hrefs _ _ Hr) as (_ & _ & Hlead).
    destruct (Hlead _ _ Hin) as (_ & entry' & He & _). congruence. }
  split; [|split].
  - intros c'. rewrite Hcol', Hmem'. apply Hcols.
  - intros id' refs' Hget. rewrite Hmap' in Hget.
    destruct (String.eqb item_id id') eqn:E.
    + apply String.eqb_eq in E. subst id'. injection Hget as <-.
      unfold get_item_vectors in *.
      destruct (PyDict.get (item_mapping db) item_id) as [refs|] eqn:Hr.
      * destruct (Hrefs _ _ Hr) as (Hne & Hnd & Hlead).
        split; [intros Hnil; now apply app_eq_nil in Hnil|].
        split.
        { apply NoDup_app; [assumption|repeat constructor; tauto|].
          intros r Hin [<-|[]]. now apply (Hold refs). }
        intros c' e' Hin. apply in_app_or in Hin. rewrite Hcol', Hat'.
        destruct Hin as [Hin|[[= <- <-]|[]]].
        -- destruct (Hlead _ _ Hin) as (Hc' & entry' & He & Hid').
           rewrite (Hnew _ _ _ He). eauto.
        -- rewrite !String.eqb_refl. simpl. eauto.
      * split; [discriminate|]. split; [repeat constructor; tauto|].
        intros c' e' [[= <- <-]|[]]. rewrite Hcol', Hat'.
        rewrite !String.eqb_refl. simpl. eauto.
    + destruct (Hrefs _ _ Hget) as (Hne & Hnd & Hlead).
      split; [assumption|]. split; [assumption|].
      intros c' e' Hin.
      destruct (Hlead _ _ Hin) as (Hc' & entry' & He & Hid').
      rewrite Hcol', Hat', (Hnew _ _ _ He). eauto.
  - intros c' e' entry' He. rewrite Hat' in He.
    unfold get_item_vectors in *. rewrite Hmap'.
    destruct (String.eqb c c' && String.eqb uuid4 e') eqn:E.
    + apply IndexFacts.pair_eqb_eq in E. injection E as <- <-.
      injection He as <-. rewrite Hid, String.eqb_refl.
      apply in_or_app. right. now left.
    + specialize (Hentries _ _ _ He).
      destruct (String.eqb item_id (ve_item_id entry')) eqn:E'; [|assumption].
      apply String.eqb_eq in E'. rewrite <- E' in Hentries.
      apply in_or_app. now left.
Qed.

(** A successful [add_vector] adds exactly one reference to the item. *)
Lemma add_vector_count db uuid4 c vector item_id metadata db' :
  indexed db ->
  add_vector uuid4 c vector item_id metadata db = (Ok uuid4, db') ->
  get_item_vectors item_id db' =
    (get_item_vectors item_id db ++ [(c, uuid4)])%list /\
  forall id', id' <> item_id ->
    get_item_vectors id' db' = get_item_vectors id' db.
Proof.
  intros Hidx Hadd. pose proof Hidx as (Hcols & _ & _).
  assert (Hpre : exists collection,
             PyDict.get (collections db) c = Some collection /\
             len vector = vc_dimension collection).
  { unfold add_vector in Hadd.
    destruct (PyDict.get (collections db) c) as [collection|];
      [|discriminate].
    exists collection. split; [reflexivity|].
    destruct (len vector =? vc_dimension collection) eqn:E;
      [now apply Z.eqb_eq|discriminate]. }
  destruct Hpre as (collection & Hc & Hdim).
  assert (Hcm : PyDict.mem (collections db) c = true)
    by now apply (mem_get_some _ _ collection).
  destruct (add_vector_ok db uuid4 c vector item_id metadata collection
              Hc Hdim (Hcols _ Hcm))
    as (db'' & entry & Hadd' & Hid & Hcol' & Hmem' & Hat' & Hmap').
  rewrite Hadd in Hadd'. injection Hadd' as <-.
  split.
  - unfold get_item_vectors at 1. now rewrite Hmap', String.eqb_refl.
  - intros id' Hne. unfold get_item_vectors. rewrite Hmap'.
    apply not_eq_sym in Hne. apply String.eqb_neq in Hne. now rewrite Hne.
Qed.

End IndexInvariant.

(** ** The memory manager: categories *)

Module CategoryFacts.
Import MemoryManager.

Lemma get_purge_categories item_id cs category_id :
  PyDict.get (purge_categories item_id cs) category_id =
  option_map (purge_category item_id) (PyDict.get cs category_id).
Proof.
  unfold purge_categories.
  induction cs as [|[k c] cs IH]; simpl; [reflexivity|].
  destruct (String.eqb category_id k); [reflexivity|assumption].
Qed.

Lemma purge_category_items item_id category :
  NoDup (mc_items category) ->
  NoDup (mc_items (purge_category item_id category)) /\
  ~ In item_id (mc_items (purge_category item_id category)) /\
  forall id, In id (mc_items (purge_category item_id category)) ->
             In id (mc_items category).
Proof.
  intros Hnd. unfold purge_category.
  destruct (str_in item_id (mc_items category)) eqn:E; simpl.
  - destruct (list_remove_nodup item_id _ Hnd) as [H1 H2].
    repeat split; auto. intros id. apply list_remove_in.
  - apply str_in_false in E. auto.
Qed.

(** After [delete_item] no category refers to the item, whether the item was
    stored or not. *)
Lemma delete_item_unreferenced item_id mm :
  categories_ok mm -> unreferenced item_id (snd (delete_item item_id mm)).
Proof.
  intros Hok. unfold delete_item.
  assert (Hpurged : forall s l,
             unreferenced item_id
               {| short_term_memory := s; long_term_memory := l;
                  categories := purge_categories item_id (categories mm) |}).
  { intros s l category_id category. simpl. rewrite get_purge_categories.
    destruct (PyDict.get (categories mm) category_id) as [cat|] eqn:E;
      [|discriminate].
    intros [= <-]. destruct (Hok _ _ E) as [Hnd _].
    now apply purge_category_items. }
  destruct (PyDict.mem (short_term_memory mm) item_id) eqn:Hs;
    [apply Hpurged|].
  destruct (PyDict.mem (long_term_memory mm) item_id) eqn:Hl;
    [apply Hpurged|].
  intros category_id category E Hin. simpl in E.
  destruct (Hok _ _ E) as [_ Hstored].
  destruct (Hstored _ Hin); congruence.
Qed.

Lemma categories_ok_stored mm :
  categories_ok mm <->
  forall category_id category,
    PyDict.get (categories mm) category_id = Some category ->
    NoDup (mc_items category) /\
    forall item_id, In item_id (mc_items category) -> stored mm item_id = true.
Proof.
  unfold categories_ok, stored.
  split; intros H category_id category E; destruct (H _ _ E) as [Hnd Hs];
    (split; [assumption|]); intros item_id Hin; specialize (Hs _ Hin).
  - apply orb_true_iff. exact Hs.
  - apply orb_true_iff in Hs. exact Hs.
Qed.

(** An operation that keeps the categories and loses no stored item keeps
    the categories in order. *)
Lemma categories_ok_mono mm mm' :
  categories mm' = categories mm ->
  (forall id, stored mm id = true -> stored mm' id = true) ->
  categories_ok mm -> categories_ok mm'.
Proof.
  intros Hc Hs Hok. apply (proj2 (categories_ok_stored mm')).
  intros category_id category E. rewrite Hc in E.
  destruct (proj1 (categories_ok_stored mm) Hok _ _ E) as [Hnd Hin].
  split; auto.
Qed.

Lemma store_item_categories_ok uuid4 item mm :
  categories_ok mm -> categories_ok (snd (store_item uuid4 item mm)).
Proof.
  destruct (MemoryManagerFacts.store_item_tiers uuid4 item mm)
    as (item' & _ & ->).
  apply categories_ok_mono.
  - now destruct (is_short_term _).
  - intros id. unfold stored.
    destruct (is_short_term _); simpl; rewrite mem_set;
      destruct (PyDict.mem (short_term_memory mm) id),
               (PyDict.mem (long_term_memory mm) id);
      try discriminate; intros _;
      destruct (String.eqb (stored_id uuid4 item) id); reflexivity.
Qed.

Lemma retrieve_item_categories_ok now item_id mm :
  categories_ok mm -> categories_ok (snd (retrieve_item now item_id mm)).
Proof.
  apply categories_ok_mono.
  - unfold retrieve_item.
    destruct (PyDict.get (short_term_memory mm) item_id); [reflexivity|].
    now destruct (PyDict.get (long_term_memory mm) item_id).
  - intros id. unfold stored, retrieve_item.
    destruct (PyDict.get (short_term_memory mm) item_id); simpl.
    + rewrite mem_set.
      destruct (String.eqb item_id id),
               (PyDict.mem (short_term_memory mm) id),
               (PyDict.mem (long_term_memory mm) id); simpl; auto.
    + destruct (PyDict.get (long_term_memory mm) item_id); simpl; auto.
      rewrite mem_set.
      destruct (String.eqb item_id id),
               (PyDict.mem (short_term_memory mm) id),
               (PyDict.mem (long_term_memory mm) id); simpl; auto.
Qed.

Lemma update_item_categories_ok item mm :
  categories_ok mm -> categories_ok (snd (update_item item mm)).
Proof.
  apply categories_ok_mono.
  - unfold update_item.
    destruct (PyDict.mem (short_term_memory mm) (mi_item_id item));
      [reflexivity|].
    now destruct (PyDict.mem (long_term_memory mm) (mi_item_id item)).
  - intros id. unfold stored, update_item.
    destruct (PyDict.mem (short_term_memory mm) (mi_item_id item)); simpl.
    + rewrite mem_set.
      destruct (String.eqb (mi_item_id item) id),
               (PyDict.mem (short_term_memory mm) id),
               (PyDict.mem (long_term_memory mm) id); simpl; auto.
    + destruct (PyDict.mem (long_term_memory mm) (mi_item_id item)); simpl;
        auto.
      rewrite mem_set.
      destruct (String.eqb (mi_item_id item) id),
               (PyDict.mem (short_term_memory mm) id),
               (PyDict.mem (long_term_memory mm) id); simpl; auto.
Qed.

Lemma move_to_long_term_stored item_id mm id :
  stored (snd (move_to_long_term item_id mm)) id = stored mm id.
Proof.
  unfold stored, move_to_long_term.
  destruct (PyDict.get (short_term_memory mm) item_id) eqn:E; [|reflexivity].
  simpl. rewrite mem_del, mem_set.
  destruct (String.eqb item_id id) eqn:E'; simpl; [|reflexivity].
  apply String.eqb_eq in E'. subst id.
  apply mem_get_some in E. now rewrite E.
Qed.

Lemma move_to_short_term_stored item_id mm id :
  stored (snd (move_to_short_term item_id mm)) id = stored mm id.
Proof.
  unfold stored, move_to_short_term.
  destruct (PyDict.get (long_term_memory mm) item_id) eqn:E; [|reflexivity].
  simpl. rewrite mem_del, mem_set.
  destruct (String.eqb item_id id) eqn:E'; simpl; [|reflexivity].
  apply String.eqb_eq in E'. subst id.
  apply mem_get_some in E. rewrite E. now rewrite orb_true_r.
Qed.

Lemma move_to_long_term_categories item_id mm :
  categories (snd (move_to_long_term item_id mm)) = categories mm.
Proof.
  unfold move_to_long_term.
  now destruct (PyDict.get (short_term_memory mm) item_id).
Qed.

Lemma moves_categories_ok ids mm :
  categories_ok mm ->
  categories_ok
    (fold_left (fun m id => snd (move_to_long_term id m)) ids mm).
Proof.
  revert mm. induction ids as [|id ids IH]; simpl; intros mm Hok;
    [assumption|].
  apply IH. revert Hok. apply categories_ok_mono.
  - apply move_to_long_term_categories.
  - intros k. now rewrite move_to_long_term_stored.
Qed.

Lemma delete_item_categories_ok item_id mm :
  categories_ok mm -> categories_ok (snd (delete_item item_id mm)).
Proof.
  intros Hok. pose proof (delete_item_unreferenced item_id mm Hok) as Hun.
  unfold delete_item in *.
  assert (Hpurged : forall s l,
             (forall id, id <> item_id ->
                PyDict.mem s id || PyDict.mem l id = stored mm id) ->
             unreferenced item_id
               {| short_term_memory := s; long_term_memory := l;
                  categories := purge_categories item_id (categories mm) |} ->
             categories_ok
               {| short_term_memory := s; long_term_memory := l;
                  categories := purge_categories item_id (categories mm) |}).
  { intros s l Hsl Hun' category_id category E.
    pose proof (Hun' _ _ E) as Hnot. simpl in E.
    rewrite get_purge_categories in E.
    destruct (PyDict.get (categories mm) category_id) as [cat|] eqn:Ec;
      [|discriminate].
    injection E as <-. destruct (Hok _ _ Ec) as [Hnd Hstored].
    destruct (purge_category_items item_id cat Hnd) as (H1 & H2 & H3).
    split; [assumption|]. intros id Hin. simpl.
    apply orb_true_iff. rewrite Hsl.
    - unfold stored. apply orb_true_iff. auto.
    - intros ->. contradiction. }
  destruct (PyDict.mem (short_term_memory mm) item_id).
  - apply Hpurged; [|assumption]. intros id Hne. unfold stored.
    rewrite mem_del. apply not_eq_sym in Hne. apply String.eqb_neq in Hne.
    now rewrite Hne.
  - destruct (PyDict.mem (long_term_memory mm) item_id); [|assumption].
    apply Hpurged; [|assumption]. intros id Hne. unfold stored.
    rewrite mem_del. apply not_eq_sym in Hne. apply String.eqb_neq in Hne.
    now rewrite Hne.
Qed.

Lemma create_category_categories_ok uuid4 name description parent_id mm :
  categories_ok mm ->
  categories_ok (snd (create_category uuid4 name description parent_id mm)).
Proof.
  intros Hok category_id category. unfold create_category. simpl.
  rewrite get_set. destruct (String.eqb uuid4 category_id).
  - intros [= <-]. simpl. split; [constructor|contradiction].
  - apply Hok.
Qed.

Lemma add_item_to_category_categories_ok item_id category_id mm :
  categories_ok mm ->
  categories_ok (snd (add_item_to_category item_id category_id mm)).
Proof.
  intros Hok. unfold add_item_to_category.
  destruct (PyDict.get (categories mm) category_id) as [cat|] eqn:Ec;
    [|assumption].
  destruct (negb (PyDict.mem (short_term_memory mm) item_id)
            && negb (PyDict.mem (long_term_memory mm) item_id)) eqn:Hs;
    [assumption|].
  destruct (negb (str_in item_id (mc_items cat))) eqn:Hin; [|assumption].
  intros k category. simpl. rewrite get_set.
  destruct (String.eqb category_id k); [|apply Hok].
  intros [= <-]. simpl. destruct (Hok _ _ Ec) as [Hnd Hstored].
  apply negb_true_iff, str_in_false in Hin. split.
  - apply NoDup_app; [assumption|repeat constructor; tauto|].
    intros x Hx [<-|[]]. contradiction.
  - intros id Hid. apply in_app_or in Hid. destruct Hid as [Hid|[<-|[]]];
      [auto|].
    apply andb_false_iff in Hs. rewrite !negb_false_iff in Hs. exact Hs.
Qed.

Lemma step_categories_ok o mm :
  categories_ok mm -> categories_ok (step o mm).
Proof.
  intros Hok. destruct o; simpl.
  - now apply store_item_categories_ok.
  - now apply retrieve_item_categories_ok.
  - now apply update_item_categories_ok.
  - now apply delete_item_categories_ok.
  - now apply create_category_categories_ok.
  - now apply add_item_to_category_categories_ok.
  - revert Hok. apply categories_ok_mono.
    + apply move_to_long_term_categories.
    + intros k. now rewrite move_to_long_term_stored.
  - revert Hok. apply categories_ok_mono.
    + unfold move_to_short_term.
      now destruct (PyDict.get (long_term_memory mm) item_id).
    + intros k. now rewrite move_to_short_term_stored.
  - now apply moves_categories_ok.
Qed.

Lemma run_categories_ok ops mm :
  categories_ok mm -> categories_ok (run ops mm).
Proof.
  unfold run. revert mm. induction ops as [|o ops IH]; simpl; intros mm Hok;
    [assumption|].
  apply IH. now apply step_categories_ok.
Qed.

Lemma init_categories_ok : categories_ok init.
Proof. intros category_id category. simpl. discriminate. Qed.

End CategoryFacts.

(** ** The facade *)

Module FacadeFacts.
Import KnowledgeModule.

(** [add_vector] either files the entry under the generated identifier or
    raises and leaves the database as it was. *)
Lemma add_vector_cases uuid4 c vector item_id metadata db :
  (exists db',
      VectorDatabase.add_vector uuid4 c vector item_id metadata db
      = (Ok uuid4, db')) \/
  (exists e,
      VectorDatabase.add_vector uuid4 c vector item_id metadata db
      = (Err e, db)).
Proof.
  unfold VectorDatabase.add_vector.
  destruct (PyDict.get (VectorDatabase.collections db) c); [|eauto].
  destruct (negb (len vector =? vc_dimension v)); [eauto|].
  destruct (PyDict.get (VectorDatabase.entries db) c); [|eauto].
  left. simpl.
  destruct (PyDict.mem (VectorDatabase.item_mapping db) item_id) eqn:Hm; simpl.
  - apply mem_true_get in Hm. destruct Hm as [refs ->]. eauto.
  - rewrite get_set_same. eauto.
Qed.

Lemma init_consistent uuid4 uuid1 : consistent (init uuid4 uuid1).
Proof.
  split.
  - apply (IndexInvariant.create_collection_indexed uuid4 uuid1
             "default_knowledge" 768 "flat" VectorDatabase.init).
    + apply IndexInvariant.init_indexed.
    + reflexivity.
  - apply CategoryFacts.init_categories_ok.
Qed.

(** [add_knowledge_item] keeps the facade consistent when the entry
    identifier is new to the default collection, whether the embedding fits
    the collection or not. *)
Lemma add_knowledge_item_consistent
    item_uuid entry_uuid store_uuid event_uuid now get_embedding
    content source confidence metadata km :
  consistent km ->
  VectorDatabase.entry_at (vector_database km) (default_collection_id km)
    entry_uuid = None ->
  consistent
    (snd (add_knowledge_item item_uuid entry_uuid store_uuid event_uuid now
            get_embedding content source confidence metadata km)).
Proof.
  intros [Hidx Hcat] Hfresh. unfold add_knowledge_item.
  destruct (add_vector_cases entry_uuid (default_collection_id km)
              (get_embedding content) item_uuid metadata (vector_database km))
    as [[db' Hadd]|[e Hadd]]; rewrite Hadd.
  - match goal with
    | |- context [MemoryManager.store_item ?u ?it ?m] =>
        pose proof (CategoryFacts.store_item_categories_ok u it m Hcat)
          as Hstore;
        destruct (MemoryManager.store_item u it m) as [stored_id mm']
    end.
    split; simpl; [|exact Hstore].
    now apply (IndexInvariant.add_vector_indexed _ _ _ _ _ _ _
                 Hidx Hfresh Hadd).
  - split; assumption.
Qed.

End FacadeFacts.

Module FacadeExamples.
Import KnowledgeModule.

Lemma one_fact_consistent : consistent Scenario.one_fact.
Proof.
  apply FacadeFacts.add_knowledge_item_consistent.
  - apply FacadeFacts.init_consistent.
  - reflexivity.
Qed.

End FacadeExamples.

(** ** Added knowledge and context windows *)

Module PromotionFacts.
Import MemoryManager.

Lemma in_set {V : Type} (d : dict V) k v k' v' :
  In (k', v') (PyDict.set d k v) -> (k', v') = (k, v) \/ In (k', v') d.
Proof.
  induction d as [|[k0 v0] d IH]; simpl.
  - intros [H|[]]. left. now symmetry.
  - destruct (String.eqb k k0); simpl.
    + intros [H|H]; [left; now symmetry|tauto].
    + intros [H|H]; [tauto|]. destruct (IH H); tauto.
Qed.

Lemma in_del {V : Type} (d : dict V) k k' v' :
  In (k', v') (PyDict.del d k) -> In (k', v') d.
Proof.
  induction d as [|[k0 v0] d IH]; simpl; [tauto|].
  destruct (String.eqb k k0); simpl; [tauto|].
  intros [H|H]; tauto.
Qed.

Lemma in_mem {V : Type} (d : dict V) k v :
  In (k, v) d -> PyDict.mem d k = true.
Proof.
  intros H. apply mem_keys. unfold PyDict.keys.
  now apply (in_map fst) in H.
Qed.

Lemma sort_by_strategy_perm strategy l :
  Permutation l (sort_by_strategy strategy l).
Proof.
  unfold sort_by_strategy.
  destruct (String.eqb strategy "importance_recency");
    [apply sort_desc_perm|].
  destruct (String.eqb strategy "importance"); [apply sort_desc_perm|].
  destruct (String.eqb strategy "recency"); [apply sort_desc_perm|].
  reflexivity.
Qed.

(** The identifiers of a window are identifiers of short-term items. *)
Lemma window_items_short_term uuid4 now max_tokens strategy mm id :
  In id (map ci_item_id
           (cw_items (create_context_window uuid4 now max_tokens strategy mm)))
  ->
  exists k item, In (k, item) (short_term_memory mm) /\ mi_item_id item = id.
Proof.
  intros Hin.
  destruct (ContextWindowFacts.window_is_selection
              uuid4 now max_tokens strategy mm)
    as (taken & rest & Hranked & Hitems & _).
  rewrite Hitems in Hin.
  apply in_map_iff in Hin. destruct Hin as (ci & Hid & Hin).
  assert (Hr : In ci (ranked_items now strategy mm)).
  { rewrite Hranked. apply in_or_app. now left. }
  unfold ranked_items in Hr.
  apply (Permutation_in _ (Permutation_sym (sort_by_strategy_perm _ _)))
    in Hr.
  apply in_map_iff in Hr. destruct Hr as (item & Hci & Hitem).
  unfold PyDict.values in Hitem. apply in_map_iff in Hitem.
  destruct Hitem as ([k item'] & Heq & Hkv). simpl in Heq. subst item'.
  exists k, item. split; [assumption|]. now rewrite <- Hid, <- Hci.
Qed.

Lemma window_excludes uuid4 now max_tokens strategy mm id :
  keyed mm ->
  PyDict.mem (short_term_memory mm) id = false ->
  ~ In id (map ci_item_id
             (cw_items
                (create_context_window uuid4 now max_tokens strategy mm))).
Proof.
  intros Hkeyed Hout Hin. apply window_items_short_term in Hin.
  destruct Hin as (k & item & Hkv & Hid).
  rewrite (Hkeyed k item (or_introl Hkv)) in Hid. subst k.
  apply in_mem in Hkv. congruence.
Qed.

Lemma init_keyed : keyed init.
Proof. intros k item. simpl. tauto. Qed.

Lemma keyed_intro s l c (mm : t) :
  keyed mm ->
  (forall k item, In (k, item) s ->
     mi_item_id item = k \/
     In (k, item) (short_term_memory mm) \/ In (k, item) (long_term_memory mm))
  ->
  (forall k item, In (k, item) l ->
     mi_item_id item = k \/
     In (k, item) (short_term_memory mm) \/ In (k, item) (long_term_memory mm))
  ->
  keyed {| short_term_memory := s; long_term_memory := l; categories := c |}.
Proof.
  intros Hk Hs Hl k item. simpl. intros [H|H].
  - destruct (Hs _ _ H) as [?|?]; [assumption|now apply Hk].
  - destruct (Hl _ _ H) as [?|?]; [assumption|now apply Hk].
Qed.

Ltac keyed_cases :=
  match goal with
  | H : In _ (PyDict.set _ _ _) |- _ =>
      apply in_set in H; destruct H as [H|H]; [injection H as -> ->|]
  | H : In _ (PyDict.del _ _) |- _ => apply in_del in H
  end.

Lemma store_item_keyed uuid4 item mm :
  keyed mm -> keyed (snd (store_item uuid4 item mm)).
Proof.
  intros Hk. unfold store_item.
  destruct (String.eqb (mi_item_id item) "");
    destruct (is_short_term _); simpl;
    apply (keyed_intro _ _ _ mm Hk); intros k it H;
    try keyed_cases; auto.
Qed.

Lemma retrieve_item_keyed now item_id mm :
  keyed mm -> keyed (snd (retrieve_item now item_id mm)).
Proof.
  intros Hk. unfold retrieve_item.
  destruct (PyDict.get (short_term_memory mm) item_id) as [found|] eqn:Hs.
  - simpl. apply (keyed_intro _ _ _ mm Hk); intros k it H;
      try keyed_cases; auto.
    left. simpl. apply get_in in Hs. exact (Hk _ _ (or_introl Hs)).
  - destruct (PyDict.get (long_term_memory mm) item_id) as [found|] eqn:Hl;
      [|assumption].
    simpl. apply (keyed_intro _ _ _ mm Hk); intros k it H;
      try keyed_cases; auto.
    left. simpl. apply get_in in Hl. exact (Hk _ _ (or_intror Hl)).
Qed.

Lemma update_item_keyed item mm :
  keyed mm -> keyed (snd (update_item item mm)).
Proof.
  intros Hk. unfold update_item.
  destruct (PyDict.mem (short_term_memory mm) (mi_item_id item)).
  - simpl. apply (keyed_intro _ _ _ mm Hk); intros k it H;
      try keyed_cases; auto.
  - destruct (PyDict.mem (long_term_memory mm) (mi_item_id item));
      [|assumption].
    simpl. apply (keyed_intro _ _ _ mm Hk); intros k it H;
      try keyed_cases; auto.
Qed.

Lemma delete_item_keyed item_id mm :
  keyed mm -> keyed (snd (delete_item item_id mm)).
Proof.
  intros Hk. unfold delete_item.
  destruct (PyDict.mem (short_term_memory mm) item_id).
  - simpl. apply (keyed_intro _ _ _ mm Hk); intros k it H;
      try keyed_cases; auto.
  - destruct (PyDict.mem (long_term_memory mm) item_id); [|assumption].
    simpl. apply (keyed_intro _ _ _ mm Hk); intros k it H;
      try keyed_cases; auto.
Qed.

Lemma move_to_long_term_keyed item_id mm :
  keyed mm -> keyed (snd (move_to_long_term item_id mm)).
Proof.
  intros Hk. unfold move_to_long_term.
  destruct (PyDict.get (short_term_memory mm) item_id) as [found|] eqn:Hs;
    [|assumption].
  simpl. apply (keyed_intro _ _ _ mm Hk); intros k it H;
    try keyed_cases; auto.
  left. simpl. apply get_in in Hs. exact (Hk _ _ (or_introl Hs)).
Qed.

Lemma move_to_short_term_keyed item_id mm :
  keyed mm -> keyed (snd (move_to_short_term item_id mm)).
Proof.
  intros Hk. unfold move_to_short_term.
  destruct (PyDict.get (long_term_memory mm) item_id) as [found|] eqn:Hl;
    [|assumption].
  simpl. apply (keyed_intro _ _ _ mm Hk); intros k it H;
    try keyed_cases; auto.
  left. simpl. apply get_in in Hl. exact (Hk _ _ (or_intror Hl)).
Qed.

Lemma moves_keyed ids mm :
  keyed mm ->
  keyed (fold_left (fun m id => snd (move_to_long_term id m)) ids mm).
Proof.
  revert mm. induction ids as [|id ids IH]; simpl; intros mm Hk;
    [assumption|].
  apply IH. now apply move_to_long_term_keyed.
Qed.

Lemma step_keyed o mm : keyed mm -> keyed (step o mm).
Proof.
  intros Hk. destruct o; simpl.
  - now apply store_item_keyed.
  - now apply retrieve_item_keyed.
  - now apply update_item_keyed.
  - now apply delete_item_keyed.
  - exact Hk.
  - destruct (MemoryManagerFacts.add_item_to_category_tiers
                item_id category_id mm) as [Hs Hl].
    intros k item. rewrite Hs, Hl. apply Hk.
  - now apply move_to_long_term_keyed.
  - now apply move_to_short_term_keyed.
  - now apply moves_keyed.
Qed.

Lemma run_keyed ops mm : keyed mm -> keyed (run ops mm).
Proof.
  unfold run. revert mm. induction ops as [|o ops IH]; simpl; intros mm Hk;
    [assumption|].
  apply IH. now apply step_keyed.
Qed.

End PromotionFacts.

Module ContextEntryFacts.
Import MemoryManager.

Lemma moves_short_term ids mm id :
  PyDict.mem (short_term_memory mm) id = false ->
  PyDict.mem
    (short_term_memory
       (fold_left (fun m i => snd (move_to_long_term i m)) ids mm)) id
  = false.
Proof.
  revert mm. induction ids as [|i ids IH]; simpl; intros mm H; [assumption|].
  apply IH. unfold move_to_long_term.
  destruct (PyDict.get (short_term_memory mm) i); [|assumption].
  simpl. rewrite mem_del, H. apply andb_false_r.
Qed.

(** An operation that does not promote [id] leaves it out of the short-term
    tier. *)
Lemma step_not_promoted o mm id :
  ~ promotes id o ->
  PyDict.mem (short_term_memory mm) id = false ->
  PyDict.mem (short_term_memory (step o mm)) id = false.
Proof.
  intros Hnp Hout. destruct o; cbn [step promotes] in *.
  - destruct (MemoryManagerFacts.store_item_tiers uuid4 item mm)
      as (item' & _ & ->).
    destruct (is_short_term (mi_memory_type item)); simpl; [|assumption].
    rewrite mem_set, Hout.
    destruct (String.eqb (stored_id uuid4 item) id) eqn:E; [|reflexivity].
    apply String.eqb_eq in E. elim Hnp. auto.
  - unfold retrieve_item.
    destruct (PyDict.get (short_term_memory mm) item_id) eqn:Hs; simpl.
    + rewrite mem_set, Hout.
      destruct (String.eqb item_id id) eqn:E; [|reflexivity].
      apply String.eqb_eq in E. subst. apply mem_get_some in Hs. congruence.
    + now destruct (PyDict.get (long_term_memory mm) item_id).
  - unfold update_item.
    destruct (PyDict.mem (short_term_memory mm) (mi_item_id item)) eqn:Hs;
      simpl.
    + rewrite mem_set, Hout.
      destruct (String.eqb (mi_item_id item) id) eqn:E; [|reflexivity].
      apply String.eqb_eq in E. congruence.
    + now destruct (PyDict.mem (long_term_memory mm) (mi_item_id item)).
  - unfold delete_item.
    destruct (PyDict.mem (short_term_memory mm) item_id); simpl.
    + rewrite mem_del, Hout. apply andb_false_r.
    + now destruct (PyDict.mem (long_term_memory mm) item_id).
  - assumption.
  - destruct (MemoryManagerFacts.add_item_to_category_tiers
                item_id category_id mm) as [-> _].
    assumption.
  - unfold move_to_long_term.
    destruct (PyDict.get (short_term_memory mm) item_id); [|assumption].
    simpl. rewrite mem_del, Hout. apply andb_false_r.
  - unfold move_to_short_term.
    destruct (PyDict.get (long_term_memory mm) item_id); [|assumption].
    simpl. rewrite mem_set, Hout.
    destruct (String.eqb item_id id) eqn:E; [|reflexivity].
    apply String.eqb_eq in E. contradiction.
  - now apply moves_short_term.
Qed.

Lemma run_not_promoted ops mm id :
  Forall (fun o => ~ promotes id o) ops ->
  PyDict.mem (short_term_memory mm) id = false ->
  PyDict.mem (short_term_memory (run ops mm)) id = false.
Proof.
  unfold run. intros Hops. revert mm.
  induction Hops as [|o ops Ho Hops IH]; simpl; intros mm Hout; [assumption|].
  apply IH. now apply step_not_promoted.
Qed.

(** C9, as the code has it: the memory item that lines 104-117 of
    [add_knowledge_item] build has type SEMANTIC, whatever its metadata, and
    [store_item] files it in the long-term tier map under its identifier,
    in any state of the memory manager; no context window built right
    afterwards, or after any sequence of manager operations that neither
    moves that identifier to the short-term tier nor stores a short-term
    item under it, contains the item; a [move_to_short_term] makes it a
    candidate of the next window. *)
Theorem added_item_enters_windows_by_promotion
    (history : list op) (store_uuid item_id content : string)
    (embedding : list R) (metadata : dict pyval) (confidence now : R) :
  item_id <> "" ->
  PyDict.mem (short_term_memory (run history init)) item_id = false ->
  let item :=
    KnowledgeModule.memory_item item_id content embedding metadata
      confidence now in
  let mm' := snd (store_item store_uuid item (run history init)) in
  fst (store_item store_uuid item (run history init)) = item_id /\
  mi_memory_type item = SEMANTIC /\
  PyDict.get (long_term_memory mm') item_id = Some item /\
  PyDict.mem (short_term_memory mm') item_id = false /\
  (forall ops,
      Forall (fun o => ~ promotes item_id o) ops ->
      forall uuid4 now' max_tokens strategy,
        ~ In item_id
            (map ci_item_id
               (cw_items
                  (create_context_window uuid4 now' max_tokens strategy
                     (run ops mm'))))) /\
  (forall now' strategy,
      In item_id
        (map ci_item_id
           (ranked_items now' strategy
              (snd (move_to_short_term item_id mm'))))).
Proof.
  intros Hne Hfresh item mm'.
  assert (Hkeyed : keyed (run history init)).
  { apply PromotionFacts.run_keyed, PromotionFacts.init_keyed. }
  apply String.eqb_neq in Hne.
  assert (Hmm : mm' =
                {| short_term_memory := short_term_memory (run history init);
                   long_term_memory :=
                     PyDict.set (long_term_memory (run history init))
                       item_id item;
                   categories := categories (run history init) |}).
  { subst mm'. unfold store_item. simpl. rewrite Hne. reflexivity. }
  assert (Hid : fst (store_item store_uuid item (run history init)) = item_id).
  { unfold store_item. simpl. rewrite Hne. reflexivity. }
  clearbody mm'. subst mm'.
  set (mm' := {| short_term_memory := short_term_memory (run history init);
                 long_term_memory :=
                   PyDict.set (long_term_memory (run history init))
                     item_id item;
                 categories := categories (run history init) |}).
  assert (Hget : PyDict.get (long_term_memory mm') item_id = Some item)
    by apply get_set_same.
  assert (Hkeyed' : keyed mm').
  { apply (PromotionFacts.keyed_intro _ _ _ _ Hkeyed); intros k it H; auto.
    apply PromotionFacts.in_set in H.
    destruct H as [[= -> ->]|H]; auto. }
  split; [exact Hid|]. split; [reflexivity|]. split; [exact Hget|].
  split; [assumption|]. split.
  - intros ops Hops uuid4 now' max_tokens strategy.
    apply PromotionFacts.window_excludes.
    + now apply PromotionFacts.run_keyed.
    + now apply run_not_promoted.
  - intros now' strategy. unfold move_to_short_term. rewrite Hget. simpl.
    unfold ranked_items. simpl short_term_memory.
    apply in_map_iff.
    exists (to_context_item now' (with_memory_type item SHORT_TERM)).
    split; [reflexivity|].
    apply (Permutation_in _ (PromotionFacts.sort_by_strategy_perm _ _)).
    apply in_map. unfold PyDict.values.
    apply in_map_iff. exists (item_id, with_memory_type item SHORT_TERM).
    split; [reflexivity|]. apply get_in. apply get_set_same.
Qed.

End ContextEntryFacts.

Module ContextEntryExamples.
Import MemoryManager.

(** The item is in a context window after a caller stored it again as a
    short-term item, without any [move_to_short_term]. *)
Lemma context_entry_counterexample :
  mi_memory_type Scenario.fact = SEMANTIC /\
  PyDict.get
    (long_term_memory (snd (store_item "s1" Scenario.fact init))) "i1"
    = Some Scenario.fact /\
  Forall (fun o => forall id, o <> MoveToShortTerm id) Scenario.stored_again /\
  In "i1"
    (map ci_item_id
       (cw_items
          (create_context_window "w" 1 4000 "importance_recency"
             (run Scenario.stored_again
                (snd (store_item "s1" Scenario.fact init)))))).
Proof.
  split; [reflexivity|]. split; [reflexivity|]. split.
  - repeat constructor. intros id. discriminate.
  - simpl. left. reflexivity.
Qed.

Lemma added_item_enters_windows_by_promotion_witness :
  PyDict.get
    (long_term_memory (snd (store_item "s1" Scenario.fact Scenario.three_notes)))
    "i1"
    = Some Scenario.fact /\
  ~ In "i1"
      (map ci_item_id
         (cw_items
            (create_context_window "w" 1 4000 "importance_recency"
               (snd (store_item "s1" Scenario.fact Scenario.three_notes))))).
Proof.
  destruct (ContextEntryFacts.added_item_enters_windows_by_promotion
              [Store "u1" Scenario.note_c; Store "u2" Scenario.note_b;
               Store "u3" Scenario.note_a]
              "s1" "i1" "a red sports car" []
              [("source", PyStr "web"); ("confidence", PyNum 0.9)] 0.9 0
              ltac:(discriminate) eq_refl)
    as (_ & _ & Hlong & _ & Hout & _).
  split; [exact Hlong|].
  exact (Hout [] (Forall_nil _) "w" 1%R 4000 "importance_recency").
Defined.

End ContextEntryExamples.

(** ** Deleting a collection *)

Module CollectionFacts.
Import VectorDatabase.

Lemma refs_outside_idem c refs :
  refs_outside c (refs_outside c refs) = refs_outside c refs.
Proof.
  unfold refs_outside. destruct refs as [refs|]; [|reflexivity].
  destruct (is_empty (filter _ refs)) eqn:E; [reflexivity|].
  assert (Hf : forall l : list (string * string),
             filter (fun r => negb (String.eqb (fst r) c))
               (filter (fun r => negb (String.eqb (fst r) c)) l)
             = filter (fun r => negb (String.eqb (fst r) c)) l).
  { induction l as [|x l IH]; simpl; [reflexivity|].
    destruct (negb (String.eqb (fst x) c)) eqn:Ex; simpl; [|assumption].
    now rewrite Ex, IH. }
  now rewrite Hf, E.
Qed.

(** The reverse index after the first loop of [delete_collection]. *)
Lemma unmap_entries_get c es :
  forall m id,
    PyDict.get (unmap_entries c es m) id =
    if has_entry_of id es then refs_outside c (PyDict.get m id)
    else PyDict.get m id.
Proof.
  induction es as [|entry es IH]; intros m id; simpl; [reflexivity|].
  rewrite IH.
  assert (Hstep : PyDict.get
                    match PyDict.get m (ve_item_id entry) with
                    | Some refs =>
                        if is_empty
                             (filter (fun r => negb (String.eqb (fst r) c))
                                refs)
                        then PyDict.del m (ve_item_id entry)
                        else PyDict.set m (ve_item_id entry)
                               (filter (fun r => negb (String.eqb (fst r) c))
                                  refs)
                    | None => m
                    end id
                  = if String.eqb (ve_item_id entry) id
                    then refs_outside c (PyDict.get m id)
                    else PyDict.get m id).
  { destruct (String.eqb (ve_item_id entry) id) eqn:E.
    - apply String.eqb_eq in E. subst id. unfold refs_outside.
      destruct (PyDict.get m (ve_item_id entry)) as [refs|] eqn:Hr;
        [|now rewrite Hr].
      destruct (is_empty _); [apply get_del_same|apply get_set_same].
    - apply String.eqb_neq in E.
      destruct (PyDict.get m (ve_item_id entry)) as [refs|]; [|reflexivity].
      destruct (is_empty _); [now apply get_del_other|now apply get_set_other]. }
  rewrite Hstep.
  destruct (String.eqb (ve_item_id entry) id); simpl;
    destruct (has_entry_of id es); auto using refs_outside_idem.
Qed.

Lemma refs_outside_In c refs refs' r :
  refs_outside c refs = Some refs' ->
  In r refs' <-> (exists l, refs = Some l /\ In r l) /\ fst r <> c.
Proof.
  unfold refs_outside. destruct refs as [l|]; [|discriminate].
  destruct (is_empty _); [discriminate|]. intros [= <-].
  rewrite filter_In, negb_true_iff, String.eqb_neq. split.
  - intros [H1 H2]. split; [eauto|assumption].
  - intros [(l' & [= <-] & H1) H2]. auto.
Qed.

(** [delete_collection] keeps the reverse index and the collections in
    step. *)
Lemma delete_collection_indexed c db :
  indexed db -> indexed (snd (delete_collection c db)).
Proof.
  intros Hidx. pose proof Hidx as (Hcols & Hrefs & Hentries).
  unfold delete_collection.
  destruct (PyDict.mem (collections db) c) eqn:Hc; simpl; [|assumption].
  destruct (PyDict.get (entries db) c) as [es|] eqn:Hes; simpl;
    [|assumption].
  set (m' := unmap_entries c (PyDict.values es) (item_mapping db)).
  assert (Hat : forall c' e',
             entry_at {| collections := PyDict.del (collections db) c;
                         entries := PyDict.del (entries db) c;
                         item_mapping := m' |} c' e'
             = if String.eqb c c' then None else entry_at db c' e').
  { intros c' e'. unfold entry_at. simpl. rewrite get_del.
    now destruct (String.eqb c c'). }
  assert (Hhas : forall e entry,
             entry_at db c e = Some entry ->
             has_entry_of (ve_item_id entry) (PyDict.values es) = true).
  { intros e entry He. unfold entry_at in He. rewrite Hes in He.
    apply existsb_exists. exists entry. split; [|apply String.eqb_refl].
    apply get_in in He. unfold PyDict.values.
    now apply (in_map snd) in He. }
  assert (Hkept : forall id refs' c' e',
             PyDict.get m' id = Some refs' -> In (c', e') refs' ->
             c' <> c /\
             exists refs, PyDict.get (item_mapping db) id = Some refs /\
                          In (c', e') refs).
  { intros id refs' c' e' Hget Hin. unfold m' in Hget.
    rewrite unmap_entries_get in Hget.
    destruct (has_entry_of id (PyDict.values es)) eqn:Hh.
    - apply (refs_outside_In _ _ _ (c', e') Hget) in Hin.
      destruct Hin as [(l & Hl & Hin) Hne]. split; [assumption|eauto].
    - split; [|eauto]. intros ->.
      destruct (Hrefs _ _ Hget) as (_ & _ & Hlead).
      destruct (Hlead _ _ Hin) as (_ & entry & He & Hid).
      apply Hhas in He. congruence. }
  split; [|split].
  - intros c'. simpl. rewrite !mem_del.
    destruct (String.eqb c c'); simpl; [discriminate|apply Hcols].
  - intros id refs' Hget. simpl in Hget.
    assert (Hshape : refs' <> [] /\ NoDup refs').
    { unfold m' in Hget. rewrite unmap_entries_get in Hget.
      destruct (has_entry_of id (PyDict.values es)).
      - unfold refs_outside in Hget.
        destruct (PyDict.get (item_mapping db) id) as [refs|] eqn:Hr;
          [|discriminate].
        destruct (is_empty (filter _ refs)) eqn:E; [discriminate|].
        injection Hget as <-. split.
        + intros Hnil. rewrite Hnil in E. discriminate.
        + apply NoDup_filter. now apply (Hrefs _ _ Hr).
      - destruct (Hrefs _ _ Hget) as (? & ? & _). auto. }
    destruct Hshape as [Hne Hnd]. split; [assumption|].
    split; [assumption|].
    intros c' e' Hin.
    destruct (Hkept _ _ _ _ Hget Hin) as (Hcc & refs & Hr & Hin').
    destruct (Hrefs _ _ Hr) as (_ & _ & Hlead).
    destruct (Hlead _ _ Hin') as (Hc' & entry & He & Hid).
    apply not_eq_sym in Hcc. apply String.eqb_neq in Hcc.
    simpl. rewrite mem_del, Hcc, Hc'. split; [reflexivity|].
    exists entry. rewrite Hat, Hcc. auto.
  - intros c' e' entry He. rewrite Hat in He.
    destruct (String.eqb c c') eqn:Hcc; [discriminate|].
    specialize (Hentries _ _ _ He). unfold get_item_vectors in *. simpl.
    unfold m'. rewrite unmap_entries_get.
    destruct (PyDict.get (item_mapping db) (ve_item_id entry)) as [refs|]
      eqn:Hr; [|contradiction].
    destruct (has_entry_of (ve_item_id entry) (PyDict.values es));
      [|assumption].
    unfold refs_outside.
    assert (Hkeep : In (c', e')
                      (filter (fun r => negb (String.eqb (fst r) c)) refs)).
    { apply filter_In. split; [assumption|]. simpl.
      rewrite String.eqb_sym, Hcc. reflexivity. }
    destruct (filter _ refs); [contradiction|]. exact Hkeep.
Qed.

(** [delete_vector] keeps the index in step, whatever it is asked to
    delete. *)
Lemma delete_vector_always_indexed c e db :
  indexed db -> indexed (snd (delete_vector c e db)).
Proof.
  intros Hidx.
  destruct (PyDict.mem (collections db) c) eqn:Hc.
  - destruct (entry_at db c e) as [entry|] eqn:He.
    + destruct (IndexFacts.delete_vector_found db c e entry Hc He)
        as (db' & Hdel & _).
      rewrite Hdel. simpl.
      now apply (IndexFacts.delete_vector_indexed db c e entry).
    + unfold delete_vector. rewrite Hc. simpl. unfold entry_at in He.
      destruct (PyDict.get (entries db) c); [|assumption].
      now rewrite He.
  - unfold delete_vector. now rewrite Hc.
Qed.

End CollectionFacts.

(** ** The cosine similarity on doubles: order of the arguments *)

Module CosineFacts.
Import PrimFloat Binary64.

(** X1: on doubles, [_cosine_similarity] raises exactly when the two vectors
    differ in length, in either order of the arguments; on vectors of equal
    length it returns, and the value (NaN included) does not depend on the
    order of the arguments. The value is not confined to the interval from
    -1 to 1: for [[1, 1, 1]] against itself it is [1.0000000000000002]. *)
Theorem cosine_similarity_symmetric (vec1 vec2 : list float) :
  match _cosine_similarity vec1 vec2 with
  | Ok similarity =>
      len vec1 = len vec2 /\ _cosine_similarity vec2 vec1 = Ok similarity
  | Err e =>
      len vec1 <> len vec2 /\
      e = ShapesNotAligned (len vec1) (len vec2) /\
      _cosine_similarity vec2 vec1
      = Err (ShapesNotAligned (len vec2) (len vec1))
  end /\
  _cosine_similarity [1; 1; 1]%float [1; 1; 1]%float
    = Ok 0x1.0000000000001p+0%float /\
  (1 <? 0x1.0000000000001p+0)%float = true.
Proof.
  split; [|split; reflexivity].
  unfold _cosine_similarity.
  destruct (len vec1 =? len vec2) eqn:E; simpl.
  - apply Z.eqb_eq in E.
    assert (E' : (len vec2 =? len vec1) = true) by (apply Z.eqb_eq; lia).
    rewrite E'. simpl.
    rewrite (Binary64Facts.dot_comm vec2 vec1),
      (Binary64Facts.mul_comm (norm vec2) (norm vec1)),
      (orb_comm (norm vec2 =? 0)%float).
    destruct ((norm vec1 =? 0)%float || (norm vec2 =? 0)%float); auto.
  - apply Z.eqb_neq in E.
    assert (E' : (len vec2 =? len vec1) = false) by (apply Z.eqb_neq; lia).
    rewrite E'. simpl. auto.
Qed.

End CosineFacts.

(** ** What the vector search returns *)

Module RankingFacts.
Import VectorDatabase.
Local Open Scope R_scope.

Lemma candidate_cons query_vector threshold filter_metadata entry_id entry es
    e s :
  candidate query_vector threshold filter_metadata ((entry_id, entry) :: es) e s
  <->
  (e = entry_id /\
   (is_empty filter_metadata = true \/
    _matches_metadata_filter (ve_metadata entry) filter_metadata = true) /\
   _cosine_similarity query_vector (ve_vector entry) = Ok s /\
   s >= threshold) \/
  candidate query_vector threshold filter_metadata es e s.
Proof.
  unfold candidate. split.
  - intros (x & [[= <- <-]|Hin] & Hrest); [left; tauto|right; eauto].
  - intros [(-> & Hrest)|(x & Hin & Hrest)].
    + exists entry. split; [now left|assumption].
    + exists x. split; [now right|assumption].
Qed.

(** The loop of [search_vectors] collects exactly the candidates. *)
Lemma similarities_of_candidates query_vector threshold filter_metadata es :
  forall sims,
    similarities_of query_vector threshold filter_metadata es = Ok sims ->
    forall e s,
      In (e, s) sims <->
      candidate query_vector threshold filter_metadata es e s.
Proof.
  induction es as [|[entry_id entry] es IH]; intros sims H e s.
  - simpl in H. injection H as <-. split; [contradiction|].
    intros (x & Hin & _). contradiction.
  - rewrite candidate_cons. simpl in H.
    destruct (negb (is_empty filter_metadata)
              && negb (_matches_metadata_filter (ve_metadata entry)
                         filter_metadata)) eqn:Hskip.
    + rewrite (IH _ H e s). split; [tauto|].
      intros [(_ & Hpass & _)|Hc]; [|assumption]. exfalso.
      apply andb_true_iff in Hskip. destruct Hskip as [H1 H2].
      apply negb_true_iff in H1, H2. destruct Hpass; congruence.
    + assert (Hpass : is_empty filter_metadata = true \/
                      _matches_metadata_filter (ve_metadata entry)
                        filter_metadata = true).
      { apply andb_false_iff in Hskip.
        destruct Hskip as [H1|H1]; apply negb_false_iff in H1; auto. }
      bind_inv H. bind_inv H. specialize (IH _ eq_refl e s).
      destruct (Rge_dec a threshold) as [Hge|Hlt]; injection H as <-.
      * simpl. rewrite IH. split.
        -- intros [[= <- <-]|Hc]; [left|right]; auto.
        -- intros [(-> & _ & Hcos & _)|Hc]; [left|right]; congruence.
      * rewrite IH. split; [tauto|].
        intros [(-> & _ & Hcos & Hs)|Hc]; [|assumption].
        exfalso. assert (a = s) by congruence. subst. auto.
Qed.

Lemma StronglySorted_app_order {A : Type} (Rel : A -> A -> Prop)
    (l1 l2 : list A) :
  StronglySorted Rel (l1 ++ l2) ->
  forall x y, In x l1 -> In y l2 -> Rel x y.
Proof.
  induction l1 as [|a l1 IH]; simpl; intros H x y Hx Hy; [contradiction|].
  inversion H as [|? ? Hs Hall]; subst. destruct Hx as [<-|Hx].
  - rewrite Forall_forall in Hall. apply Hall, in_or_app. now right.
  - now apply IH.
Qed.

(** A cut [l[:k]] that leaves something out has [k] elements. *)
Lemma slice_to_full {A : Type} (k : Z) (l rest : list A) :
  (0 <= k)%Z -> l = (slice_to k l ++ rest)%list -> rest <> [] ->
  len (slice_to k l) = k.
Proof.
  intros Hk Hl Hrest. unfold slice_to in *.
  destruct (k <? 0)%Z eqn:E; [apply Z.ltb_lt in E; lia|].
  unfold len. rewrite length_firstn.
  assert (Hlen : List.length l
                 = (List.length (firstn (Z.to_nat k) l) + List.length rest)%nat).
  { rewrite <- length_app, <- Hl. reflexivity. }
  rewrite length_firstn in Hlen.
  destruct rest; [contradiction|]. simpl in Hlen. lia.
Qed.

(** X2: [search_vectors] returns the best candidates: every result is an
    entry of the collection that passes the metadata filter, with its
    similarity at or above the threshold, and a candidate that is not
    returned is left out only once [top_k] results stand, none of which
    scores lower. *)
Theorem search_vectors_best_candidates
    (collection_id : string) (query_vector : list R) (top_k : Z)
    (threshold : R) (filter_metadata : dict pyval) (db : t)
    (es : dict VectorEntry) (results : list (string * R)) :
  (0 <= top_k)%Z ->
  PyDict.get (entries db) collection_id = Some es ->
  search_vectors collection_id query_vector top_k threshold filter_metadata db
    = Ok results ->
  (forall entry_id similarity,
      In (entry_id, similarity) results ->
      candidate query_vector threshold filter_metadata es entry_id similarity)
  /\
  (forall entry_id similarity,
      candidate query_vector threshold filter_metadata es entry_id similarity ->
      In (entry_id, similarity) results \/
      (len results = top_k /\
       forall r, In r results -> similarity <= snd r)).
Proof.
  intros Hk Hes H. unfold search_vectors in H.
  destruct (PyDict.get (collections db) collection_id); [|discriminate].
  destruct (negb (len query_vector =? vc_dimension v)%Z); [discriminate|].
  rewrite Hes in H. bind_inv H. injection H as <-.
  pose proof (similarities_of_candidates _ _ _ _ _ E) as Hcand.
  destruct (slice_to_prefix top_k (sort_desc snd a)) as [rest Hrest].
  pose proof (sort_desc_perm snd a) as Hperm.
  pose proof (sort_desc_sorted snd a) as Hsorted.
  split.
  - intros e s Hin. apply Hcand.
    apply (Permutation_in _ (Permutation_sym Hperm)).
    rewrite Hrest. apply in_or_app. now left.
  - intros e s Hc. apply Hcand in Hc.
    apply (Permutation_in _ Hperm) in Hc. rewrite Hrest in Hc.
    apply in_app_or in Hc. destruct Hc as [Hc|Hc]; [now left|right].
    split.
    + apply (slice_to_full _ _ rest); [assumption|assumption|].
      intros ->. contradiction.
    + intros r Hr. rewrite Hrest in Hsorted.
      apply (StronglySorted_app_order _ _ _ Hsorted r (e, s) Hr Hc).
Qed.

(** The deduplication of [search_items] finds every entry it is given. *)
Lemma dedup_items_total es vector_results :
  forall seen,
    (forall e s, In (e, s) vector_results -> PyDict.mem es e = true) ->
    exists results, dedup_items es seen vector_results = Ok results.
Proof.
  induction vector_results as [|[e s] rest IH]; simpl; intros seen Hall.
  - eauto.
  - destruct (mem_true_get es e (Hall e s (or_introl eq_refl))) as [entry ->].
    destruct (negb (str_in (ve_item_id entry) seen)).
    + destruct (IH (ve_item_id entry :: seen)) as [tail ->]; [eauto|].
      simpl. eauto.
    + apply IH. eauto.
Qed.

(** Each item of the deduplicated list stands for one of the hits, and every
    hit of an item not yet seen is covered by an entry of the list that
    scores at least as high. *)
Lemma dedup_items_best es vector_results :
  forall seen results,
    dedup_items es seen vector_results = Ok results ->
    (forall item_id score,
        In (item_id, score) results ->
        exists entry_id entry,
          In (entry_id, score) vector_results /\
          PyDict.get es entry_id = Some entry /\
          ve_item_id entry = item_id) /\
    (StronglySorted (desc snd) vector_results ->
     forall entry_id score entry,
       In (entry_id, score) vector_results ->
       PyDict.get es entry_id = Some entry ->
       ~ In (ve_item_id entry) seen ->
       exists best,
         In (ve_item_id entry, best) results /\ score <= best).
Proof.
  induction vector_results as [|[e0 s0] rest IH]; simpl; intros seen results H.
  - injection H as <-. split; [contradiction|]. intros _ ? ? ? [].
  - destruct (PyDict.get es e0) as [entry0|] eqn:Hget; [|discriminate].
    destruct (str_in (ve_item_id entry0) seen) eqn:Hseen; simpl in H.
    + destruct (IH _ _ H) as [IH1 IH2]. split.
      * intros item_id score Hin.
        destruct (IH1 _ _ Hin) as (e & entry & Hin' & Hrest).
        exists e, entry. auto.
      * intros Hs e s entry [[= <- <-]|Hin] He Hnew.
        -- rewrite Hget in He. injection He as <-.
           apply str_in_In in Hseen. contradiction.
        -- inversion Hs; subst. eauto.
    + bind_inv H. injection H as <-. destruct (IH _ _ E) as [IH1 IH2]. split.
      * intros item_id score [[= <- <-]|Hin].
        -- exists e0, entry0. auto.
        -- destruct (IH1 _ _ Hin) as (e & entry & Hin' & Hrest).
           exists e, entry. auto.
      * intros Hs e s entry Hin He Hnew.
        inversion Hs as [|? ? Hs' Hall]; subst.
        destruct (string_dec (ve_item_id entry) (ve_item_id entry0)) as [Heq|Hne].
        -- exists s0. rewrite Heq. split; [now left|].
           destruct Hin as [[= <- <-]|Hin]; [lra|].
           rewrite Forall_forall in Hall. apply (Hall (e, s) Hin).
        -- destruct Hin as [[= <- <-]|Hin].
           ++ rewrite Hget in He. injection He as <-. now elim Hne.
           ++ destruct (IH2 Hs' e s entry Hin He) as (best & Hb & Hle).
              ** intros [Hx|Hx]; [now elim Hne|contradiction].
              ** exists best. split; [now right|assumption].
Qed.

(** X3: [search_items] succeeds whenever [search_vectors] does; each item it
    returns carries the score of one of the vector hits, found under an entry
    of that item, and every vector hit is covered by its item with a score
    that is at least the hit's. *)
Theorem search_items_of_search_vectors
    (collection_id : string) (query_vector : list R) (top_k : Z)
    (threshold : R) (filter_metadata : dict pyval) (db : t)
    (vector_results : list (string * R)) :
  search_vectors collection_id query_vector top_k threshold filter_metadata db
    = Ok vector_results ->
  exists es results,
    PyDict.get (entries db) collection_id = Some es /\
    search_items collection_id query_vector top_k threshold filter_metadata db
      = Ok results /\
    (forall item_id score,
        In (item_id, score) results ->
        exists entry_id entry,
          In (entry_id, score) vector_results /\
          PyDict.get es entry_id = Some entry /\
          ve_item_id entry = item_id) /\
    (forall entry_id score entry,
        In (entry_id, score) vector_results ->
        PyDict.get es entry_id = Some entry ->
        exists best, In (ve_item_id entry, best) results /\ score <= best).
Proof.
  intros H. pose proof (SearchFacts.search_vectors_contract _ _ _ _ _ _ _ H) as (_ & _ & Hs).
  unfold search_items. rewrite H. simpl.
  unfold search_vectors in H.
  destruct (PyDict.get (collections db) collection_id); [|discriminate].
  destruct (negb (len query_vector =? vc_dimension v)%Z); [discriminate|].
  destruct (PyDict.get (entries db) collection_id) as [es|]; [|discriminate].
  bind_inv H. injection H as <-.
  pose proof (similarities_of_candidates _ _ _ _ _ E) as Hcand.
  destruct (slice_to_prefix top_k (sort_desc snd a)) as [rest Hrest].
  assert (Hkeys : forall e s,
             In (e, s) (slice_to top_k (sort_desc snd a)) ->
             PyDict.mem es e = true).
  { intros e s Hin.
    assert (Hc : In (e, s) a).
    { apply (Permutation_in _ (Permutation_sym (sort_desc_perm snd a))).
      rewrite Hrest. apply in_or_app. now left. }
    apply Hcand in Hc. destruct Hc as (entry & Hin' & _).
    now apply (PromotionFacts.in_mem _ _ entry). }
  destruct (dedup_items_total es _ [] Hkeys) as [results Hd].
  exists es, results. split; [reflexivity|]. split; [assumption|].
  destruct (dedup_items_best _ _ _ _ Hd) as [H1 H2]. split; [assumption|].
  intros e s entry Hin He. apply (H2 Hs e s entry Hin He). intros [].
Qed.

End RankingFacts.

(** ** The metadata filter of the vector search *)

Module MetadataFilterFacts.
Import VectorDatabase.

(** X4: [_matches_metadata_filter] is strict: it returns [True] exactly when
    the metadata carry every key of the filter with the value of the filter.
    An entry stored without metadata, or without one of the keys, matches no
    filter that names the key; the empty filter matches everything. *)
Theorem matches_metadata_filter_strict
    (metadata filter_metadata : dict pyval) :
  (_matches_metadata_filter metadata filter_metadata = true <->
   forall key value,
     In (key, value) filter_metadata ->
     PyDict.get metadata key = Some value) /\
  _matches_metadata_filter metadata [] = true /\
  (forall key value,
      In (key, value) filter_metadata ->
      PyDict.get metadata key = None ->
      _matches_metadata_filter metadata filter_metadata = false).
Proof.
  assert (Hiff : _matches_metadata_filter metadata filter_metadata = true <->
                 forall key value,
                   In (key, value) filter_metadata ->
                   PyDict.get metadata key = Some value).
  { induction filter_metadata as [|[k v] rest IH]; simpl.
    - split; [intros _ key value []|reflexivity].
    - destruct (PyDict.get metadata k) as [v'|] eqn:Hget.
      + destruct (pyval_eqb v' v) eqn:E; simpl.
        * apply FilterFacts.pyval_eqb_eq in E. subst v'. rewrite IH. split.
          -- intros H key value [[= <- <-]|Hin]; auto.
          -- intros H key value Hin. apply H. now right.
        * apply FilterFacts.pyval_eqb_neq in E. split; [discriminate|].
          intros H. specialize (H k v (or_introl eq_refl)). congruence.
      + split; [discriminate|].
        intros H. specialize (H k v (or_introl eq_refl)). congruence. }
  split; [exact Hiff|]. split; [reflexivity|].
  intros key value Hin Hnone.
  destruct (_matches_metadata_filter metadata filter_metadata) eqn:E;
    [|reflexivity].
  pose proof (proj1 Hiff eq_refl key value Hin). congruence.
Qed.

End MetadataFilterFacts.

(** ** Round trips of the vector store *)

Module StoreFacts.
Import VectorDatabase.

Lemma get_entry_entry_at c e db :
  get_entry c e db =
  if PyDict.mem (collections db) c
  then match PyDict.get (entries db) c with
       | Some es => Ok (PyDict.get es e)
       | None => Err (KeyError c)
       end
  else Ok None.
Proof. unfold get_entry. now destruct (PyDict.mem (collections db) c). Qed.

(** On a store whose collections have their entry maps, [get_entry] is the
    lookup of the entry in an existing collection. *)
Lemma get_entry_mapped c e db :
  mapped db ->
  get_entry c e db =
  Ok (if PyDict.mem (collections db) c then entry_at db c e else None).
Proof.
  intros Hm. rewrite get_entry_entry_at. unfold entry_at.
  destruct (PyDict.mem (collections db) c) eqn:Hc; [|reflexivity].
  destruct (mem_true_get _ _ (Hm _ Hc)) as [es ->]. reflexivity.
Qed.

Lemma pair_neq_eqb (c e c' e' : string) :
  (c', e') <> (c, e) -> String.eqb c c' && String.eqb e e' = false.
Proof.
  intros Hne. destruct (String.eqb c c' && String.eqb e e') eqn:E;
    [|reflexivity].
  apply IndexFacts.pair_eqb_eq in E. congruence.
Qed.

(** The entry that [add_vector] files. *)
Lemma add_vector_entry db uuid4 c vector item_id metadata collection :
  PyDict.get (collections db) c = Some collection ->
  len vector = vc_dimension collection ->
  PyDict.mem (entries db) c = true ->
  entry_at (snd (add_vector uuid4 c vector item_id metadata db)) c uuid4 =
  Some {| ve_entry_id := uuid4; ve_vector := vector; ve_item_id := item_id;
          ve_metadata := match metadata with Some m => m | None => [] end |}.
Proof.
  intros Hc Hdim Hes. unfold add_vector. rewrite Hc.
  apply Z.eqb_eq in Hdim. rewrite Hdim. simpl.
  apply mem_true_get in Hes. destruct Hes as [es Hes]. rewrite Hes.
  destruct (PyDict.mem (item_mapping db) item_id) eqn:Hm; simpl.
  - apply mem_true_get in Hm. destruct Hm as [refs Hr]. rewrite Hr.
    unfold entry_at. simpl. now rewrite !get_set_same.
  - rewrite get_set_same. unfold entry_at. simpl. now rewrite !get_set_same.
Qed.

(** X5: on a store whose collections have their entry maps, [add_vector] of
    a vector of the collection's dimension returns the generated identifier;
    [get_entry] then returns the entry with the vector, the item and the
    metadata given, every other entry reads as before, the item has one more
    reference, the last one, and the collections still have their entry
    maps. *)
Theorem add_vector_get_entry
    (uuid4 collection_id : string) (vector : list R) (item_id : string)
    (metadata : option (dict pyval)) (db : t) (collection : VectorCollection) :
  mapped db ->
  PyDict.get (collections db) collection_id = Some collection ->
  len vector = vc_dimension collection ->
  exists db',
    add_vector uuid4 collection_id vector item_id metadata db
      = (Ok uuid4, db') /\
    get_entry collection_id uuid4 db' =
      Ok (Some {| ve_entry_id := uuid4; ve_vector := vector;
                  ve_item_id := item_id;
                  ve_metadata :=
                    match metadata with Some m => m | None => [] end |}) /\
    (forall c e, (c, e) <> (collection_id, uuid4) ->
                 get_entry c e db' = get_entry c e db) /\
    get_item_vectors item_id db' =
      (get_item_vectors item_id db ++ [(collection_id, uuid4)])%list /\
    (forall id, id <> item_id ->
                get_item_vectors id db' = get_item_vectors id db) /\
    mapped db'.
Proof.
  intros Hm Hc Hdim.
  assert (Hes : PyDict.mem (entries db) collection_id = true).
  { apply Hm. now apply (mem_get_some _ _ collection). }
  pose proof (add_vector_entry db uuid4 collection_id vector item_id metadata
                collection Hc Hdim Hes) as Hentry.
  destruct (IndexInvariant.add_vector_ok db uuid4 collection_id vector item_id
              metadata collection Hc Hdim Hes)
    as (db' & entry & Hadd & _ & Hcol & Hmem & Hat & Hmap).
  rewrite Hadd in Hentry. simpl in Hentry.
  assert (Hm' : mapped db').
  { intros c. rewrite Hcol, Hmem. apply Hm. }
  exists db'. split; [assumption|]. split; [|split; [|split; [|split]]].
  - rewrite (get_entry_mapped _ _ _ Hm'), Hcol, (mem_get_some _ _ _ Hc).
    now rewrite Hentry.
  - intros c e Hne. rewrite (get_entry_mapped _ _ _ Hm'),
      (get_entry_mapped _ _ _ Hm), Hcol, Hat.
    now rewrite (pair_neq_eqb _ _ _ _ Hne).
  - unfold get_item_vectors at 1. now rewrite Hmap, String.eqb_refl.
  - intros id Hne. unfold get_item_vectors. rewrite Hmap.
    destruct (String.eqb item_id id) eqn:E; [|reflexivity].
    apply String.eqb_eq in E. congruence.
  - assumption.
Qed.

Lemma delete_vector_absent c e db :
  mapped db -> get_entry c e db = Ok None ->
  delete_vector c e db = (Ok false, db).
Proof.
  intros Hm Hget. rewrite get_entry_entry_at in Hget. unfold delete_vector.
  destruct (PyDict.mem (collections db) c) eqn:Hc; [|reflexivity]. simpl.
  destruct (PyDict.get (entries db) c) as [es|]; [|discriminate].
  injection Hget as ->. reflexivity.
Qed.

(** X6: [delete_vector] of an entry that [get_entry] finds returns [True];
    afterwards [get_entry] finds nothing under the identifier, the item of
    the entry has lost the reference, every other entry reads as before and
    a second [delete_vector] returns [False] and changes nothing; so does
    [delete_vector] of an entry that [get_entry] does not find. *)
Theorem delete_vector_get_entry
    (collection_id entry_id : string) (db : t) :
  mapped db ->
  match get_entry collection_id entry_id db with
  | Ok (Some entry) =>
      exists db',
        delete_vector collection_id entry_id db = (Ok true, db') /\
        mapped db' /\
        get_entry collection_id entry_id db' = Ok None /\
        (forall c e, (c, e) <> (collection_id, entry_id) ->
                     get_entry c e db' = get_entry c e db) /\
        ~ In (collection_id, entry_id)
            (get_item_vectors (ve_item_id entry) db') /\
        (forall id, id <> ve_item_id entry ->
                    get_item_vectors id db' = get_item_vectors id db) /\
        delete_vector collection_id entry_id db' = (Ok false, db')
  | Ok None => delete_vector collection_id entry_id db = (Ok false, db)
  | Err _ => False
  end.
Proof.
  intros Hm. destruct (get_entry collection_id entry_id db) as [[entry|]|err]
    eqn:Hget.
  - rewrite (get_entry_mapped _ _ _ Hm) in Hget. injection Hget as Hget.
    destruct (PyDict.mem (collections db) collection_id) eqn:Hc;
      [|discriminate].
    destruct (IndexFacts.delete_vector_found db collection_id entry_id entry
                Hc Hget) as (db' & Hdel & Hcol & Hmem & Hat & Hmap).
    assert (Hm' : mapped db').
    { intros c. rewrite Hcol, Hmem. apply Hm. }
    assert (Hgone : get_entry collection_id entry_id db' = Ok None).
    { rewrite (get_entry_mapped _ _ _ Hm'), Hcol, Hc, Hat.
      now rewrite !String.eqb_refl. }
    exists db'. split; [assumption|]. split; [assumption|].
    split; [assumption|]. split; [|split; [|split]].
    + intros c e Hne. rewrite (get_entry_mapped _ _ _ Hm'),
        (get_entry_mapped _ _ _ Hm), Hcol, Hat.
      now rewrite (pair_neq_eqb _ _ _ _ Hne).
    + unfold get_item_vectors. rewrite Hmap, String.eqb_refl.
      destruct (refs_without collection_id entry_id
                  (PyDict.get (item_mapping db) (ve_item_id entry)))
        as [refs'|] eqn:Hr; [|tauto].
      intros Hin.
      apply (IndexFacts.refs_without_In _ _ _ _ (collection_id, entry_id) Hr)
        in Hin.
      destruct Hin as [_ Hne]. now elim Hne.
    + intros id Hne. unfold get_item_vectors. rewrite Hmap.
      destruct (String.eqb (ve_item_id entry) id) eqn:E; [|reflexivity].
      apply String.eqb_eq in E. congruence.
    + now apply delete_vector_absent.
  - now apply delete_vector_absent.
  - rewrite (get_entry_mapped _ _ _ Hm) in Hget. discriminate.
Qed.

End StoreFacts.

(** ** Deleting an item's vectors, deleting a collection *)

Module RemovalFacts.
Import VectorDatabase.

(** The loop of [delete_item_vectors] touches the entries and the references
    of that item only. *)
Lemma delete_each_others item_id vectors :
  forall count db,
    indexed db ->
    get_item_vectors item_id db = vectors ->
    (forall c e entry,
        entry_at (snd (delete_each vectors count db)) c e = Some entry <->
        entry_at db c e = Some entry /\ ve_item_id entry <> item_id) /\
    (forall id, id <> item_id ->
        PyDict.get (item_mapping (snd (delete_each vectors count db))) id
        = PyDict.get (item_mapping db) id).
Proof.
  induction vectors as [|[c e] rest IH]; intros count db Hidx Hget.
  - simpl. split; [|reflexivity]. intros c e entry. split; [|tauto].
    intros Hentry. split; [assumption|]. intros Hid.
    destruct Hidx as (_ & _ & Hentries).
    specialize (Hentries _ _ _ Hentry). rewrite Hid, Hget in Hentries.
    contradiction.
  - apply IndexFacts.get_item_vectors_cons in Hget.
    pose proof Hidx as (Hcols & Hrefs & Hentries).
    destruct (Hrefs _ _ Hget) as (_ & Hnd & Hlead).
    destruct (Hlead c e (or_introl eq_refl)) as (Hc & entry & Hentry & Hid).
    destruct (IndexFacts.delete_vector_found db c e entry Hc Hentry)
      as (db1 & Hdel & Hcol1 & Hmem1 & Hat1 & Hmap1).
    assert (Hidx1 : indexed db1).
    { now apply (IndexFacts.delete_vector_indexed db c e entry). }
    assert (Hget1 : get_item_vectors item_id db1 = rest).
    { unfold get_item_vectors. rewrite Hmap1, Hid, String.eqb_refl, Hget.
      unfold refs_without. inversion Hnd as [|? ? Hnotin _]; subst.
      rewrite IndexFacts.drop_ref_head by assumption.
      now destruct rest. }
    destruct (IH (count + 1) db1 Hidx1 Hget1) as [IH1 IH2].
    simpl. rewrite Hdel. split.
    + intros c' e' entry'. rewrite IH1, Hat1.
      destruct (String.eqb c c' && String.eqb e e') eqn:E; [|tauto].
      apply IndexFacts.pair_eqb_eq in E. injection E as <- <-.
      split; [intros [? _]; discriminate|].
      intros [Hentry' Hne]. rewrite Hentry in Hentry'. congruence.
    + intros id Hne. rewrite (IH2 id Hne), Hmap1.
      destruct (String.eqb (ve_item_id entry) id) eqn:E; [|reflexivity].
      apply String.eqb_eq in E. congruence.
Qed.

(** X7: on a store whose reverse index is in step, [delete_item_vectors]
    returns the number of references of the item and removes exactly the
    entries of that item: an entry is found afterwards if and only if it was
    found before and belongs to another item; the item has no reference
    left, and the references of every other item and the collections are as
    before. *)
Theorem delete_item_vectors_exact (item_id : string) (db : t) :
  indexed db ->
  exists db',
    delete_item_vectors item_id db
      = (Ok (len (get_item_vectors item_id db)), db') /\
    (forall c e entry,
        entry_at db' c e = Some entry <->
        entry_at db c e = Some entry /\ ve_item_id entry <> item_id) /\
    get_item_vectors item_id db' = [] /\
    (forall id, id <> item_id ->
                get_item_vectors id db' = get_item_vectors id db) /\
    collections db' = collections db.
Proof.
  intros Hidx.
  destruct (IndexFacts.delete_item_vectors_spec item_id db Hidx)
    as (db' & Hdel & Hidx' & Hcol & Hnone & Hgone).
  exists db'. split; [assumption|].
  assert (Hsnd : db' = snd (delete_item_vectors item_id db))
    by now rewrite Hdel.
  unfold delete_item_vectors in Hsnd.
  destruct (PyDict.get (item_mapping db) item_id) as [refs|] eqn:Hr.
  - destruct (delete_each_others item_id refs 0 db Hidx) as [H1 H2].
    { unfold get_item_vectors. now rewrite Hr. }
    rewrite <- Hsnd in H1, H2. split; [assumption|].
    split; [unfold get_item_vectors; now rewrite Hnone|].
    split; [|assumption].
    intros id Hne. unfold get_item_vectors. now rewrite H2.
  - simpl in Hsnd. subst db'. split.
    + intros c e entry. split; [|tauto]. intros Hentry.
      split; [assumption|]. now apply (Hgone c e).
    + split; [unfold get_item_vectors; now rewrite Hr|]. now split.
Qed.

Lemma get_values_in {V : Type} (d : dict V) k v :
  PyDict.get d k = Some v -> In v (PyDict.values d).
Proof.
  intros H. apply get_in in H. unfold PyDict.values.
  now apply (in_map snd) in H.
Qed.

(** X8: on a store whose reverse index is in step, [delete_collection] of an
    existing collection returns [True]; afterwards the collection is not
    found, a search in it raises "collection not found", it has no entry,
    no item keeps a reference into it, and the other collections, their
    entries and the references into them are as before. For a collection
    that does not exist it returns [False] and changes nothing. *)
Theorem delete_collection_removes (collection_id : string) (db : t) :
  indexed db ->
  if PyDict.mem (collections db) collection_id
  then
    exists db',
      delete_collection collection_id db = (Ok true, db') /\
      get_collection collection_id db' = None /\
      (forall query_vector top_k threshold filter_metadata,
          search_vectors collection_id query_vector top_k threshold
            filter_metadata db'
          = Err (CollectionNotFound collection_id)) /\
      (forall e, get_entry collection_id e db' = Ok None) /\
      (forall id e, ~ In (collection_id, e) (get_item_vectors id db')) /\
      (forall c, c <> collection_id ->
          get_collection c db' = get_collection c db /\
          (forall e, get_entry c e db' = get_entry c e db) /\
          (forall id e, In (c, e) (get_item_vectors id db') <->
                        In (c, e) (get_item_vectors id db)))
  else delete_collection collection_id db = (Ok false, db).
Proof.
  intros Hidx. pose proof (CollectionFacts.delete_collection_indexed
                             collection_id db Hidx) as Hidx'.
  unfold delete_collection in *.
  destruct (PyDict.mem (collections db) collection_id) eqn:Hc;
    [|reflexivity].
  simpl in *. pose proof Hidx as (Hcols & _ & _).
  destruct (mem_true_get _ _ (Hcols _ Hc)) as [es Hes]. rewrite Hes in *.
  simpl in Hidx'. eexists. split; [reflexivity|].
  assert (Hnone : PyDict.get (PyDict.del (collections db) collection_id)
                    collection_id = None) by apply get_del_same.
  split; [exact Hnone|]. split; [|split; [|split]].
  - intros q k th f. unfold search_vectors. simpl. now rewrite Hnone.
  - intros e. unfold get_entry. simpl.
    now rewrite (proj1 (mem_get_none _ _) Hnone).
  - intros id e Hin. destruct Hidx' as (_ & Hrefs' & _).
    unfold get_item_vectors in Hin. simpl in Hin.
    destruct (PyDict.get
                (unmap_entries collection_id (PyDict.values es)
                   (item_mapping db)) id) as [refs|] eqn:Hr; [|contradiction].
    destruct (Hrefs' _ _ Hr) as (_ & _ & Hlead).
    destruct (Hlead _ _ Hin) as [Hmem _]. simpl in Hmem.
    rewrite (proj1 (mem_get_none _ _) Hnone) in Hmem. discriminate.
  - intros c Hne. split; [|split].
    + unfold get_collection. simpl. apply get_del_other. congruence.
    + intros e. unfold get_entry. simpl. rewrite mem_del.
      assert (E : String.eqb collection_id c = false)
        by (apply String.eqb_neq; congruence).
      rewrite E. simpl. rewrite get_del_other by congruence. reflexivity.
    + intros id e. unfold get_item_vectors. simpl.
      rewrite CollectionFacts.unmap_entries_get.
      destruct (has_entry_of id (PyDict.values es)); [|tauto].
      destruct (refs_outside collection_id (PyDict.get (item_mapping db) id))
        as [refs'|] eqn:Hr.
      * rewrite (CollectionFacts.refs_outside_In _ _ _ (c, e) Hr).
        destruct (PyDict.get (item_mapping db) id) as [refs|].
        -- split.
           ++ intros [(l & [= <-] & Hin) _]. assumption.
           ++ intros Hin. split; [eauto|assumption].
        -- discriminate.
      * unfold refs_outside in Hr.
        destruct (PyDict.get (item_mapping db) id) as [refs|]; [|tauto].
        destruct (is_empty _) eqn:Hempty; [|discriminate].
        split; [contradiction|]. intros Hin.
        assert (Hf : In (c, e)
                       (filter (fun r => negb (String.eqb (fst r)
                                                 collection_id)) refs)).
        { apply filter_In. split; [assumption|]. simpl.
          apply negb_true_iff, String.eqb_neq. assumption. }
        destruct (filter _ refs); [contradiction|discriminate].
Qed.

End RemovalFacts.

(** ** Stores built by their own operations *)

Module BuiltStores.
Import VectorDatabase.

Lemma step_indexed o db : fresh_id o db -> indexed db -> indexed (step o db).
Proof.
  intros Hfresh Hidx. destruct o; cbn [step fresh_id] in *.
  - now apply IndexInvariant.create_collection_indexed.
  - destruct (FacadeFacts.add_vector_cases uuid4 collection_id vector item_id
                metadata db) as [[db' Hadd]|[e Hadd]]; rewrite Hadd; simpl.
    + now apply (IndexInvariant.add_vector_indexed _ _ _ _ _ _ _
                   Hidx Hfresh Hadd).
    + assumption.
  - now apply CollectionFacts.delete_vector_always_indexed.
  - destruct (IndexFacts.delete_item_vectors_spec item_id db Hidx)
      as (db' & Hdel & Hidx' & _).
    now rewrite Hdel.
  - now apply CollectionFacts.delete_collection_indexed.
Qed.

(** Every store that the operations build from a new one, with identifiers
    that are new when they are generated, has its reverse index in step. *)
Lemma run_indexed ops :
  forall db, fresh_ids ops db -> indexed db -> indexed (run ops db).
Proof.
  unfold run. induction ops as [|o ops IH]; simpl; intros db Hfresh Hidx;
    [assumption|].
  destruct Hfresh as [Ho Hrest]. apply IH; [assumption|].
  now apply step_indexed.
Qed.

(** A facade whose two stores were built by their own operations is
    consistent. *)
Lemma built_consistent (km : KnowledgeModule.t) ops memory_ops :
  KnowledgeModule.vector_database km = run ops init ->
  fresh_ids ops init ->
  KnowledgeModule.memory_manager km
  = MemoryManager.run memory_ops MemoryManager.init ->
  KnowledgeModule.consistent km.
Proof.
  intros Hdb Hfresh Hmm. split.
  - rewrite Hdb. apply run_indexed; [assumption|].
    apply IndexInvariant.init_indexed.
  - rewrite Hmm.
    apply CategoryFacts.run_categories_ok, CategoryFacts.init_categories_ok.
Qed.

End BuiltStores.

(** ** Deleting a knowledge item *)

Module CascadeFacts.
Import KnowledgeModule.

Lemma list_remove_iff x l :
  NoDup l -> forall y, In y (list_remove x l) <-> In y l /\ y <> x.
Proof.
  induction l as [|z l IH]; simpl; intros Hnd y; [tauto|].
  inversion Hnd as [|? ? Hnotin Hnd']; subst.
  destruct (String.eqb x z) eqn:E.
  - apply String.eqb_eq in E. subst z. split.
    + intros Hy. split; [now right|]. intros ->. contradiction.
    + intros [[Hy|Hy] Hne]; [congruence|assumption].
  - apply String.eqb_neq in E. simpl. rewrite (IH Hnd'). split.
    + intros [<-|[Hy Hne]]; [split; [now left|congruence]|tauto].
    + intros [[<-|Hy] Hne]; [now left|right; tauto].
Qed.

(** [delete_item] takes the item out of the lists of the categories and
    leaves everything else of every category as it was. *)
Lemma delete_item_categories item_id mm category_id :
  MemoryManager.categories_ok mm ->
  match PyDict.get (MemoryManager.categories mm) category_id with
  | Some category =>
      exists category',
        PyDict.get
          (MemoryManager.categories (snd (MemoryManager.delete_item item_id mm)))
          category_id = Some category' /\
        mc_category_id category' = mc_category_id category /\
        mc_name category' = mc_name category /\
        mc_description category' = mc_description category /\
        mc_parent_id category' = mc_parent_id category /\
        forall id, In id (mc_items category') <->
                   In id (mc_items category) /\ id <> item_id
  | None =>
      PyDict.get
        (MemoryManager.categories (snd (MemoryManager.delete_item item_id mm)))
        category_id = None
  end.
Proof.
  intros Hok.
  assert (Hpurged :
            match PyDict.get (MemoryManager.categories mm) category_id with
            | Some category =>
                exists category',
                  PyDict.get
                    (MemoryManager.purge_categories item_id
                       (MemoryManager.categories mm)) category_id
                  = Some category' /\
                  mc_category_id category' = mc_category_id category /\
                  mc_name category' = mc_name category /\
                  mc_description category' = mc_description category /\
                  mc_parent_id category' = mc_parent_id category /\
                  forall id, In id (mc_items category') <->
                             In id (mc_items category) /\ id <> item_id
            | None =>
                PyDict.get
                  (MemoryManager.purge_categories item_id
                     (MemoryManager.categories mm)) category_id = None
            end).
  { rewrite CategoryFacts.get_purge_categories.
    destruct (PyDict.get (MemoryManager.categories mm) category_id)
      as [category|] eqn:E; [|reflexivity].
    destruct (Hok _ _ E) as [Hnd _].
    exists (MemoryManager.purge_category item_id category).
    split; [reflexivity|]. unfold MemoryManager.purge_category.
    destruct (str_in item_id (mc_items category)) eqn:Hin; simpl.
    - do 4 (split; [reflexivity|]). intros id. now apply list_remove_iff.
    - apply str_in_false in Hin. do 4 (split; [reflexivity|]).
      intros id. split; [|tauto]. intros Hid. split; [assumption|].
      intros ->. contradiction. }
  unfold MemoryManager.delete_item.
  destruct (PyDict.mem (MemoryManager.short_term_memory mm) item_id) eqn:Hs;
    [exact Hpurged|].
  destruct (PyDict.mem (MemoryManager.long_term_memory mm) item_id) eqn:Hl;
    [exact Hpurged|].
  simpl.
  destruct (PyDict.get (MemoryManager.categories mm) category_id)
    as [category|] eqn:E; [|reflexivity].
  exists category. do 5 (split; [reflexivity|]).
  intros id. split; [|tauto]. intros Hid. split; [assumption|].
  intros ->. destruct (Hok _ _ E) as [_ Hstored].
  destruct (Hstored _ Hid); congruence.
Qed.

(** [delete_item] leaves the other items of both tiers as they were. *)
Lemma delete_item_others item_id mm id :
  id <> item_id ->
  PyDict.get
    (MemoryManager.short_term_memory (snd (MemoryManager.delete_item item_id mm)))
    id = PyDict.get (MemoryManager.short_term_memory mm) id /\
  PyDict.get
    (MemoryManager.long_term_memory (snd (MemoryManager.delete_item item_id mm)))
    id = PyDict.get (MemoryManager.long_term_memory mm) id.
Proof.
  intros Hne. unfold MemoryManager.delete_item.
  destruct (PyDict.mem (MemoryManager.short_term_memory mm) item_id); simpl.
  - split; [apply get_del_other; congruence|reflexivity].
  - destruct (PyDict.mem (MemoryManager.long_term_memory mm) item_id); simpl.
    + split; [reflexivity|apply get_del_other; congruence].
    + split; reflexivity.
Qed.

(** The references of an item are its entries, each once. *)
Lemma indexed_references item_id db :
  VectorDatabase.indexed db ->
  NoDup (VectorDatabase.get_item_vectors item_id db) /\
  forall c e,
    In (c, e) (VectorDatabase.get_item_vectors item_id db) <->
    exists entry,
      VectorDatabase.entry_at db c e = Some entry /\
      ve_item_id entry = item_id.
Proof.
  intros (_ & Hrefs & Hentries). unfold VectorDatabase.get_item_vectors.
  destruct (PyDict.get (VectorDatabase.item_mapping db) item_id)
    as [refs|] eqn:E.
  - destruct (Hrefs _ _ E) as (_ & Hnd & Hlead). split; [assumption|].
    intros c e. split.
    + intros Hin. now destruct (Hlead _ _ Hin).
    + intros (entry & Hentry & <-). specialize (Hentries _ _ _ Hentry).
      unfold VectorDatabase.get_item_vectors in Hentries.
      now rewrite E in Hentries.
  - split; [constructor|]. intros c e. split; [contradiction|].
    intros (entry & Hentry & <-). specialize (Hentries _ _ _ Hentry).
    unfold VectorDatabase.get_item_vectors in Hentries.
    now rewrite E in Hentries.
Qed.

(** C8: on a facade whose vector index is in step and whose categories list
    stored items, [delete_knowledge_item] of a catalogued item deletes every
    vector of the item and nothing else: [delete_item_vectors] returns the
    number of the item's entries across all collections, afterwards the
    reverse index does not mention the item, and an entry is found exactly
    when it was found before and belongs to another item; the references of
    the other items and the collections are as before. The item is taken
    out of the list of every category, and the categories are otherwise as
    before; the other items of the memory tiers and of the catalog are
    untouched, one event is logged, and the facade stays consistent. *)
Theorem delete_knowledge_item_cascade
    (event_uuid : string) (now : R) (item_id : string) (km : t) :
  consistent km ->
  PyDict.mem (knowledge_items km) item_id = true ->
  exists km',
    delete_knowledge_item event_uuid now item_id km = (Ok true, km') /\
    VectorDatabase.delete_item_vectors item_id (vector_database km)
      = (Ok (len (VectorDatabase.get_item_vectors item_id (vector_database km))),
         vector_database km') /\
    (NoDup (VectorDatabase.get_item_vectors item_id (vector_database km)) /\
     forall c e,
       In (c, e) (VectorDatabase.get_item_vectors item_id (vector_database km))
       <-> exists entry,
             VectorDatabase.entry_at (vector_database km) c e = Some entry /\
             ve_item_id entry = item_id) /\
    PyDict.get (VectorDatabase.item_mapping (vector_database km')) item_id
      = None /\
    (forall c e entry,
        VectorDatabase.entry_at (vector_database km') c e = Some entry <->
        VectorDatabase.entry_at (vector_database km) c e = Some entry /\
        ve_item_id entry <> item_id) /\
    (forall id, id <> item_id ->
        VectorDatabase.get_item_vectors id (vector_database km')
        = VectorDatabase.get_item_vectors id (vector_database km)) /\
    VectorDatabase.collections (vector_database km')
      = VectorDatabase.collections (vector_database km) /\
    MemoryManager.unreferenced item_id (memory_manager km') /\
    (forall category_id,
        match PyDict.get (MemoryManager.categories (memory_manager km))
                category_id with
        | Some category =>
            exists category',
              PyDict.get (MemoryManager.categories (memory_manager km'))
                category_id = Some category' /\
              mc_category_id category' = mc_category_id category /\
              mc_name category' = mc_name category /\
              mc_description category' = mc_description category /\
              mc_parent_id category' = mc_parent_id category /\
              forall id, In id (mc_items category') <->
                         In id (mc_items category) /\ id <> item_id
        | None =>
            PyDict.get (MemoryManager.categories (memory_manager km'))
              category_id = None
        end) /\
    (forall id, id <> item_id ->
        PyDict.get (MemoryManager.short_term_memory (memory_manager km')) id
        = PyDict.get (MemoryManager.short_term_memory (memory_manager km)) id /\
        PyDict.get (MemoryManager.long_term_memory (memory_manager km')) id
        = PyDict.get (MemoryManager.long_term_memory (memory_manager km)) id /\
        PyDict.get (knowledge_items km') id
        = PyDict.get (knowledge_items km) id) /\
    PyDict.mem (knowledge_items km') item_id = false /\
    default_collection_id km' = default_collection_id km /\
    session_states km' = session_states km /\
    events km'
      = _log_event event_uuid now ITEM_REMOVED [("item_id", PyStr item_id)]
          (events km) /\
    consistent km'.
Proof.
  intros [Hidx Hcat] Hmem. unfold delete_knowledge_item. rewrite Hmem. simpl.
  destruct (IndexFacts.delete_item_vectors_spec item_id _ Hidx)
    as (db' & Hdel & Hidx' & Hcol & Hnone & Hgone).
  assert (Hframe :
            (forall c e entry,
                VectorDatabase.entry_at db' c e = Some entry <->
                VectorDatabase.entry_at (vector_database km) c e = Some entry /\
                ve_item_id entry <> item_id) /\
            (forall id, id <> item_id ->
                VectorDatabase.get_item_vectors id db'
                = VectorDatabase.get_item_vectors id (vector_database km))).
  { assert (Hsnd : db' = snd (VectorDatabase.delete_item_vectors item_id
                                (vector_database km)))
      by now rewrite Hdel.
    unfold VectorDatabase.delete_item_vectors in Hsnd.
    destruct (PyDict.get (VectorDatabase.item_mapping (vector_database km))
                item_id) as [refs|] eqn:Hr.
    - destruct (RemovalFacts.delete_each_others item_id refs 0 _ Hidx)
        as [H1 H2].
      { unfold VectorDatabase.get_item_vectors. now rewrite Hr. }
      rewrite <- Hsnd in H1, H2. split; [assumption|].
      intros id Hne. unfold VectorDatabase.get_item_vectors. now rewrite H2.
    - simpl in Hsnd. subst db'. split; [|reflexivity].
      intros c e entry. split; [|tauto]. intros Hentry.
      split; [assumption|]. now apply (Hgone c e). }
  destruct Hframe as [Hentries Hothers].
  rewrite Hdel.
  pose proof (CategoryFacts.delete_item_unreferenced item_id _ Hcat) as Hun.
  pose proof (CategoryFacts.delete_item_categories_ok item_id _ Hcat) as Hok.
  pose proof (fun c => delete_item_categories item_id _ c Hcat) as Hcats.
  pose proof (delete_item_others item_id (memory_manager km)) as Htiers.
  destruct (MemoryManager.delete_item item_id (memory_manager km))
    as [deleted mm'].
  eexists. split; [reflexivity|]. simpl in *.
  split; [reflexivity|].
  split; [now apply indexed_references|].
  split; [assumption|]. split; [assumption|]. split; [assumption|].
  split; [assumption|]. split; [assumption|]. split; [assumption|].
  split.
  { intros id Hne. destruct (Htiers id Hne). repeat split; auto.
    apply get_del_other. congruence. }
  split; [rewrite mem_del, String.eqb_refl; reflexivity|].
  split; [reflexivity|]. split; [reflexivity|]. split; [reflexivity|].
  split; assumption.
Qed.

End CascadeFacts.

(** ** Every store that the operations build can be searched *)

Module StoreInvariant.
Import VectorDatabase.

(** Both properties of a store: the collections have their entry maps, and
    the stored vectors have the dimension of their collection. *)
Lemma sound_intro (db db' : t) :
  mapped db -> dimensioned db ->
  (forall c, PyDict.mem (collections db') c = true ->
             PyDict.mem (collections db) c = true /\
             PyDict.get (collections db') c = PyDict.get (collections db) c) ->
  (forall c, PyDict.mem (collections db') c = true ->
     PyDict.mem (entries db') c = true /\
     forall es' e entry,
       PyDict.get (entries db') c = Some es' -> In (e, entry) es' ->
       exists es, PyDict.get (entries db) c = Some es /\
                  (In (e, entry) es \/
                   exists collection,
                     PyDict.get (collections db) c = Some collection /\
                     len (ve_vector entry) = vc_dimension collection)) ->
  mapped db' /\ dimensioned db'.
Proof.
  intros Hm Hd Hcols Hes. split.
  - intros c Hc. now apply Hes.
  - intros c collection es' e entry Hc Hget Hin.
    pose proof (mem_get_some _ _ _ Hc) as Hmem.
    destruct (Hcols _ Hmem) as [Hmem0 Hsame]. rewrite Hsame in Hc.
    destruct (Hes _ Hmem) as [_ Hold].
    destruct (Hold _ _ _ Hget Hin) as (es & Hget0 & [Hin0|(col & Hc0 & Hlen)]).
    + now apply (Hd c collection es e entry).
    + congruence.
Qed.

Lemma create_collection_sound uuid4 uuid1 name dimension index_type db :
  mapped db /\ dimensioned db ->
  mapped (snd (create_collection uuid4 uuid1 name dimension index_type db)) /\
  dimensioned (snd (create_collection uuid4 uuid1 name dimension index_type db)).
Proof.
  intros [Hm Hd]. unfold create_collection. simpl. split.
  - intros c. simpl. rewrite !mem_set.
    destruct (String.eqb uuid4 c); simpl; [reflexivity|apply Hm].
  - intros c collection es e entry. simpl. rewrite !get_set.
    destruct (String.eqb uuid4 c).
    + intros _ [= <-] [].
    + apply Hd.
Qed.

Lemma add_vector_sound uuid4 c vector item_id metadata db :
  mapped db /\ dimensioned db ->
  mapped (snd (add_vector uuid4 c vector item_id metadata db)) /\
  dimensioned (snd (add_vector uuid4 c vector item_id metadata db)).
Proof.
  intros [Hm Hd]. unfold add_vector.
  destruct (PyDict.get (collections db) c) as [collection|] eqn:Hc;
    [|now split].
  destruct (len vector =? vc_dimension collection) eqn:Hdim; simpl;
    [|now split].
  apply Z.eqb_eq in Hdim.
  destruct (PyDict.get (entries db) c) as [es|] eqn:Hes; [|now split].
  set (entry := {| ve_entry_id := uuid4; ve_vector := vector;
                   ve_item_id := item_id;
                   ve_metadata := match metadata with
                                  | Some m => m
                                  | None => []
                                  end |}).
  assert (Hgoal : forall m,
             mapped {| collections := collections db;
                       entries := PyDict.set (entries db) c
                                    (PyDict.set es uuid4 entry);
                       item_mapping := m |} /\
             dimensioned {| collections := collections db;
                            entries := PyDict.set (entries db) c
                                         (PyDict.set es uuid4 entry);
                            item_mapping := m |}).
  { intros m. apply (sound_intro db); try assumption; simpl.
    - intros c' Hc'. now split.
    - intros c' Hc'. split.
      + rewrite mem_set. rewrite (Hm _ Hc'). apply orb_true_r.
      + intros es' e entry'. rewrite get_set.
        destruct (String.eqb c c') eqn:E.
        * apply String.eqb_eq in E. subst c'. intros [= <-] Hin.
          exists es. split; [assumption|].
          apply PromotionFacts.in_set in Hin.
          destruct Hin as [[= -> ->]|Hin]; [right|now left].
          exists collection. now split.
        * intros Hget Hin. exists es'. split; [assumption|now left]. }
  destruct (PyDict.mem (item_mapping db) item_id) eqn:Hmem; simpl.
  - destruct (PyDict.get (item_mapping db) item_id); [apply Hgoal|].
    apply Hgoal.
  - rewrite get_set_same. apply Hgoal.
Qed.

Lemma delete_vector_sound c e db :
  mapped db /\ dimensioned db ->
  mapped (snd (delete_vector c e db)) /\
  dimensioned (snd (delete_vector c e db)).
Proof.
  intros [Hm Hd]. unfold delete_vector.
  destruct (PyDict.mem (collections db) c) eqn:Hc; simpl; [|now split].
  destruct (PyDict.get (entries db) c) as [es|] eqn:Hes; [|now split].
  destruct (PyDict.get es e) as [entry|] eqn:He; [|now split].
  assert (Hgoal : forall m,
             mapped {| collections := collections db;
                       entries := PyDict.set (entries db) c (PyDict.del es e);
                       item_mapping := m |} /\
             dimensioned {| collections := collections db;
                            entries := PyDict.set (entries db) c
                                         (PyDict.del es e);
                            item_mapping := m |}).
  { intros m. apply (sound_intro db); try assumption; simpl.
    - intros c' Hc'. now split.
    - intros c' Hc'. split.
      + rewrite mem_set. rewrite (Hm _ Hc'). apply orb_true_r.
      + intros es' e' entry'. rewrite get_set.
        destruct (String.eqb c c') eqn:E.
        * apply String.eqb_eq in E. subst c'. intros [= <-] Hin.
          exists es. split; [assumption|]. left.
          now apply (PromotionFacts.in_del _ e).
        * intros Hget Hin. exists es'. split; [assumption|now left]. }
  simpl.
  destruct (PyDict.get (item_mapping db) (ve_item_id entry)); [|apply Hgoal].
  destruct (is_empty _); apply Hgoal.
Qed.

Lemma delete_each_sound vectors :
  forall count db,
    mapped db /\ dimensioned db ->
    mapped (snd (delete_each vectors count db)) /\
    dimensioned (snd (delete_each vectors count db)).
Proof.
  induction vectors as [|[c e] rest IH]; intros count db H; [assumption|].
  simpl. pose proof (delete_vector_sound c e db H) as H1.
  destruct (delete_vector c e db) as [[[|]|err] db1]; simpl in *; auto.
Qed.

Lemma delete_item_vectors_sound item_id db :
  mapped db /\ dimensioned db ->
  mapped (snd (delete_item_vectors item_id db)) /\
  dimensioned (snd (delete_item_vectors item_id db)).
Proof.
  intros H. unfold delete_item_vectors.
  destruct (PyDict.get (item_mapping db) item_id); [|assumption].
  now apply delete_each_sound.
Qed.

Lemma delete_collection_sound c db :
  mapped db /\ dimensioned db ->
  mapped (snd (delete_collection c db)) /\
  dimensioned (snd (delete_collection c db)).
Proof.
  intros [Hm Hd]. unfold delete_collection.
  destruct (PyDict.mem (collections db) c) eqn:Hc; simpl; [|now split].
  destruct (PyDict.get (entries db) c) as [es|] eqn:Hes; [|now split].
  simpl. split.
  - intros c'. simpl. rewrite !mem_del.
    destruct (String.eqb c c'); simpl; [discriminate|apply Hm].
  - intros c' collection es' e entry. simpl. rewrite !get_del.
    destruct (String.eqb c c'); [discriminate|apply Hd].
Qed.

Lemma step_sound o db :
  mapped db /\ dimensioned db ->
  mapped (step o db) /\ dimensioned (step o db).
Proof.
  destruct o; simpl.
  - apply create_collection_sound.
  - apply add_vector_sound.
  - apply delete_vector_sound.
  - apply delete_item_vectors_sound.
  - apply delete_collection_sound.
Qed.

Lemma run_sound ops :
  forall db, mapped db /\ dimensioned db ->
             mapped (run ops db) /\ dimensioned (run ops db).
Proof.
  induction ops as [|o ops IH]; intros db H; [assumption|].
  simpl. apply IH. now apply step_sound.
Qed.

Lemma init_sound : mapped init /\ dimensioned init.
Proof.
  split.
  - intros c. simpl. discriminate.
  - intros c collection es e entry. simpl. discriminate.
Qed.

(** The loop of [search_vectors] does not raise on vectors of the length of
    the query. *)
Lemma similarities_of_total query_vector threshold filter_metadata es :
  (forall e entry, In (e, entry) es ->
                   len (ve_vector entry) = len query_vector) ->
  exists sims,
    similarities_of query_vector threshold filter_metadata es = Ok sims.
Proof.
  induction es as [|[entry_id entry] es IH]; intros Hlen; simpl; [eauto|].
  destruct IH as [tail Htail]; [intros e x Hin; apply (Hlen e x); now right|].
  destruct (negb (is_empty filter_metadata)
            && negb (_matches_metadata_filter (ve_metadata entry)
                       filter_metadata)); [eauto|].
  rewrite Htail.
  assert (Hcos : exists s,
             _cosine_similarity query_vector (ve_vector entry) = Ok s).
  { unfold _cosine_similarity.
    rewrite (Hlen entry_id entry (or_introl eq_refl)), Z.eqb_refl. simpl.
    destruct (Req_EM_T _ 0); [eauto|]. destruct (Req_EM_T _ 0); eauto. }
  destruct Hcos as [s ->]. simpl.
  destruct (Rge_dec s threshold); eauto.
Qed.

(** [search_items] succeeds whenever [search_vectors] does. *)
Lemma search_items_succeeds collection_id query_vector top_k threshold
    filter_metadata db vector_results :
  search_vectors collection_id query_vector top_k threshold filter_metadata db
    = Ok vector_results ->
  exists results,
    search_items collection_id query_vector top_k threshold filter_metadata db
      = Ok results.
Proof.
  intros H. unfold search_items. rewrite H. simpl.
  unfold search_vectors in H.
  destruct (PyDict.get (collections db) collection_id); [|discriminate].
  destruct (negb (len query_vector =? vc_dimension v)%Z); [discriminate|].
  destruct (PyDict.get (entries db) collection_id) as [es|]; [|discriminate].
  bind_inv H. injection H as <-.
  pose proof (RankingFacts.similarities_of_candidates _ _ _ _ _ E) as Hcand.
  destruct (slice_to_prefix top_k (sort_desc snd a)) as [rest Hrest].
  apply RankingFacts.dedup_items_total. intros e s Hin.
  assert (Hc : In (e, s) a).
  { apply (Permutation_in _ (Permutation_sym (sort_desc_perm snd a))).
    rewrite Hrest. apply in_or_app. now left. }
  apply Hcand in Hc. destruct Hc as (entry & Hin' & _).
  now apply (PromotionFacts.in_mem _ _ entry).
Qed.

(** X9: whatever sequence of [create_collection], [add_vector],
    [delete_vector], [delete_item_vectors] and [delete_collection] calls
    built the store, every collection has its entry map and every stored
    vector has the dimension of its collection. Hence [get_entry] never
    raises, [search_vectors] and [search_items] return for every existing
    collection and every query vector of its dimension, and [add_vector] of
    such a vector succeeds. *)
Theorem store_can_always_be_searched (ops : list op) :
  let db := run ops init in
  mapped db /\ dimensioned db /\
  (forall c e, exists found, get_entry c e db = Ok found) /\
  (forall c collection query_vector top_k threshold filter_metadata,
      PyDict.get (collections db) c = Some collection ->
      len query_vector = vc_dimension collection ->
      exists vector_results item_results,
        search_vectors c query_vector top_k threshold filter_metadata db
          = Ok vector_results /\
        search_items c query_vector top_k threshold filter_metadata db
          = Ok item_results) /\
  (forall uuid4 c vector item_id metadata collection,
      PyDict.get (collections db) c = Some collection ->
      len vector = vc_dimension collection ->
      fst (add_vector uuid4 c vector item_id metadata db) = Ok uuid4).
Proof.
  intros db. destruct (run_sound ops init init_sound) as [Hm Hd].
  fold db in Hm, Hd. split; [assumption|]. split; [assumption|].
  split; [|split].
  - intros c e. rewrite (StoreFacts.get_entry_mapped _ _ _ Hm). eauto.
  - intros c collection q k th f Hc Hlen.
    assert (Hv : exists vector_results,
               search_vectors c q k th f db = Ok vector_results).
    { unfold search_vectors. rewrite Hc.
      apply Z.eqb_eq in Hlen. rewrite Hlen. simpl. apply Z.eqb_eq in Hlen.
      destruct (mem_true_get _ _ (Hm _ (mem_get_some _ _ _ Hc))) as [es Hes].
      rewrite Hes.
      destruct (similarities_of_total q th f es) as [sims ->]; [|simpl; eauto].
      intros e entry Hin. rewrite Hlen. now apply (Hd c collection es e). }
    destruct Hv as [vector_results Hv].
    destruct (search_items_succeeds _ _ _ _ _ _ _ Hv) as [results Hi].
    eauto.
  - intros uuid4 c vector item_id metadata collection Hc Hlen.
    destruct (IndexInvariant.add_vector_ok db uuid4 c vector item_id metadata
                collection Hc Hlen (Hm _ (mem_get_some _ _ _ Hc)))
      as (db' & entry & Hadd & _).
    now rewrite Hadd.
Qed.

End StoreInvariant.

(** ** Storing, retrieving and deleting memory items *)

Module MemoryRoundTrips.
Import MemoryManager.

Lemma with_item_id_same (item : MemoryItem) :
  with_item_id item (mi_item_id item) = item.
Proof. now destruct item. Qed.

(** The item that [store_item] files, under the identifier it returns. *)
Lemma store_item_filed uuid4 item mm :
  store_item uuid4 item mm =
  (stored_id uuid4 item,
   let item' := with_item_id item (stored_id uuid4 item) in
   if is_short_term (mi_memory_type item)
   then {| short_term_memory :=
             PyDict.set (short_term_memory mm) (stored_id uuid4 item) item';
           long_term_memory := long_term_memory mm;
           categories := categories mm |}
   else {| short_term_memory := short_term_memory mm;
           long_term_memory :=
             PyDict.set (long_term_memory mm) (stored_id uuid4 item) item';
           categories := categories mm |}).
Proof.
  unfold store_item, stored_id.
  destruct (String.eqb (mi_item_id item) ""); simpl.
  - reflexivity.
  - now rewrite with_item_id_same.
Qed.

(** X10: [store_item] returns the identifier of the item, the generated one
    when the item has none; [retrieve_item] of that identifier then returns
    the stored item with its access count raised by one and its access time
    set to now, provided the item is short-term or the short-term tier has
    no item under the identifier. Otherwise the short-term item under that
    identifier is returned, not the one just stored. *)
Theorem store_item_then_retrieve_item
    (uuid4 : string) (item : MemoryItem) (now : R) (mm : t) :
  let id := stored_id uuid4 item in
  let mm1 := snd (store_item uuid4 item mm) in
  fst (store_item uuid4 item mm) = id /\
  (is_short_term (mi_memory_type item) = true \/
   PyDict.mem (short_term_memory mm) id = false ->
   fst (retrieve_item now id mm1) = Some (touch now (with_item_id item id))) /\
  (forall old,
      is_short_term (mi_memory_type item) = false ->
      PyDict.get (short_term_memory mm) id = Some old ->
      fst (retrieve_item now id mm1) = Some (touch now old)).
Proof.
  intros id mm1. subst id mm1. rewrite store_item_filed. simpl.
  split; [reflexivity|]. split.
  - intros H. unfold retrieve_item.
    destruct (is_short_term (mi_memory_type item)) eqn:Hty; simpl.
    + now rewrite get_set_same.
    + destruct H as [H|H]; [discriminate|].
      apply mem_get_none in H. rewrite H. now rewrite get_set_same.
  - intros old Hty Hold. rewrite Hty. unfold retrieve_item. simpl.
    now rewrite Hold.
Qed.

Lemma lookup_stored mm id : stored mm id = false <-> lookup mm id = None.
Proof.
  unfold stored, lookup, PyDict.mem.
  destruct (PyDict.get (short_term_memory mm) id);
    destruct (PyDict.get (long_term_memory mm) id); simpl;
    split; congruence.
Qed.

(** X11: on a manager whose tiers share no identifier, [delete_item] returns
    whether the identifier was stored; afterwards [retrieve_item] of it
    returns [None] and changes nothing, every other identifier is looked up
    as before, and a second [delete_item] returns [False]. Deleting an
    identifier that is not stored changes nothing. *)
Theorem delete_item_then_retrieve_item
    (item_id : string) (now : R) (mm : t) :
  exclusive mm ->
  let mm' := snd (delete_item item_id mm) in
  fst (delete_item item_id mm) = stored mm item_id /\
  retrieve_item now item_id mm' = (None, mm') /\
  (forall id, id <> item_id -> lookup mm' id = lookup mm id) /\
  (stored mm item_id = false -> mm' = mm) /\
  delete_item item_id mm' = (false, mm').
Proof.
  intros Hex mm'.
  assert (Hgone : stored mm' item_id = false).
  { subst mm'. unfold delete_item, stored.
    destruct (PyDict.mem (short_term_memory mm) item_id) eqn:Hs; simpl.
    - rewrite mem_del, String.eqb_refl. simpl.
      destruct (PyDict.mem (long_term_memory mm) item_id) eqn:Hl;
        [|reflexivity].
      elim (Hex item_id Hs Hl).
    - destruct (PyDict.mem (long_term_memory mm) item_id) eqn:Hl; simpl.
      + rewrite Hs, mem_del, String.eqb_refl. reflexivity.
      + now rewrite Hs, Hl. }
  split; [|split; [|split; [|split]]].
  - unfold delete_item, stored.
    destruct (PyDict.mem (short_term_memory mm) item_id); [reflexivity|].
    now destruct (PyDict.mem (long_term_memory mm) item_id).
  - apply lookup_stored in Hgone. unfold lookup in Hgone.
    unfold retrieve_item.
    destruct (PyDict.get (short_term_memory mm') item_id); [discriminate|].
    now rewrite Hgone.
  - intros id Hne. subst mm'. unfold delete_item, lookup.
    destruct (PyDict.mem (short_term_memory mm) item_id); simpl.
    + now rewrite get_del_other by congruence.
    + destruct (PyDict.mem (long_term_memory mm) item_id); simpl;
        [|reflexivity].
      now rewrite get_del_other by congruence.
  - subst mm'. unfold delete_item, stored.
    destruct (PyDict.mem (short_term_memory mm) item_id); [discriminate|].
    now destruct (PyDict.mem (long_term_memory mm) item_id).
  - unfold stored in Hgone. apply orb_false_iff in Hgone.
    destruct Hgone as [Hs Hl]. unfold delete_item at 1. now rewrite Hs, Hl.
Qed.

End MemoryRoundTrips.

(** ** What [optimize_memory] moves *)

Module OptimizeFacts.
Import MemoryManager.

Lemma del_absent {V : Type} (d : dict V) k :
  PyDict.get d k = None -> PyDict.del d k = d.
Proof.
  induction d as [|[k' v] d IH]; simpl; [reflexivity|].
  destruct (String.eqb k k'); [discriminate|]. intros H. now rewrite IH.
Qed.

Lemma del_filter {V : Type} (d : dict V) k :
  PyDict.del d k = filter (fun kv => negb (String.eqb k (fst kv))) d.
Proof.
  induction d as [|[k' v] d IH]; simpl; [reflexivity|].
  destruct (String.eqb k k'); simpl; now rewrite IH.
Qed.

(** A move down takes the identifier out of the short-term tier, whether it
    was there or not. *)
Lemma move_to_long_term_short item_id mm :
  short_term_memory (snd (move_to_long_term item_id mm))
  = PyDict.del (short_term_memory mm) item_id.
Proof.
  unfold move_to_long_term.
  destruct (PyDict.get (short_term_memory mm) item_id) eqn:H; simpl.
  - reflexivity.
  - symmetry. now apply del_absent.
Qed.

Lemma moves_short ids :
  forall mm,
    short_term_memory
      (fold_left (fun m id => snd (move_to_long_term id m)) ids mm)
    = filter (fun kv => negb (str_in (fst kv) ids)) (short_term_memory mm).
Proof.
  induction ids as [|i ids IH]; intros mm; simpl.
  - induction (short_term_memory mm) as [|x l IHl]; simpl; congruence.
  - rewrite IH, move_to_long_term_short, del_filter.
    induction (short_term_memory mm) as [|[k v] l IHl]; simpl; [reflexivity|].
    rewrite (String.eqb_sym k i).
    destruct (String.eqb i k); simpl; [assumption|].
    destruct (str_in k ids); simpl; now rewrite IHl.
Qed.

Lemma moves_categories ids :
  forall mm,
    categories (fold_left (fun m id => snd (move_to_long_term id m)) ids mm)
    = categories mm.
Proof.
  induction ids as [|i ids IH]; intros mm; simpl; [reflexivity|].
  rewrite IH. apply CategoryFacts.move_to_long_term_categories.
Qed.

Lemma moves_long ids :
  forall mm,
    NoDup ids ->
    forall id,
      PyDict.get
        (long_term_memory
           (fold_left (fun m id => snd (move_to_long_term id m)) ids mm)) id
      = match (if str_in id ids then PyDict.get (short_term_memory mm) id
               else None) with
        | Some item => Some (with_memory_type item LONG_TERM)
        | None => PyDict.get (long_term_memory mm) id
        end.
Proof.
  induction ids as [|i ids IH]; intros mm Hnd id; simpl; [reflexivity|].
  inversion Hnd as [|? ? Hnotin Hnd']; subst. rewrite (IH _ Hnd').
  rewrite move_to_long_term_short. unfold move_to_long_term.
  destruct (String.eqb id i) eqn:E; simpl.
  - apply String.eqb_eq in E. subst i.
    apply str_in_false in Hnotin. rewrite Hnotin.
    destruct (PyDict.get (short_term_memory mm) id); simpl;
      [apply get_set_same|reflexivity].
  - apply String.eqb_neq in E.
    rewrite get_del_other by congruence.
    assert (Hl : PyDict.get
                   (long_term_memory
                      (snd match PyDict.get (short_term_memory mm) i with
                           | Some item =>
                               (true,
                                {| short_term_memory :=
                                     PyDict.del (short_term_memory mm) i;
                                   long_term_memory :=
                                     PyDict.set (long_term_memory mm) i
                                       (with_memory_type item LONG_TERM);
                                   categories := categories mm |})
                           | None => (false, mm)
                           end)) id
                 = PyDict.get (long_term_memory mm) id).
    { destruct (PyDict.get (short_term_memory mm) i); simpl; [|reflexivity].
      apply get_set_other. congruence. }
    now rewrite Hl.
Qed.

Lemma in_functional {V : Type} (d : dict V) k v v' :
  NoDup (PyDict.keys d) -> In (k, v) d -> In (k, v') d -> v = v'.
Proof.
  unfold PyDict.keys. induction d as [|[k0 v0] d IH]; [contradiction|].
  simpl. intros Hnd H1 H2. inversion Hnd as [|? ? Hnotin Hnd']; subst.
  assert (Hk : forall w, In (k0, w) d -> False).
  { intros w Hw. apply Hnotin. apply in_map_iff. now exists (k0, w). }
  destruct H1 as [H1|H1]; destruct H2 as [H2|H2].
  - congruence.
  - injection H1 as -> ->. elim (Hk _ H2).
  - injection H2 as -> ->. elim (Hk _ H1).
  - now apply IH.
Qed.

Lemma filter_low_keys (d : dict MemoryItem) :
  NoDup (PyDict.keys d) ->
  filter (fun kv =>
            negb (str_in (fst kv)
                    (map fst (filter (fun kv => low_value (snd kv)) d)))) d
  = filter (fun kv => negb (low_value (snd kv))) d.
Proof.
  intros Hnd. apply filter_ext_in. intros [k v] Hin. simpl. f_equal.
  destruct (low_value v) eqn:Hlow.
  - apply str_in_In. apply in_map_iff. exists (k, v). split; [reflexivity|].
    apply filter_In. now split.
  - apply str_in_false. intros Hk. apply in_map_iff in Hk.
    destruct Hk as ([k' v'] & Hfst & Hf). simpl in Hfst. subst k'.
    apply filter_In in Hf. destruct Hf as [Hin' Hlow']. simpl in Hlow'.
    assert (v' = v); [|congruence].
    now apply (in_functional d k).
Qed.

Lemma filter_split_length {A : Type} (f : A -> bool) (l : list A) :
  (List.length (filter f l) + List.length (filter (fun x => negb (f x)) l)
   = List.length l)%nat.
Proof.
  induction l as [|x l IH]; simpl; [reflexivity|].
  destruct (f x); simpl; lia.
Qed.

Lemma filter_filter_negb {A : Type} (f : A -> bool) (l : list A) :
  filter f (filter (fun x => negb (f x)) l) = [].
Proof.
  induction l as [|x l IH]; simpl; [reflexivity|].
  destruct (f x) eqn:E; simpl; [assumption|]. now rewrite E.
Qed.

Lemma NoDup_map_fst_filter {V : Type} (f : string * V -> bool) (d : dict V) :
  NoDup (map fst d) -> NoDup (map fst (filter f d)).
Proof.
  induction d as [|x d IH]; simpl; intros H; [constructor|].
  inversion H as [|? ? Hnotin Hnd]; subst.
  destruct (f x); simpl; [|auto]. constructor; [|auto].
  intros Hin. apply Hnotin. apply in_map_iff in Hin.
  destruct Hin as (y & Hy & Hf). apply filter_In in Hf.
  apply in_map_iff. exists y. tauto.
Qed.

(** X12: [optimize_memory] moves to the long-term tier exactly the short-term
    items whose importance is below 0.3 and whose access count is below 3:
    the short-term tier keeps the other items in their order, each moved item
    is found in the long-term tier with the memory type LONG_TERM, the other
    long-term items and the categories are as before, the counts of the
    result are those of the tiers, and a second run moves nothing. *)
Theorem optimize_memory_moves_low_value_items (mm : t) :
  NoDup (PyDict.keys (short_term_memory mm)) ->
  let result := fst (optimize_memory mm) in
  let mm' := snd (optimize_memory mm) in
  short_term_memory mm' =
    filter (fun kv => negb (low_value (snd kv))) (short_term_memory mm) /\
  (forall id,
      In id (or_items_moved result) <->
      exists item, PyDict.get (short_term_memory mm) id = Some item /\
                   low_value item = true) /\
  (forall id item,
      PyDict.get (short_term_memory mm) id = Some item ->
      low_value item = true ->
      PyDict.get (long_term_memory mm') id
      = Some (with_memory_type item LONG_TERM)) /\
  (forall id,
      ~ In id (or_items_moved result) ->
      PyDict.get (long_term_memory mm') id
      = PyDict.get (long_term_memory mm) id) /\
  categories mm' = categories mm /\
  or_success result = true /\
  or_items_affected result = len (or_items_moved result) /\
  or_initial_short_term_count result = len (short_term_memory mm) /\
  or_final_short_term_count result = len (short_term_memory mm') /\
  or_items_moved (fst (optimize_memory mm')) = [].
Proof.
  intros Hnd result mm'.
  set (moved := map fst (filter (fun kv => low_value (snd kv))
                           (short_term_memory mm))).
  assert (Hshort : short_term_memory mm' =
                   filter (fun kv => negb (low_value (snd kv)))
                     (short_term_memory mm)).
  { subst mm'. unfold optimize_memory. simpl.
    rewrite moves_short. now apply filter_low_keys. }
  assert (Hmoved : forall id,
             In id moved <->
             exists item, PyDict.get (short_term_memory mm) id = Some item /\
                          low_value item = true).
  { intros id. subst moved. rewrite in_map_iff. split.
    - intros ([k v] & Hk & Hf). simpl in Hk. subst k.
      apply filter_In in Hf. destruct Hf as [Hin Hlow]. exists v.
      split; [|assumption].
      destruct (PyDict.get (short_term_memory mm) id) as [v'|] eqn:Hget.
      + apply get_in in Hget. f_equal.
        now apply (in_functional (short_term_memory mm) id).
      + apply mem_get_none in Hget.
        apply PromotionFacts.in_mem in Hin. congruence.
    - intros (item & Hget & Hlow). exists (id, item). split; [reflexivity|].
      apply filter_In. split; [now apply get_in|assumption]. }
  assert (Hndm : NoDup moved).
  { subst moved. now apply NoDup_map_fst_filter. }
  split; [assumption|]. split; [exact Hmoved|].
  split; [|split; [|split; [|split; [|split; [|split; [|split]]]]]].
  - intros id item Hget Hlow. subst mm'. unfold optimize_memory. simpl.
    fold moved. rewrite (moves_long _ _ Hndm).
    assert (Hin : str_in id moved = true).
    { apply str_in_In, Hmoved. eauto. }
    now rewrite Hin, Hget.
  - intros id Hnot. subst mm'. unfold optimize_memory. simpl.
    fold moved. rewrite (moves_long _ _ Hndm).
    apply str_in_false in Hnot. simpl in Hnot. fold moved in Hnot.
    now rewrite Hnot.
  - subst mm'. unfold optimize_memory. simpl. apply moves_categories.
  - reflexivity.
  - reflexivity.
  - reflexivity.
  - rewrite Hshort. subst result. unfold optimize_memory. simpl.
    unfold len. rewrite length_map.
    pose proof (filter_split_length (fun kv : string * MemoryItem =>
                                       low_value (snd kv))
                  (short_term_memory mm)). lia.
  - unfold optimize_memory at 1. simpl. rewrite Hshort.
    now rewrite filter_filter_negb.
Qed.

End OptimizeFacts.

(** ** Items of a category *)

Module CategoryItems.
Import MemoryManager.

Lemma retrieve_item_lookup now item_id mm :
  fst (retrieve_item now item_id mm) = option_map (touch now) (lookup mm item_id).
Proof.
  unfold retrieve_item, lookup.
  destruct (PyDict.get (short_term_memory mm) item_id); [reflexivity|].
  now destruct (PyDict.get (long_term_memory mm) item_id).
Qed.

Lemma retrieve_item_other now item_id mm id :
  id <> item_id ->
  lookup (snd (retrieve_item now item_id mm)) id = lookup mm id.
Proof.
  intros Hne. unfold retrieve_item, lookup.
  destruct (PyDict.get (short_term_memory mm) item_id); simpl.
  - now rewrite get_set_other by congruence.
  - destruct (PyDict.get (long_term_memory mm) item_id); simpl; [|reflexivity].
    now rewrite get_set_other by congruence.
Qed.

Lemma retrieve_item_stored now item_id mm id :
  stored (snd (retrieve_item now item_id mm)) id = stored mm id.
Proof.
  unfold retrieve_item, stored.
  destruct (PyDict.get (short_term_memory mm) item_id) eqn:Hs; simpl.
  - rewrite mem_set. destruct (String.eqb item_id id) eqn:E; [|reflexivity].
    apply String.eqb_eq in E. subst id.
    now rewrite (mem_get_some _ _ _ Hs).
  - destruct (PyDict.get (long_term_memory mm) item_id) eqn:Hl; simpl;
      [|reflexivity].
    rewrite mem_set. destruct (String.eqb item_id id) eqn:E; [|reflexivity].
    apply String.eqb_eq in E. subst id.
    rewrite (mem_get_some _ _ _ Hl). reflexivity.
Qed.

Lemma retrieve_item_categories now item_id mm :
  categories (snd (retrieve_item now item_id mm)) = categories mm.
Proof.
  unfold retrieve_item.
  destruct (PyDict.get (short_term_memory mm) item_id); [reflexivity|].
  now destruct (PyDict.get (long_term_memory mm) item_id).
Qed.

(** The loop of [get_items_by_category] on identifiers that are pairwise
    different: each stored one yields its item, touched once. *)
Lemma retrieve_each_spec now item_ids :
  forall mm,
    NoDup item_ids ->
    fst (retrieve_each now item_ids mm) =
      flat_map (fun id => match lookup mm id with
                          | Some old => [touch now old]
                          | None => []
                          end) item_ids /\
    categories (snd (retrieve_each now item_ids mm)) = categories mm /\
    (forall id, stored (snd (retrieve_each now item_ids mm)) id
                = stored mm id) /\
    (forall id, ~ In id item_ids ->
                lookup (snd (retrieve_each now item_ids mm)) id
                = lookup mm id).
Proof.
  induction item_ids as [|i rest IH]; intros mm Hnd; simpl.
  - repeat split; auto.
  - inversion Hnd as [|? ? Hnotin Hnd']; subst.
    pose proof (retrieve_item_lookup now i mm) as Hr.
    pose proof (retrieve_item_other now i mm) as Hother.
    pose proof (retrieve_item_stored now i mm) as Hstored.
    pose proof (retrieve_item_categories now i mm) as Hcat.
    destruct (retrieve_item now i mm) as [found mm1]. simpl in *.
    destruct (IH mm1 Hnd') as (IH1 & IH2 & IH3 & IH4).
    destruct (retrieve_each now rest mm1) as [items mm2]. simpl in *.
    assert (Hitems : items =
                     flat_map (fun id => match lookup mm id with
                                         | Some old => [touch now old]
                                         | None => []
                                         end) rest).
    { rewrite IH1. clear - Hother Hnotin.
      induction rest as [|j rest IHr]; simpl; [reflexivity|].
      rewrite Hother, IHr.
      - reflexivity.
      - intros Hin. apply Hnotin. now right.
      - intros ->. apply Hnotin. now left. }
    split; [|split; [|split]].
    + rewrite Hr, Hitems. now destruct (lookup mm i).
    + congruence.
    + intros id. now rewrite IH3, Hstored.
    + intros id Hnot. rewrite IH4 by tauto. apply Hother.
      intros ->. apply Hnot. now left.
Qed.

Lemma lookup_keyed mm id old :
  keyed mm -> lookup mm id = Some old -> mi_item_id old = id.
Proof.
  intros Hk. unfold lookup.
  destruct (PyDict.get (short_term_memory mm) id) as [x|] eqn:Hs.
  - intros [= <-]. apply Hk. left. now apply get_in.
  - intros Hl. apply Hk. right. now apply get_in.
Qed.

(** X13: when every stored item is filed under its own identifier and the
    categories list stored items at most once, [get_items_by_category]
    returns the items of the category in the order of the list, one for
    each identifier: the item that [retrieve_item] finds under it, with its
    access count raised by one and its access time set to now. The
    categories and the identifiers stored stay as they are. An unknown
    category gives the empty list and changes nothing. *)
Theorem get_items_by_category_returns_members
    (now : R) (category_id : string) (mm : t) :
  keyed mm -> categories_ok mm ->
  let items := fst (get_items_by_category now category_id mm) in
  let mm' := snd (get_items_by_category now category_id mm) in
  match PyDict.get (categories mm) category_id with
  | Some category =>
      map mi_item_id items = mc_items category /\
      items = flat_map (fun id => match lookup mm id with
                                  | Some old => [touch now old]
                                  | None => []
                                  end) (mc_items category) /\
      Forall (fun item => mi_last_accessed item = now) items
  | None => items = [] /\ mm' = mm
  end /\
  categories mm' = categories mm /\
  (forall id, stored mm' id = stored mm id).
Proof.
  intros Hk Hok items mm'. subst items mm'. unfold get_items_by_category.
  destruct (PyDict.get (categories mm) category_id) as [category|] eqn:Hc;
    [|now repeat split].
  destruct (proj1 (CategoryFacts.categories_ok_stored mm) Hok _ _ Hc)
    as [Hnd Hst].
  destruct (retrieve_each_spec now (mc_items category) mm Hnd)
    as (H1 & H2 & H3 & _).
  split; [|now split]. rewrite H1. split; [|split; [reflexivity|]].
  - clear H1 H2 H3 Hnd Hc.
    induction (mc_items category) as [|i rest IH]; simpl; [reflexivity|].
    assert (Hi : stored mm i = true) by (apply Hst; now left).
    destruct (lookup mm i) as [old|] eqn:Hold.
    + simpl. rewrite IH by (intros id Hin; apply Hst; now right).
      f_equal. now apply (lookup_keyed mm).
    + apply MemoryRoundTrips.lookup_stored in Hold. congruence.
  - apply Forall_forall. intros item Hin. apply in_flat_map in Hin.
    destruct Hin as (id & _ & Hin).
    destruct (lookup mm id); [|contradiction].
    destruct Hin as [<-|[]]. reflexivity.
Qed.

End CategoryItems.


(** ** Size and order of a context window *)

Module WindowFacts.
Import MemoryManager.

Lemma estimate_token_count_pos (text : string) :
  1 <= _estimate_token_count text.
Proof.
  unfold _estimate_token_count.
  assert (0 <= Z.of_nat (String.length text) / 4)
    by (apply Z.div_pos; lia).
  lia.
Qed.

Lemma ranked_items_tokens now strategy mm :
  Forall (fun item => 1 <= ci_token_count item) (ranked_items now strategy mm).
Proof.
  unfold ranked_items. apply Forall_forall. intros item Hin.
  apply (Permutation_in _ (Permutation_sym
                             (PromotionFacts.sort_by_strategy_perm _ _))) in Hin.
  apply in_map_iff in Hin. destruct Hin as (x & <- & _). simpl.
  apply estimate_token_count_pos.
Qed.

Lemma token_sum_length items :
  Forall (fun item => 1 <= ci_token_count item) items ->
  len items <= token_sum items.
Proof.
  unfold len. induction 1 as [|x l Hx Hl IH]; simpl; [lia|].
  unfold token_sum in *. simpl. lia.
Qed.

Lemma token_sum_perm l1 l2 :
  Permutation l1 l2 -> token_sum l1 = token_sum l2.
Proof.
  unfold token_sum. induction 1; simpl; lia.
Qed.

Lemma token_sum_each items :
  Forall (fun item => 1 <= ci_token_count item) items ->
  Forall (fun item => ci_token_count item <= token_sum items) items.
Proof.
  induction 1 as [|x l Hx Hl IH]; constructor.
  - pose proof (token_sum_length l Hl). unfold len, token_sum in *. simpl. lia.
  - apply (Forall_impl _ (P := fun item => ci_token_count item <= token_sum l));
      [|assumption].
    intros item Hitem. unfold token_sum in *. simpl. lia.
Qed.

Lemma select_items_nothing max_tokens items :
  max_tokens <= 0 ->
  Forall (fun item => 1 <= ci_token_count item) items ->
  select_items max_tokens items [] 0 = ([], 0).
Proof.
  intros Hmax [|y l Hy Hl]; [reflexivity|].
  cbn [select_items].
  destruct (0 + ci_token_count y <=? max_tokens) eqn:E; [|reflexivity].
  apply Z.leb_le in E. lia.
Qed.

(** X15: every item of a context window counts for at least one token, so a
    window holds at most [max_tokens] items when [max_tokens] is not
    negative, each of at most [max_tokens] tokens, and the window is empty,
    with no token used, when [max_tokens] is zero or negative. *)
Theorem context_window_size
    (uuid4 : string) (now : R) (max_tokens : Z) (strategy : string) (mm : t) :
  let w := create_context_window uuid4 now max_tokens strategy mm in
  Forall (fun item => 1 <= ci_token_count item) (cw_items w) /\
  len (cw_items w) <= cw_current_tokens w /\
  (0 <= max_tokens ->
   len (cw_items w) <= max_tokens /\
   Forall (fun item => ci_token_count item <= max_tokens) (cw_items w)) /\
  (max_tokens <= 0 -> cw_items w = [] /\ cw_current_tokens w = 0).
Proof.
  cbv zeta.
  assert (Hempty : max_tokens <= 0 ->
            cw_items (create_context_window uuid4 now max_tokens strategy mm)
              = [] /\
            cw_current_tokens
              (create_context_window uuid4 now max_tokens strategy mm) = 0).
  { intros Hmax. unfold create_context_window.
    fold (ranked_items now strategy mm).
    rewrite (select_items_nothing _ _ Hmax (ranked_items_tokens _ _ _)).
    now split. }
  destruct (ContextWindowFacts.window_is_selection uuid4 now max_tokens
              strategy mm)
    as (taken & rest & Hranked & Hitems & Htokens & Hle & Hnext).
  rewrite Hitems, Htokens in *.
  pose proof (ranked_items_tokens now strategy mm) as Hpos.
  rewrite Hranked in Hpos. apply Forall_app in Hpos.
  destruct Hpos as [Hpos _].
  pose proof (token_sum_length taken Hpos) as Hlen.
  split; [assumption|]. split; [assumption|]. split; [|assumption].
  intros H0. specialize (Hle H0). split; [lia|].
  apply (Forall_impl _ (P := fun item => ci_token_count item
                                         <= token_sum taken));
    [intros item Hitem; lia|].
  now apply token_sum_each.
Qed.

(** X16: when the estimated token counts of all short-term items together
    do not exceed [max_tokens], the context window holds every short-term
    item, in the order of the strategy, and its [current_tokens] is that
    total. *)
Theorem context_window_takes_all
    (uuid4 : string) (now : R) (max_tokens : Z) (strategy : string) (mm : t) :
  token_sum (map (to_context_item now) (PyDict.values (short_term_memory mm)))
    <= max_tokens ->
  let w := create_context_window uuid4 now max_tokens strategy mm in
  cw_items w = ranked_items now strategy mm /\
  Permutation
    (map (to_context_item now) (PyDict.values (short_term_memory mm)))
    (cw_items w) /\
  cw_current_tokens w =
    token_sum (map (to_context_item now) (PyDict.values (short_term_memory mm))).
Proof.
  intros Htotal. cbv zeta.
  pose proof (PromotionFacts.sort_by_strategy_perm strategy
                (map (to_context_item now)
                   (PyDict.values (short_term_memory mm)))) as Hperm.
  fold (ranked_items now strategy mm) in Hperm.
  rewrite (token_sum_perm _ _ Hperm) in *.
  destruct (ContextWindowFacts.window_is_selection uuid4 now max_tokens
              strategy mm)
    as (taken & rest & Hranked & Hitems & Htokens & Hle & Hnext).
  rewrite Hitems, Htokens.
  assert (Hrest : rest = []).
  { destruct rest as [|next rest']; [reflexivity|]. exfalso.
    pose proof (ranked_items_tokens now strategy mm) as Hpos.
    rewrite Hranked in Hpos, Htotal. apply Forall_app in Hpos.
    destruct Hpos as [_ Hpos]. inversion Hpos as [|? ? Hn Hr]; subst.
    pose proof (token_sum_length rest' Hr) as Hlen.
    rewrite ContextWindowFacts.token_sum_app in Htotal.
    unfold token_sum at 2 in Htotal. simpl in Htotal.
    fold (token_sum rest') in Htotal. unfold len in Hlen. lia. }
  subst rest. rewrite app_nil_r in Hranked. subst taken.
  split; [reflexivity|]. split; [assumption|reflexivity].
Qed.

(** X17: the items of a context window are in descending order of the key
    of the strategy: 0.7 times the importance plus 0.3 times the recency for
    "importance_recency", the importance for "importance", the recency for
    "recency". Under any other strategy name the window is a prefix of the
    short-term items in the order in which they were stored. *)
Theorem context_window_order
    (uuid4 : string) (now : R) (max_tokens : Z) (strategy : string) (mm : t) :
  let w := create_context_window uuid4 now max_tokens strategy mm in
  match strategy_key strategy with
  | Some key => StronglySorted (desc key) (cw_items w)
  | None =>
      exists rest,
        map (to_context_item now) (PyDict.values (short_term_memory mm))
        = (cw_items w ++ rest)%list
  end.
Proof.
  cbv zeta.
  destruct (ContextWindowFacts.window_is_selection uuid4 now max_tokens
              strategy mm)
    as (taken & rest & Hranked & Hitems & _).
  rewrite Hitems. unfold ranked_items, sort_by_strategy in Hranked.
  unfold strategy_key.
  destruct (String.eqb strategy "importance_recency").
  { apply (StronglySorted_prefix _ _ rest). rewrite <- Hranked.
    apply sort_desc_sorted. }
  destruct (String.eqb strategy "importance").
  { apply (StronglySorted_prefix _ _ rest). rewrite <- Hranked.
    apply sort_desc_sorted. }
  destruct (String.eqb strategy "recency").
  { apply (StronglySorted_prefix _ _ rest). rewrite <- Hranked.
    apply sort_desc_sorted. }
  now exists rest.
Qed.

End WindowFacts.

(** ** Scores of the keyword search *)

Module KeywordFacts.
Import RetrievalEngine.
Local Open Scope R_scope.

Lemma filter_length_le {A : Type} (f : A -> bool) (l : list A) :
  (List.length (filter f l) <= List.length l)%nat.
Proof.
  induction l as [|x l IH]; simpl; [lia|]. destruct (f x); simpl; lia.
Qed.

Lemma filter_length_all {A : Type} (f : A -> bool) (l : list A) :
  List.length (filter f l) = List.length l <->
  forall x, In x l -> f x = true.
Proof.
  induction l as [|x l IH]; simpl; [tauto|].
  pose proof (filter_length_le f l) as Hle.
  destruct (f x) eqn:E; simpl; split.
  - intros [= H] y [<-|Hy]; [assumption|]. now apply IH.
  - intros H. f_equal. apply IH. auto.
  - lia.
  - intros H. specialize (H x (or_introl eq_refl)). congruence.
Qed.

Lemma filter_length_none {A : Type} (f : A -> bool) (l : list A) :
  List.length (filter f l) = 0%nat <->
  forall x, In x l -> f x = false.
Proof.
  induction l as [|x l IH]; simpl; [tauto|].
  destruct (f x) eqn:E; simpl; split.
  - discriminate.
  - intros H. specialize (H x (or_introl eq_refl)). congruence.
  - intros H y [<-|Hy]; [assumption|]. now apply IH.
  - intros H. apply IH. auto.
Qed.

(** The share of the query tokens that occur in the item. *)
Lemma keyword_score_range (query_tokens item_tokens : list string) :
  0 <= keyword_score query_tokens item_tokens <= 1 /\
  (keyword_score query_tokens item_tokens = 1 <->
   query_tokens <> [] /\ forall t, In t query_tokens -> In t item_tokens) /\
  (keyword_score query_tokens item_tokens = 0 <->
   forall t, In t query_tokens -> ~ In t item_tokens).
Proof.
  unfold keyword_score, intersection_size.
  destruct query_tokens as [|q qs]; simpl is_empty.
  { simpl. split; [lra|]. split; [|tauto].
    split; [lra|]. intros [H _]. now elim H. }
  destruct item_tokens as [|i its]; simpl is_empty.
  { simpl. split; [lra|]. split.
    - split; [lra|]. intros [_ H]. elim (H q). now left.
    - split; [auto|reflexivity]. }
  cbn [orb].
  set (qt := q :: qs). set (it := i :: its).
  set (overlap := List.length (filter (fun x => str_in x it) qt)).
  set (n := List.length qt).
  assert (Hn : (0 < n)%nat) by (subst n qt; simpl; lia).
  assert (Hle : (overlap <= n)%nat) by apply filter_length_le.
  assert (Hn' : 0 < INR n) by now apply lt_0_INR.
  assert (Ho : 0 <= INR overlap) by apply pos_INR.
  assert (Hle' : INR overlap <= INR n) by now apply le_INR.
  assert (Hdiv : INR overlap / INR n * INR n = INR overlap).
  { unfold Rdiv. rewrite Rmult_assoc, Rinv_l by lra. lra. }
  split; [|split].
  - split.
    + apply Rmult_le_reg_r with (INR n); [assumption|]. lra.
    + apply Rmult_le_reg_r with (INR n); [assumption|]. lra.
  - split.
    + intros H1. rewrite H1 in Hdiv.
      assert (He : overlap = n) by (apply INR_eq; lra).
      split; [discriminate|]. intros t Ht.
      apply (proj1 (filter_length_all _ _) He) in Ht.
      now apply str_in_In.
    + intros [_ Hall].
      assert (He : overlap = n).
      { apply filter_length_all. intros x Hx. apply str_in_In. auto. }
      rewrite He. unfold Rdiv. apply Rinv_r. lra.
  - split.
    + intros H0. rewrite H0 in Hdiv.
      assert (He : overlap = 0%nat) by (apply INR_eq; simpl; lra).
      intros t Ht.
      apply (proj1 (filter_length_none _ _) He) in Ht.
      now apply str_in_false.
    + intros Hnone.
      assert (He : overlap = 0%nat).
      { apply filter_length_none. intros x Hx. apply str_in_false. auto. }
      rewrite He. simpl. unfold Rdiv. lra.
Qed.

(** The loop of [_keyword_search] keeps exactly the items that pass the
    filters and score at or above the threshold. *)
Lemma keyword_scores_members svc now query query_tokens items :
  forall scores,
    keyword_scores svc now query query_tokens items = Ok scores ->
    forall id s,
      In (id, s) scores <->
      exists item,
        In (id, item) items /\
        filtered_out svc now item (kq_filters query) = Ok false /\
        s = keyword_score query_tokens (tokens (ki_content item)) /\
        s >= kq_threshold query.
Proof.
  induction items as [|[item_id item] items IH]; simpl; intros scores H id s.
  - injection H as <-. split; [contradiction|].
    intros (x & Hin & _). contradiction.
  - destruct (filtered_out svc now item (kq_filters query)) as [skip|err]
      eqn:Hskip; simpl in H; [|discriminate].
    destruct skip.
    + rewrite (IH _ H id s). split.
      * intros (x & Hin & Hrest). exists x. auto.
      * intros (x & [[= <- <-]|Hin] & Hf & Hrest); [congruence|].
        exists x. auto.
    + bind_inv H. specialize (IH _ eq_refl id s).
      fold (tokens (ki_content item)) in H.
      destruct (Rge_dec _ _) as [Hge|Hlt]; injection H as <-.
      * simpl. rewrite IH. split.
        -- intros [[= <- <-]|(x & Hin & Hrest)].
           ++ exists item. auto.
           ++ exists x. auto.
        -- intros (x & [[= <- <-]|Hin] & Hf & Hs & Hthr).
           ++ left. now rewrite Hs.
           ++ right. exists x. auto.
      * rewrite IH. split.
        -- intros (x & Hin & Hrest). exists x. auto.
        -- intros (x & [[= <- <-]|Hin] & Hf & Hs & Hthr).
           ++ exfalso. subst s. auto.
           ++ exists x. auto.
Qed.

(** X18: [_keyword_search] scores an item by the share of the distinct
    lower-cased query tokens that occur among the tokens of its content: a
    number between 0 and 1, equal to 1 exactly when there is a query token and
    every query token occurs in the item, and to 0 exactly when none does.
    Every result is an item that passes the filters with such a score at or
    above the threshold, and an item that qualifies but is not returned is
    left out only once [top_k] results stand, none of which scores lower. *)
Theorem keyword_search_scores
    (svc : Services) (now : R) (query : KnowledgeQuery)
    (items_dict : dict KnowledgeItem) (results : list (string * R)) :
  (0 <= kq_top_k query)%Z ->
  _keyword_search svc now query items_dict = Ok results ->
  let score_of (item : KnowledgeItem) :=
    keyword_score (tokens (kq_query_text query)) (tokens (ki_content item)) in
  (forall item,
      0 <= score_of item <= 1 /\
      (score_of item = 1 <->
       tokens (kq_query_text query) <> [] /\
       forall t, In t (tokens (kq_query_text query)) ->
                 In t (tokens (ki_content item))) /\
      (score_of item = 0 <->
       forall t, In t (tokens (kq_query_text query)) ->
                 ~ In t (tokens (ki_content item)))) /\
  (forall item_id score,
      In (item_id, score) results ->
      exists item,
        In (item_id, item) items_dict /\
        filtered_out svc now item (kq_filters query) = Ok false /\
        score = score_of item /\
        score >= kq_threshold query) /\
  (forall item_id item,
      In (item_id, item) items_dict ->
      filtered_out svc now item (kq_filters query) = Ok false ->
      score_of item >= kq_threshold query ->
      In (item_id, score_of item) results \/
      (len results = kq_top_k query /\
       forall r, In r results -> score_of item <= snd r)).
Proof.
  intros Hk H score_of. split; [intros item; apply keyword_score_range|].
  unfold _keyword_search in H. bind_inv H. injection H as <-.
  fold (tokens (kq_query_text query)) in E.
  pose proof (keyword_scores_members _ _ _ _ _ _ E) as Hmem.
  destruct (slice_to_prefix (kq_top_k query) (sort_desc snd a))
    as [rest Hrest].
  pose proof (sort_desc_perm snd a) as Hperm.
  pose proof (sort_desc_sorted snd a) as Hsorted.
  split.
  - intros id s Hin. apply Hmem.
    apply (Permutation_in _ (Permutation_sym Hperm)).
    rewrite Hrest. apply in_or_app. now left.
  - intros id item Hin Hf Hthr.
    assert (Hc : In (id, score_of item) a).
    { apply Hmem. exists item. auto. }
    apply (Permutation_in _ Hperm) in Hc. rewrite Hrest in Hc.
    apply in_app_or in Hc. destruct Hc as [Hc|Hc]; [now left|right].
    split.
    + apply (RankingFacts.slice_to_full _ _ rest); [assumption|assumption|].
      intros ->. contradiction.
    + intros r Hr. rewrite Hrest in Hsorted.
      apply (RankingFacts.StronglySorted_app_order _ _ _ Hsorted r
               (id, score_of item) Hr Hc).
Qed.

End KeywordFacts.

(** ** Hybrid search *)

Module HybridScores.
Import RetrievalEngine.
Local Open Scope R_scope.

Lemma fold_set_keys {V : Type} (l : list (string * V)) :
  forall (d : dict V) k,
    In k (PyDict.keys
            (fold_left (fun d kv => PyDict.set d (fst kv) (snd kv)) l d)) <->
    In k (PyDict.keys d) \/ In k (map fst l).
Proof.
  induction l as [|[k' v'] l IH]; simpl; intros d k; [tauto|].
  rewrite IH, keys_set_in. intuition congruence.
Qed.

Lemma of_list_keys {V : Type} (l : list (string * V)) k :
  In k (PyDict.keys (PyDict.of_list l)) <-> In k (map fst l).
Proof. unfold PyDict.of_list. rewrite fold_set_keys. simpl. tauto. Qed.

Lemma combine_scores_complete semantic_scores keyword_scores threshold ids id :
  In id ids ->
  score_or_zero semantic_scores id * semantic_weight
  + score_or_zero keyword_scores id * keyword_weight >= threshold ->
  In (id, score_or_zero semantic_scores id * semantic_weight
          + score_or_zero keyword_scores id * keyword_weight)
     (combine_scores semantic_scores keyword_scores threshold ids).
Proof.
  induction ids as [|i ids IH]; simpl; intros Hin Hge; [contradiction|].
  destruct Hin as [->|Hin].
  - destruct (Rge_dec _ _); [now left|contradiction].
  - destruct (Rge_dec _ _); [right|]; auto.
Qed.

Lemma combine_scores_ids semantic_scores keyword_scores threshold ids id c :
  In (id, c) (combine_scores semantic_scores keyword_scores threshold ids) ->
  In id ids.
Proof.
  induction ids as [|i ids IH]; simpl; [tauto|].
  destruct (Rge_dec _ _); simpl; [|auto].
  intros [[= <- _]|H]; auto.
Qed.

(** C5: a hybrid query whose semantic and keyword searches return does
    return, and every score that it reports is [0.7] times the item's
    semantic score plus [0.3] times its keyword score, a side on which the
    item does not appear counting as [0]. Nothing else is reported: an item
    of either result set whose weighted score reaches the threshold is in the
    results with that score, unless [top_k] results stand, none of which
    scores lower. *)
Theorem hybrid_score_weights
    (svc : Services) (now : R) (db : VectorDatabase.t)
    (default_collection_id : option string) (query : KnowledgeQuery)
    (items_dict : dict KnowledgeItem)
    (semantic_results keyword_results : list (string * R)) :
  NoDup (PyDict.keys items_dict) ->
  _semantic_search svc db default_collection_id query items_dict
    = Ok semantic_results ->
  _keyword_search svc now query items_dict = Ok keyword_results ->
  exists results,
    _hybrid_search svc now db default_collection_id query items_dict
      = Ok results /\
    (forall item_id score,
        In (item_id, score) results ->
        (forall s k, In (item_id, s) semantic_results ->
                     In (item_id, k) keyword_results ->
                     score = 0.7 * s + 0.3 * k) /\
        (forall s, In (item_id, s) semantic_results ->
                   ~ In item_id (map fst keyword_results) ->
                   score = 0.7 * s) /\
        (forall k, ~ In item_id (map fst semantic_results) ->
                   In (item_id, k) keyword_results ->
                   score = 0.3 * k) /\
        score >= kq_threshold query) /\
    ((forall ids id, In id (set_order svc ids) <-> In id ids) ->
     (forall item_id score,
         In (item_id, score) results ->
         In item_id (map fst semantic_results) \/
         In item_id (map fst keyword_results)) /\
     ((0 <= kq_top_k query)%Z ->
      forall item_id s k,
        In (item_id, s) semantic_results \/
        ~ In item_id (map fst semantic_results) /\ s = 0 ->
        In (item_id, k) keyword_results \/
        ~ In item_id (map fst keyword_results) /\ k = 0 ->
        In item_id (map fst semantic_results) \/
        In item_id (map fst keyword_results) ->
        0.7 * s + 0.3 * k >= kq_threshold query ->
        In (item_id, 0.7 * s + 0.3 * k) results \/
        (len results = kq_top_k query /\
         forall r, In r results -> 0.7 * s + 0.3 * k <= snd r))).
Proof.
  intros Hkeys Hsem Hkw.
  unfold _hybrid_search. rewrite Hsem, Hkw. cbn [bind].
  eexists. split; [reflexivity|].
  set (ids := set_order svc
                (PyDict.keys (PyDict.of_list semantic_results)
                 ++ PyDict.keys (PyDict.of_list keyword_results))).
  set (combined := combine_scores (PyDict.of_list semantic_results)
                     (PyDict.of_list keyword_results) (kq_threshold query)
                     ids).
  apply RetrievalEngineFacts.semantic_search_contract in Hsem.
  destruct Hsem as (_ & _ & _ & Hnd_sem).
  apply RetrievalEngineFacts.keyword_search_contract in Hkw.
  destruct Hkw as (_ & _ & _ & Hnd_kw). specialize (Hnd_kw Hkeys).
  destruct (slice_to_prefix (kq_top_k query) (sort_desc snd combined))
    as [rest Hrest].
  pose proof (sort_desc_perm snd combined) as Hperm.
  pose proof (sort_desc_sorted snd combined) as Hsorted.
  assert (Hback : forall x, In x (slice_to (kq_top_k query)
                                    (sort_desc snd combined)) ->
                            In x combined).
  { intros x Hx. apply (Permutation_in _ (Permutation_sym Hperm)).
    rewrite Hrest. apply in_or_app. now left. }
  split; [|intros Hset; split].
  - intros item_id score Hin. apply Hback in Hin.
    apply RetrievalEngineFacts.combine_scores_spec in Hin.
    destruct Hin as [-> Hge]. unfold semantic_weight, keyword_weight in *.
    repeat split.
    + intros s k Hs Hk.
      rewrite (HybridFacts.score_or_zero_present _ _ s),
        (HybridFacts.score_or_zero_present _ _ k) by assumption.
      lra.
    + intros s Hs Hk.
      rewrite (HybridFacts.score_or_zero_present _ _ s),
        HybridFacts.score_or_zero_absent by assumption.
      lra.
    + intros k Hs Hk.
      rewrite HybridFacts.score_or_zero_absent,
        (HybridFacts.score_or_zero_present _ _ k) by assumption.
      lra.
    + exact Hge.
  - intros item_id score Hin. apply Hback in Hin.
    apply combine_scores_ids in Hin. subst ids.
    apply (proj1 (Hset _ _)) in Hin. apply in_app_or in Hin.
    rewrite !of_list_keys in Hin. exact Hin.
  - intros Hk item_id s k Hs Hkk Hside Hge.
    assert (Hs' : score_or_zero (PyDict.of_list semantic_results) item_id = s).
    { destruct Hs as [Hs|[Hs ->]].
      - now apply HybridFacts.score_or_zero_present.
      - now apply HybridFacts.score_or_zero_absent. }
    assert (Hk' : score_or_zero (PyDict.of_list keyword_results) item_id = k).
    { destruct Hkk as [Hkk|[Hkk ->]].
      - now apply HybridFacts.score_or_zero_present.
      - now apply HybridFacts.score_or_zero_absent. }
    assert (Hid : In item_id ids).
    { subst ids. apply (proj2 (Hset _ _)). apply in_or_app.
      rewrite !of_list_keys. exact Hside. }
    pose proof (combine_scores_complete (PyDict.of_list semantic_results)
                  (PyDict.of_list keyword_results) (kq_threshold query)
                  ids item_id Hid) as Hc.
    rewrite Hs', Hk' in Hc. unfold semantic_weight, keyword_weight in Hc.
    replace (s * 0.7 + k * 0.3) with (0.7 * s + 0.3 * k) in Hc by lra.
    specialize (Hc Hge). fold combined in Hc.
    apply (Permutation_in _ Hperm) in Hc. rewrite Hrest in Hc.
    apply in_app_or in Hc. destruct Hc as [Hc|Hc]; [now left|right].
    split.
    + apply (RankingFacts.slice_to_full _ _ rest); [assumption|assumption|].
      intros ->. contradiction.
    + intros r Hr. rewrite Hrest in Hsorted.
      apply (RankingFacts.StronglySorted_app_order _ _ _ Hsorted r
               (item_id, 0.7 * s + 0.3 * k) Hr Hc).
Qed.

End HybridScores.

(** ** Exact search, and queries that cannot fail *)

Module ExactFacts.
Import RetrievalEngine.
Local Open Scope R_scope.

(** The loop of [_exact_search] keeps exactly the items that pass the filters
    and contain the lower-cased query text. *)
Lemma exact_matches_members svc now query query_text items :
  forall matches,
    exact_matches svc now query query_text items = Ok matches ->
    forall id s,
      In (id, s) matches <->
      s = 1 /\
      exists item,
        In (id, item) items /\
        filtered_out svc now item (kq_filters query) = Ok false /\
        contains query_text (lower (ki_content item)) = true.
Proof.
  induction items as [|[item_id item] items IH]; simpl; intros matches H id s.
  - injection H as <-. split; [contradiction|].
    intros (_ & x & Hin & _). contradiction.
  - destruct (filtered_out svc now item (kq_filters query)) as [skip|err]
      eqn:Hskip; simpl in H; [|discriminate].
    destruct skip.
    + rewrite (IH _ H id s). split.
      * intros (Hs & x & Hin & Hrest). split; [assumption|]. exists x. auto.
      * intros (Hs & x & [[= <- <-]|Hin] & Hf & Hrest); [congruence|].
        split; [assumption|]. exists x. auto.
    + bind_inv H. specialize (IH _ eq_refl id s).
      destruct (contains query_text (lower (ki_content item))) eqn:Hc;
        injection H as <-.
      * simpl. rewrite IH. split.
        -- intros [[= <- <-]|(Hs & x & Hin & Hrest)].
           ++ split; [reflexivity|]. exists item. auto.
           ++ split; [assumption|]. exists x. auto.
        -- intros (Hs & x & [[= <- <-]|Hin] & Hf & Hcont).
           ++ left. now rewrite Hs.
           ++ right. split; [assumption|]. exists x. auto.
      * rewrite IH. split.
        -- intros (Hs & x & Hin & Hrest). split; [assumption|].
           exists x. auto.
        -- intros (Hs & x & [[= <- <-]|Hin] & Hf & Hcont); [congruence|].
           split; [assumption|]. exists x. auto.
Qed.

Section ById.
Context {A : Type}.

Lemma ltb_false_leb (x y : string) :
  String.ltb y x = false -> String.leb x y = true.
Proof.
  unfold String.ltb, String.leb. rewrite (String.compare_antisym x y).
  destruct (String.compare y x); simpl; congruence.
Qed.

Lemma ltb_true_leb (x y : string) :
  String.ltb y x = true -> String.leb y x = true.
Proof.
  unfold String.ltb, String.leb.
  destruct (String.compare y x); simpl; congruence.
Qed.

Lemma insert_by_id_sorted (x : string * A) (l : list (string * A)) :
  Sorted (fun a b => String.leb (fst a) (fst b) = true) l ->
  Sorted (fun a b => String.leb (fst a) (fst b) = true) (insert_by_id x l).
Proof.
  induction l as [|y l IH]; simpl; intros Hs.
  - constructor; constructor.
  - inversion Hs as [|? ? Hs' Hhd]; subst.
    destruct (String.ltb (fst y) (fst x)) eqn:E.
    + constructor; [auto|].
      destruct l as [|z l]; simpl.
      * constructor. now apply ltb_true_leb.
      * destruct (String.ltb (fst z) (fst x)).
        -- constructor. now inversion Hhd.
        -- constructor. now apply ltb_true_leb.
    + constructor; [assumption|]. constructor. now apply ltb_false_leb.
Qed.

Lemma sort_by_id_sorted (l : list (string * A)) :
  Sorted (fun a b => String.leb (fst a) (fst b) = true) (sort_by_id l).
Proof.
  induction l as [|x l IH]; simpl; [constructor|].
  now apply insert_by_id_sorted.
Qed.

Lemma Sorted_prefix (Rel : A -> A -> Prop) (l1 l2 : list A) :
  Sorted Rel (l1 ++ l2) -> Sorted Rel l1.
Proof.
  induction l1 as [|x l1 IH]; simpl; intros H; [constructor|].
  inversion H as [|? ? Hs Hhd]; subst. constructor; [auto|].
  destruct l1; simpl in *; [constructor|]. inversion Hhd. now constructor.
Qed.
End ById.

(** X19: every result of [_exact_search] has the score 1.0 and is an item
    that passes the filters and whose lower-cased content contains the
    lower-cased query text; the results are in ascending order of the item
    identifiers, and when fewer than [top_k] results are returned, every such
    item is among them. *)
Theorem exact_search_finds_substrings
    (svc : Services) (now : R) (query : KnowledgeQuery)
    (items_dict : dict KnowledgeItem) (results : list (string * R)) :
  (0 <= kq_top_k query)%Z ->
  _exact_search svc now query items_dict = Ok results ->
  (forall item_id score,
      In (item_id, score) results ->
      score = 1 /\
      exists item,
        In (item_id, item) items_dict /\
        filtered_out svc now item (kq_filters query) = Ok false /\
        contains (lower (kq_query_text query)) (lower (ki_content item))
        = true) /\
  Sorted (fun a b => String.leb (fst a) (fst b) = true) results /\
  (forall item_id item,
      In (item_id, item) items_dict ->
      filtered_out svc now item (kq_filters query) = Ok false ->
      contains (lower (kq_query_text query)) (lower (ki_content item)) = true ->
      In (item_id, 1) results \/ len results = kq_top_k query).
Proof.
  intros Hk H. unfold _exact_search in H. bind_inv H. injection H as <-.
  pose proof (exact_matches_members _ _ _ _ _ _ E) as Hmem.
  destruct (slice_to_prefix (kq_top_k query) (sort_by_id a)) as [rest Hrest].
  pose proof (sort_by_id_perm a) as Hperm.
  split; [|split].
  - intros id s Hin. apply Hmem.
    apply (Permutation_in _ (Permutation_sym Hperm)).
    rewrite Hrest. apply in_or_app. now left.
  - apply (Sorted_prefix _ _ rest). rewrite <- Hrest.
    apply sort_by_id_sorted.
  - intros id item Hin Hf Hc.
    assert (Hm : In (id, 1) a).
    { apply Hmem. split; [reflexivity|]. exists item. auto. }
    apply (Permutation_in _ Hperm) in Hm. rewrite Hrest in Hm.
    apply in_app_or in Hm. destruct Hm as [Hm|Hm]; [now left|right].
    apply (RankingFacts.slice_to_full _ _ rest); [assumption|assumption|].
    intros ->. contradiction.
Qed.

(** *** Keyword and exact queries whose filter values are numbers *)

Lemma rejects_total svc now item key value :
  (key = "min_confidence" \/ key = "max_age" ->
   exists x, to_float svc value = Ok x) ->
  exists r, rejects svc now item key value = Ok r.
Proof.
  intros Hfloat. unfold rejects.
  destruct (String.eqb key "source"
            && negb (pyval_eqb value (PyStr (ki_source item)))); [eauto|].
  assert (Hlast : exists r,
             match PyDict.get (ki_metadata item) key with
             | Some v => Ok (negb (pyval_eqb v value))
             | None => Ok false
             end = Ok r)
    by (destruct (PyDict.get (ki_metadata item) key); eauto).
  destruct (String.eqb key "min_confidence") eqn:Emin.
  - destruct Hfloat as [x Hx]; [left; now apply String.eqb_eq|].
    rewrite Hx. cbn [bind].
    destruct (Rlt_dec (ki_confidence item) x); [eauto|].
    destruct (String.eqb key "max_age"); [|exact Hlast].
    destruct (ki_created_at item); [|exact Hlast].
    cbn [bind]. eauto.
  - cbn [bind]. destruct (String.eqb key "max_age") eqn:Emax;
      [|exact Hlast].
    destruct (ki_created_at item); [|exact Hlast].
    destruct Hfloat as [x Hx]; [right; now apply String.eqb_eq|].
    rewrite Hx. cbn [bind]. eauto.
Qed.

Lemma filtered_out_total svc now item filters :
  (forall key value,
      In (key, value) filters ->
      key = "min_confidence" \/ key = "max_age" ->
      exists x, to_float svc value = Ok x) ->
  exists r, filtered_out svc now item filters = Ok r.
Proof.
  intros Hfloat. unfold filtered_out.
  destruct (is_empty filters); [eauto|].
  assert (Hm : exists m, _matches_filters svc now item filters = Ok m).
  { induction filters as [|[key value] rest IH]; simpl; [eauto|].
    destruct (rejects_total svc now item key value) as [r ->].
    { apply Hfloat. now left. }
    simpl. destruct r; [eauto|]. apply IH.
    intros k v Hin. apply Hfloat. now right. }
  destruct Hm as [m ->]. simpl. eauto.
Qed.

Lemma keyword_scores_total svc now query query_tokens items :
  (forall key value,
      In (key, value) (kq_filters query) ->
      key = "min_confidence" \/ key = "max_age" ->
      exists x, to_float svc value = Ok x) ->
  exists scores,
    keyword_scores svc now query query_tokens items = Ok scores.
Proof.
  intros Hfloat.
  induction items as [|[item_id item] items [tail IH]]; simpl; [eauto|].
  destruct (filtered_out_total svc now item _ Hfloat) as [r ->]. simpl.
  destruct r; [eauto|]. rewrite IH. simpl.
  destruct (Rge_dec _ _); eauto.
Qed.

Lemma exact_matches_total svc now query query_text items :
  (forall key value,
      In (key, value) (kq_filters query) ->
      key = "min_confidence" \/ key = "max_age" ->
      exists x, to_float svc value = Ok x) ->
  exists matches,
    exact_matches svc now query query_text items = Ok matches /\
    forall id, In id (map fst matches) -> In id (PyDict.keys items).
Proof.
  intros Hfloat. unfold PyDict.keys.
  induction items as [|[item_id item] items (tail & IH & Hsub)]; simpl.
  - exists []. split; [reflexivity|]. auto.
  - destruct (filtered_out_total svc now item _ Hfloat) as [r ->]. simpl.
    destruct r; [exists tail; split; auto|]. rewrite IH. simpl.
    destruct (contains _ _).
    + eexists. split; [reflexivity|]. simpl. intros id [<-|Hin]; auto.
    + exists tail. split; auto.
Qed.

Lemma lookup_items_total items_dict results :
  (forall id, In id (map fst results) -> In id (PyDict.keys items_dict)) ->
  exists items,
    lookup_items items_dict results = Ok items /\
    Forall2 (fun r item => PyDict.get items_dict (fst r) = Some item)
      results items.
Proof.
  induction results as [|[id s] results IH]; simpl; intros Hsub.
  - exists []. split; [reflexivity|constructor].
  - destruct IH as (tail & Htail & Hall); [auto|].
    assert (Hmem : PyDict.mem items_dict id = true).
    { apply mem_keys. apply Hsub. now left. }
    apply mem_true_get in Hmem. destruct Hmem as [item Hitem].
    rewrite Hitem, Htail. simpl. exists (item :: tail).
    split; [reflexivity|]. now constructor.
Qed.

(** X20: a keyword or an exact query whose "min_confidence" and "max_age"
    filter values are numbers (or strings that [float] accepts) never raises:
    [process_query] returns a response that carries the identifier of the
    query and, for each result in order, the catalog item filed under the
    result's identifier. *)
Theorem keyword_and_exact_queries_return
    (svc : Services) (now : R) (db : VectorDatabase.t)
    (default_collection_id : option string) (query : KnowledgeQuery)
    (items_dict : dict KnowledgeItem) :
  kq_query_type query = Q_KEYWORD \/ kq_query_type query = Q_EXACT ->
  (forall key value,
      In (key, value) (kq_filters query) ->
      key = "min_confidence" \/ key = "max_age" ->
      exists x, to_float svc value = Ok x) ->
  exists results response,
    search svc now db default_collection_id query items_dict = Ok results /\
    process_query svc now db default_collection_id query items_dict
      = Ok response /\
    kr_query_id response = kq_query_id query /\
    kr_scores response = PyDict.of_list results /\
    kr_result_count response = len results /\
    Forall2 (fun r item => PyDict.get items_dict (fst r) = Some item)
      results (kr_items response).
Proof.
  intros Hty Hfloat.
  assert (Hsearch : exists results,
             search svc now db default_collection_id query items_dict
               = Ok results /\
             forall id, In id (map fst results) ->
                        In id (PyDict.keys items_dict)).
  { unfold search. destruct Hty as [-> | ->].
    - unfold _keyword_search.
      destruct (keyword_scores_total svc now query
                  (to_set (split (lower (kq_query_text query)))) items_dict
                  Hfloat) as [scores Hs].
      rewrite Hs. simpl. eexists. split; [reflexivity|].
      intros id Hin.
      destruct (RetrievalEngineFacts.keyword_scores_spec _ _ _ _ _ _ Hs)
        as (_ & Hsub & _).
      apply Hsub.
      destruct (slice_to_prefix (kq_top_k query) (sort_desc snd scores))
        as [rest Hrest].
      apply (Permutation_in _
               (Permutation_sym
                  (Permutation_map fst (sort_desc_perm snd scores)))).
      rewrite Hrest, map_app. apply in_or_app. now left.
    - unfold _exact_search.
      destruct (exact_matches_total svc now query
                  (lower (kq_query_text query)) items_dict Hfloat)
        as (matches & Hm & Hsub).
      rewrite Hm. simpl. eexists. split; [reflexivity|].
      intros id Hin. apply Hsub.
      destruct (slice_to_prefix (kq_top_k query) (sort_by_id matches))
        as [rest Hrest].
      apply (Permutation_in _
               (Permutation_sym
                  (Permutation_map fst (sort_by_id_perm matches)))).
      rewrite Hrest, map_app. apply in_or_app. now left. }
  destruct Hsearch as (results & Hs & Hsub).
  destruct (lookup_items_total items_dict results Hsub) as (items & Hl & Hall).
  exists results. eexists. split; [assumption|].
  unfold process_query. rewrite Hs. simpl. rewrite Hl. simpl.
  split; [reflexivity|]. simpl. auto.
Qed.

End ExactFacts.

(** ** Relevance and ranking *)

Module RelevanceFacts.
Import RetrievalEngine.
Local Open Scope R_scope.

Lemma sorted_by_key {A : Type} (f : A -> R) (l : list (A * R)) :
  Forall (fun p => snd p = f (fst p)) l ->
  StronglySorted (desc snd) l ->
  StronglySorted (desc f) (map fst l).
Proof.
  intros Hkey Hs. induction Hs as [|p l Hs IH Hall]; simpl; [constructor|].
  inversion Hkey as [|? ? Hp Hl]; subst. constructor; [auto|].
  apply Forall_forall. intros x Hx. apply in_map_iff in Hx.
  destruct Hx as (q & <- & Hq).
  rewrite Forall_forall in Hall, Hl. specialize (Hall q Hq).
  unfold desc in *. rewrite <- Hp, <- (Hl q Hq). exact Hall.
Qed.

(** X22: [rank_results] returns the items it is given, each as often as it
    was given, in descending order of the relevance that [compute_relevance]
    gives them; that relevance is 0.0 when the embeddings of the query and
    of the item differ in length or when either is empty. *)
Theorem rank_results_sorts_by_relevance
    (svc : Services) (items : list KnowledgeItem) (query : string) :
  Permutation items (rank_results svc items query) /\
  StronglySorted (desc (compute_relevance svc query))
    (rank_results svc items query) /\
  (forall item,
      len (get_embedding svc query)
      <> len (get_embedding svc (ki_content item)) \/
      get_embedding svc query = [] \/
      get_embedding svc (ki_content item) = [] ->
      compute_relevance svc query item = 0).
Proof.
  unfold rank_results.
  set (scored := map (fun item => (item, compute_relevance svc query item))
                   items).
  assert (Hfst : map fst scored = items).
  { subst scored. rewrite map_map. simpl. apply map_id. }
  split; [|split].
  - rewrite <- Hfst at 1. apply Permutation_map, sort_desc_perm.
  - apply sorted_by_key; [|apply sort_desc_sorted].
    apply sort_desc_Forall. subst scored. apply Forall_forall.
    intros p Hp. apply in_map_iff in Hp. now destruct Hp as (x & <- & _).
  - intros item H. unfold compute_relevance, _cosine_similarity.
    destruct H as [Hlen|[-> | ->]].
    + apply Z.eqb_neq in Hlen. rewrite Hlen. simpl. now rewrite orb_true_r.
    + reflexivity.
    + simpl is_empty. now rewrite orb_true_r.
Qed.

End RelevanceFacts.

(** ** The event log of the facade *)

Module FacadeInvariant.
Import KnowledgeModule.

Lemma last_n_length {A : Type} (k : nat) (l : list A) :
  (k <= List.length l)%nat -> List.length (last_n k l) = k.
Proof. intros H. unfold last_n. rewrite length_skipn. lia. Qed.

Lemma last_n_suffix {A : Type} (k : nat) (l : list A) :
  exists dropped, l = (dropped ++ last_n k l)%list.
Proof.
  exists (firstn (List.length l - k) l). unfold last_n.
  now rewrite firstn_skipn.
Qed.

(** [_log_event] puts the new event last and keeps the newest 1000. *)
Lemma log_event_spec uuid4 now event_type details evs :
  let event := {| ev_event_id := uuid4; ev_event_type := event_type;
                  ev_details := details; ev_timestamp := now |} in
  len (_log_event uuid4 now event_type details evs)
    = Z.min 1000 (len evs + 1) /\
  exists dropped,
    (evs ++ [event])%list
    = (dropped ++ _log_event uuid4 now event_type details evs)%list.
Proof.
  cbv zeta. unfold _log_event.
  set (event := {| ev_event_id := uuid4; ev_event_type := event_type;
                   ev_details := details; ev_timestamp := now |}).
  assert (Hlen : len (evs ++ [event]) = len evs + 1).
  { unfold len. rewrite length_app. simpl. lia. }
  destruct (1000 <? len (evs ++ [event])) eqn:E.
  - apply Z.ltb_lt in E. split.
    + unfold len in *. rewrite last_n_length; lia.
    + apply last_n_suffix.
  - apply Z.ltb_ge in E. split; [lia|]. now exists [].
Qed.

(** A log that holds the newest events of those seen so far keeps doing so
    while events are logged. *)
Lemma log_events_suffix (logged : list KnowledgeEvent) :
  forall seen log,
    len log = Z.min 1000 (len seen) ->
    (exists dropped, seen = (dropped ++ log)%list) ->
    let log' :=
      fold_left
        (fun events event =>
           _log_event (ev_event_id event) (ev_timestamp event)
             (ev_event_type event) (ev_details event) events)
        logged log in
    len log' = Z.min 1000 (len (seen ++ logged)%list) /\
    exists dropped, (seen ++ logged)%list = (dropped ++ log')%list.
Proof.
  induction logged as [|event logged IH]; intros seen log Hlen [d0 Hd0];
    cbv zeta; simpl.
  - rewrite app_nil_r. split; [assumption|]. now exists d0.
  - destruct (log_event_spec (ev_event_id event) (ev_timestamp event)
                (ev_event_type event) (ev_details event) log)
      as [Hlen' [d1 Hd1]].
    replace {| ev_event_id := ev_event_id event;
               ev_event_type := ev_event_type event;
               ev_details := ev_details event;
               ev_timestamp := ev_timestamp event |}
      with event in Hd1 by now destruct event.
    replace (seen ++ event :: logged)%list
      with ((seen ++ [event]) ++ logged)%list
      by now rewrite <- app_assoc.
    apply IH.
    + rewrite Hlen', Hlen. unfold len. rewrite length_app. simpl. lia.
    + exists (d0 ++ d1)%list. rewrite Hd0, <- !app_assoc. now rewrite Hd1.
Qed.

(** X23: [_log_event] puts the new event last and keeps the newest 1000
    events: the log then holds the smaller of 1000 and one more than before,
    and what it drops are the oldest events. Hence after any sequence of
    [_log_event] calls on the empty log of [__init__] the log is the
    sequence of the events logged, without its first events when there are
    more than 1000: it never holds more than 1000. *)
Theorem event_log_bounded (logged : list KnowledgeEvent) :
  (forall event_uuid now event_type details events,
      len (_log_event event_uuid now event_type details events)
        = Z.min 1000 (len events + 1) /\
      exists dropped,
        (events ++ [{| ev_event_id := event_uuid;
                       ev_event_type := event_type;
                       ev_details := details;
                       ev_timestamp := now |}])%list
        = (dropped ++ _log_event event_uuid now event_type details events)
            %list) /\
  let log :=
    fold_left
      (fun events event =>
         _log_event (ev_event_id event) (ev_timestamp event)
           (ev_event_type event) (ev_details event) events)
      logged [] in
  len log = Z.min 1000 (len logged) /\
  len log <= 1000 /\
  exists dropped, logged = (dropped ++ log)%list.
Proof.
  split.
  { intros event_uuid now event_type details events. apply log_event_spec. }
  destruct (log_events_suffix logged [] []) as [Hlen Hsuffix].
  - reflexivity.
  - now exists [].
  - simpl in Hlen, Hsuffix. cbv zeta. split; [exact Hlen|].
    split; [lia|exact Hsuffix].
Qed.

(** X24: [get_recent_events] with a positive [limit] returns the newest
    events, the smaller of [limit] and the length of the log many, in the
    order of the log. With [limit] 0 it returns the whole log, not the empty
    list, and with a negative [limit] it returns the log without its first
    [-limit] events. *)
Theorem get_recent_events_returns_newest (limit : Z) (km : t) :
  exists older,
    events km = (older ++ get_recent_events limit km)%list /\
    (0 < limit ->
     len (get_recent_events limit km) = Z.min limit (len (events km))) /\
    (limit = 0 -> get_recent_events limit km = events km) /\
    (limit < 0 -> len older = Z.min (- limit) (len (events km))).
Proof.
  unfold get_recent_events, slice_last.
  destruct (events km) as [|e evs] eqn:Hev; simpl is_empty; cbv iota.
  { exists []. simpl. split; [reflexivity|]. unfold len. simpl.
    repeat split; intros; lia. }
  set (l := e :: evs).
  destruct (0 <? limit) eqn:E.
  - apply Z.ltb_lt in E.
    exists (firstn (List.length l - Z.to_nat limit) l).
    split; [now rewrite firstn_skipn|].
    split; [|split; intros; lia].
    intros _. unfold len. rewrite length_skipn. lia.
  - apply Z.ltb_ge in E.
    exists (firstn (Z.to_nat (- limit)) l).
    split; [now rewrite firstn_skipn|].
    split; [intros; lia|]. split.
    + intros ->. reflexivity.
    + intros Hneg. unfold len. rewrite length_firstn. lia.
Qed.

End FacadeInvariant.


(** ** The embedding service: cache and fallback *)

Module EmbeddingFacts.
Import EmbeddingService.

Lemma set_length {V : Type} (d : dict V) k v :
  len (PyDict.set d k v) <= len d + 1.
Proof.
  unfold len. induction d as [|[k' v'] d IH]; simpl; [lia|].
  destruct (String.eqb k k'); simpl; lia.
Qed.

Lemma del_length {V : Type} (d : dict V) k :
  len (PyDict.del d k) <= len d.
Proof.
  unfold len. induction d as [|[k' v'] d IH]; simpl; [lia|].
  destruct (String.eqb k k'); simpl; lia.
Qed.

(** [_add_to_cache] keeps the configuration and the bound on the cache. *)
Lemma add_to_cache_bounded key embedding svc svc' :
  len (cache svc) <= Z.max 0 (max_cache_size svc) ->
  _add_to_cache key embedding svc = Some svc' ->
  len (cache svc') <= Z.max 0 (max_cache_size svc') /\
  max_cache_size svc' = max_cache_size svc /\
  embedding_dimension svc' = embedding_dimension svc /\
  cache_enabled svc' = cache_enabled svc /\
  PyDict.get (cache svc') key = Some embedding.
Proof.
  intros Hb. unfold _add_to_cache.
  destruct (max_cache_size svc <=? len (cache svc)) eqn:E.
  - destruct (cache svc) as [|[oldest v] rest] eqn:Hc; [discriminate|].
    intros [= <-]. simpl. rewrite get_set_same.
    split; [|auto].
    pose proof (set_length (PyDict.del ((oldest, v) :: rest) oldest) key
                  embedding) as H1.
    assert (H2 : len (PyDict.del ((oldest, v) :: rest) oldest) <= len rest).
    { simpl. rewrite String.eqb_refl. apply del_length. }
    unfold len in *. simpl in *. lia.
  - apply Z.leb_gt in E. intros [= <-]. simpl. rewrite get_set_same.
    split; [|auto].
    pose proof (set_length (cache svc) key embedding). lia.
Qed.

Lemma get_embedding_bounded llm text provider model use_cache svc :
  len (cache svc) <= Z.max 0 (max_cache_size svc) ->
  len (cache (snd (get_embedding llm text provider model use_cache svc)))
  <= Z.max 0
       (max_cache_size
          (snd (get_embedding llm text provider model use_cache svc))) /\
  max_cache_size (snd (get_embedding llm text provider model use_cache svc))
  = max_cache_size svc.
Proof.
  intros Hb. unfold get_embedding.
  destruct (if cache_enabled svc && use_cache then _ else None);
    [now split|].
  destruct (llm text _ _) as [embedding|]; [|now split].
  destruct (cache_enabled svc && use_cache); [|now split].
  destruct (_add_to_cache _ embedding svc) as [svc'|] eqn:Hadd; [|now split].
  destruct (add_to_cache_bounded _ _ _ _ Hb Hadd) as (H1 & H2 & _).
  now split.
Qed.

Lemma get_embeddings_bounded llm texts provider model use_cache :
  forall svc,
    len (cache svc) <= Z.max 0 (max_cache_size svc) ->
    len (cache (snd (get_embeddings llm texts provider model use_cache svc)))
    <= Z.max 0
         (max_cache_size
            (snd (get_embeddings llm texts provider model use_cache svc))) /\
    max_cache_size
      (snd (get_embeddings llm texts provider model use_cache svc))
    = max_cache_size svc /\
    List.length (fst (get_embeddings llm texts provider model use_cache svc))
    = List.length texts.
Proof.
  induction texts as [|text texts IH]; intros svc Hb; simpl.
  - repeat split; auto.
  - pose proof (get_embedding_bounded llm text provider model use_cache svc Hb)
      as [H1 H2].
    destruct (get_embedding llm text provider model use_cache svc)
      as [embedding svc1]. simpl in *.
    destruct (IH svc1 H1) as (H3 & H4 & H5).
    destruct (get_embeddings llm texts provider model use_cache svc1)
      as [embeddings svc2]. simpl in *.
    split; [assumption|]. split; [congruence|]. now f_equal.
Qed.

(** X27: a service whose cache holds at most [max_cache_size] embeddings,
    as the empty cache of a new service does, still does so after
    [get_embedding], after [get_embeddings] on any list of texts, after
    [find_most_similar] and after [clear_cache]; [get_embeddings] returns
    one embedding for each text. With a [max_cache_size] of zero or less the
    cache stays empty. *)
Theorem cache_stays_bounded
    (llm : provider_call) (texts : list string) (query_text : string)
    (provider model : option string) (use_cache : bool) (top_k : Z) (svc : t) :
  len (cache svc) <= Z.max 0 (max_cache_size svc) ->
  (forall text,
      len (cache (snd (get_embedding llm text provider model use_cache svc)))
      <= Z.max 0 (max_cache_size svc)) /\
  len (cache (snd (get_embeddings llm texts provider model use_cache svc)))
  <= Z.max 0 (max_cache_size svc) /\
  List.length (fst (get_embeddings llm texts provider model use_cache svc))
  = List.length texts /\
  len (cache (snd (find_most_similar llm query_text texts provider model
                     top_k svc)))
  <= Z.max 0 (max_cache_size svc) /\
  len (cache (clear_cache svc)) <= Z.max 0 (max_cache_size svc).
Proof.
  intros Hb. split; [|split; [|split; [|split]]].
  - intros text.
    destruct (get_embedding_bounded llm text provider model use_cache svc Hb)
      as [H1 H2].
    now rewrite <- H2.
  - destruct (get_embeddings_bounded llm texts provider model use_cache svc Hb)
      as (H1 & H2 & _).
    now rewrite <- H2.
  - now apply get_embeddings_bounded.
  - unfold find_most_similar.
    pose proof (get_embedding_bounded llm query_text provider model true svc Hb)
      as [H1 H2].
    destruct (get_embedding llm query_text provider model true svc)
      as [q svc1]. simpl in *.
    destruct (get_embeddings_bounded llm texts provider model true svc1 H1)
      as (H3 & H4 & _).
    destruct (get_embeddings llm texts provider model true svc1)
      as [embs svc2]. simpl in *.
    rewrite <- H2, <- H4. assumption.
  - unfold clear_cache, len. simpl. lia.
Qed.

Lemma get_embedding_hit llm text provider model svc embedding :
  cache_enabled svc = true ->
  PyDict.get (cache svc)
    (cache_key (or_default provider (default_provider svc))
       (or_default model (default_model svc)) text) = Some embedding ->
  get_embedding llm text provider model true svc = (embedding, svc).
Proof.
  intros Hen Hget. unfold get_embedding. rewrite Hen. cbn [andb].
  now rewrite Hget.
Qed.

Lemma add_to_cache_some key embedding svc :
  0 < max_cache_size svc ->
  exists c,
    _add_to_cache key embedding svc = Some (with_cache svc c) /\
    PyDict.get c key = Some embedding.
Proof.
  intros Hmax. unfold _add_to_cache.
  destruct (max_cache_size svc <=? len (cache svc)) eqn:E.
  - destruct (cache svc) as [|[oldest v] rest] eqn:Hc.
    + apply Z.leb_le in E. unfold len in E. simpl in E. lia.
    + eexists. split; [reflexivity|]. apply get_set_same.
  - eexists. split; [reflexivity|]. apply get_set_same.
Qed.

(** X28: with the cache enabled and a [max_cache_size] of at least one, a
    call of [get_embedding] that finds the text in the cache or gets an
    embedding from the provider leaves the service such that the next call
    for the same text, provider and model returns the same embedding without
    asking the provider, whatever the provider would answer then, and leaves
    the service as it is. *)
Theorem cached_embedding_is_returned
    (llm llm' : provider_call) (text : string) (provider model : option string)
    (svc : t) :
  cache_enabled svc = true ->
  0 < max_cache_size svc ->
  let key := cache_key (or_default provider (default_provider svc))
               (or_default model (default_model svc)) text in
  PyDict.mem (cache svc) key = true \/
  llm text (or_default provider (default_provider svc))
    (or_default model (default_model svc)) <> None ->
  let r := get_embedding llm text provider model true svc in
  get_embedding llm' text provider model true (snd r) = r /\
  (PyDict.mem (cache svc) key = false ->
   llm text (or_default provider (default_provider svc))
     (or_default model (default_model svc)) = Some (fst r)).
Proof.
  intros Hen Hmax key Hsrc r.
  destruct (PyDict.get (cache svc) key) as [cached|] eqn:Hget.
  - assert (Hr : r = (cached, svc)) by now apply get_embedding_hit.
    rewrite Hr. cbn [fst snd]. split; [now apply get_embedding_hit|].
    rewrite (mem_get_some _ _ _ Hget). discriminate.
  - destruct Hsrc as [Hmem|Hllm].
    { apply mem_get_none in Hget. congruence. }
    destruct (llm text (or_default provider (default_provider svc))
                (or_default model (default_model svc))) as [embedding|]
      eqn:Hprov; [|now elim Hllm].
    destruct (add_to_cache_some key embedding svc Hmax) as (c & Hadd & Hc).
    assert (Hr : r = (embedding, with_cache svc c)).
    { subst r. unfold get_embedding. fold key. rewrite Hen. cbn [andb].
      now rewrite Hget, Hprov, Hadd. }
    rewrite Hr. cbn [fst snd]. split; [|reflexivity].
    apply get_embedding_hit; [exact Hen|exact Hc].
Qed.

Lemma zero_vector_spec svc :
  len (zero_vector svc) = Z.max 0 (embedding_dimension svc) /\
  Forall (fun x => x = 0%R) (zero_vector svc).
Proof.
  unfold zero_vector, len. rewrite repeat_length. split; [lia|].
  apply Forall_forall. intros x Hx. now apply repeat_spec in Hx.
Qed.

(** X29: the fallback of [get_embedding] is a vector of
    [embedding_dimension] zeros (none for a negative dimension). It is
    returned, and the service left as it is, when the text is not served
    from the cache and the provider raises; and also, whatever the provider
    answers, on every call that uses the cache of a service whose cache is
    enabled, empty and of a [max_cache_size] of zero or less, because
    [_add_to_cache] then raises on the empty cache. *)
Theorem get_embedding_zero_vector_fallback
    (llm : provider_call) (text : string) (provider model : option string)
    (use_cache : bool) (svc : t) :
  len (zero_vector svc) = Z.max 0 (embedding_dimension svc) /\
  Forall (fun x => x = 0%R) (zero_vector svc) /\
  (llm text (or_default provider (default_provider svc))
     (or_default model (default_model svc)) = None ->
   cache_enabled svc && use_cache = false \/
   PyDict.mem (cache svc)
     (cache_key (or_default provider (default_provider svc))
        (or_default model (default_model svc)) text) = false ->
   get_embedding llm text provider model use_cache svc
   = (zero_vector svc, svc)) /\
  (cache_enabled svc = true -> cache svc = [] -> max_cache_size svc <= 0 ->
   get_embedding llm text provider model true svc = (zero_vector svc, svc)).
Proof.
  destruct (zero_vector_spec svc) as [Hlen Hzero].
  split; [assumption|]. split; [assumption|]. split.
  - intros Hllm Hmiss. unfold get_embedding.
    assert (Hnone : (if cache_enabled svc && use_cache
                     then PyDict.get (cache svc)
                            (cache_key
                               (or_default provider (default_provider svc))
                               (or_default model (default_model svc)) text)
                     else None) = None).
    { destruct (cache_enabled svc && use_cache); [|reflexivity].
      destruct Hmiss as [Hmiss|Hmiss]; [discriminate|].
      now apply mem_get_none. }
    now rewrite Hnone, Hllm.
  - intros Hen Hempty Hmax. unfold get_embedding.
    rewrite Hen, Hempty. cbn [andb PyDict.get].
    destruct (llm text _ _) as [embedding|]; [|reflexivity].
    unfold _add_to_cache. rewrite Hempty.
    assert (E : (max_cache_size svc <=? len (@nil (string * list R))) = true).
    { apply Z.leb_le. unfold len. simpl. lia. }
    now rewrite E.
Qed.

End EmbeddingFacts.

(** ** The most similar texts *)

Module SimilarFacts.
Import EmbeddingService.
Local Open Scope R_scope.

Lemma similarities_spec query_embedding candidate_embeddings :
  forall sims,
    similarities query_embedding candidate_embeddings = Ok sims ->
    List.length sims = List.length candidate_embeddings.
Proof.
  induction candidate_embeddings as [|emb embs IH]; simpl; intros sims H.
  - now injection H as <-.
  - bind_inv H. bind_inv H. injection H as <-. simpl. f_equal. auto.
Qed.

(** The records of [find_most_similar] before the sort: one for each pair,
    numbered from [i]. *)
Lemma result_items_spec pairs :
  forall i r,
    In r (result_items i pairs) ->
    exists n,
      nth_error pairs n = Some (sim_text r, sim_similarity r) /\
      sim_index r = (i + Z.of_nat n)%Z.
Proof.
  induction pairs as [|[text s] pairs IH]; simpl; intros i r Hin;
    [contradiction|].
  destruct Hin as [<-|Hin].
  - exists 0%nat. simpl. split; [reflexivity|lia].
  - destruct (IH _ _ Hin) as (n & Hn & Hi). exists (S n). simpl.
    split; [assumption|lia].
Qed.

Lemma result_items_length pairs :
  forall i, List.length (result_items i pairs) = List.length pairs.
Proof.
  induction pairs as [|[text s] pairs IH]; simpl; intros i; [reflexivity|].
  now rewrite IH.
Qed.

Lemma nth_error_combine {A B : Type} (l : list A) (l' : list B) n a b :
  nth_error (combine l l') n = Some (a, b) ->
  nth_error l n = Some a /\ nth_error l' n = Some b.
Proof.
  revert l' n. induction l as [|x l IH]; intros [|y l'] [|n]; simpl;
    try discriminate.
  - intros [= <- <-]. now split.
  - apply IH.
Qed.

(** X30: when [find_most_similar] returns, it returns at most [top_k]
    records for a [top_k] that is not negative, and at most one for each
    candidate text, in descending order of the similarity they carry; each
    record carries the index of its text in the list of candidates. *)
Theorem find_most_similar_ranks_candidates
    (llm : provider_call) (query_text : string) (candidate_texts : list string)
    (provider model : option string) (top_k : Z) (svc : t)
    (results : list Similar) :
  fst (find_most_similar llm query_text candidate_texts provider model top_k
         svc) = Ok results ->
  ((0 <= top_k)%Z -> (len results <= top_k)%Z) /\
  (len results <= len candidate_texts)%Z /\
  StronglySorted (desc sim_similarity) results /\
  Forall (fun r =>
            (0 <= sim_index r < len candidate_texts)%Z /\
            nth_error candidate_texts (Z.to_nat (sim_index r))
            = Some (sim_text r)) results.
Proof.
  unfold find_most_similar.
  destruct (get_embedding llm query_text provider model true svc)
    as [query_embedding svc1].
  destruct (get_embeddings llm candidate_texts provider model true svc1)
    as [candidate_embeddings svc2] eqn:Hget.
  cbn [fst]. intros H. bind_inv H. injection H as <-.
  pose proof (similarities_spec _ _ _ E) as Hlen.
  set (items := result_items 0 (combine candidate_texts a)).
  destruct (slice_to_prefix top_k (sort_desc sim_similarity items))
    as [rest Hrest].
  assert (Hitems : Forall (fun r =>
                     (0 <= sim_index r < len candidate_texts)%Z /\
                     nth_error candidate_texts (Z.to_nat (sim_index r))
                     = Some (sim_text r)) items).
  { apply Forall_forall. intros r Hr. subst items.
    apply result_items_spec in Hr. destruct Hr as (n & Hn & Hi).
    apply nth_error_combine in Hn. destruct Hn as [Ht Hs].
    rewrite Hi. simpl. rewrite Nat2Z.id. split.
    - assert (n < List.length candidate_texts)%nat
        by (apply nth_error_Some; congruence).
      unfold len. lia.
    - assumption. }
  split; [|split; [|split]].
  - now apply slice_to_length.
  - assert (Hl : (List.length (slice_to top_k (sort_desc sim_similarity items))
                  <= List.length items)%nat).
    { rewrite (Permutation_length (sort_desc_perm sim_similarity items)).
      rewrite Hrest at 2. rewrite length_app. lia. }
    subst items. rewrite result_items_length, length_combine in Hl.
    unfold len. lia.
  - apply (StronglySorted_prefix _ _ rest). rewrite <- Hrest.
    apply sort_desc_sorted.
  - apply (Forall_prefix _ _ rest). rewrite <- Hrest.
    now apply sort_desc_Forall.
Qed.

End SimilarFacts.

(** ** The properties at work on the scenarios *)

Module StoreExamples.
Import VectorDatabase.
Local Open Scope R_scope.

Lemma docs_sound : mapped Scenario.docs /\ dimensioned Scenario.docs.
Proof.
  apply StoreInvariant.create_collection_sound, StoreInvariant.init_sound.
Qed.

Lemma chunks_sound : mapped Scenario.chunks /\ dimensioned Scenario.chunks.
Proof.
  unfold Scenario.chunks.
  repeat apply StoreInvariant.add_vector_sound.
  apply StoreInvariant.create_collection_sound, StoreInvariant.init_sound.
Qed.

Lemma docs_indexed : indexed Scenario.docs.
Proof.
  apply IndexInvariant.create_collection_indexed;
    [apply IndexInvariant.init_indexed|reflexivity].
Qed.

Lemma search_vectors_best_candidates_witness :
  candidate [1; 0] 0 []
    [Scenario.chunk "e1" [1; 0] "A"; Scenario.chunk "e2" [1; 0] "A";
     Scenario.chunk "e3" [0; 1] "B"] "e1" 1.
Proof.
  apply (proj1 (RankingFacts.search_vectors_best_candidates
                  "kb" [1; 0] 2 0 [] Scenario.chunks _ [("e1", 1); ("e2", 1)]
                  ltac:(lia) SearchExamples.chunks_entries
                  (SearchExamples.chunks_search_vectors 2))).
  now left.
Defined.

Lemma search_items_of_search_vectors_witness :
  exists es results,
    PyDict.get (entries Scenario.chunks) "kb" = Some es /\
    search_items "kb" [1; 0] 2 0 [] Scenario.chunks = Ok results.
Proof.
  destruct (RankingFacts.search_items_of_search_vectors
              "kb" [1; 0] 2 0 [] Scenario.chunks _
              (SearchExamples.chunks_search_vectors 2))
    as (es & results & H1 & H2 & _).
  exists es, results. now split.
Defined.

Lemma add_vector_get_entry_witness :
  exists db',
    add_vector "e1" "docs" [1; 2; 3] "item" None Scenario.docs
      = (Ok "e1", db') /\
    get_entry "docs" "e1" db'
      = Ok (Some {| ve_entry_id := "e1"; ve_vector := [1; 2; 3];
                    ve_item_id := "item"; ve_metadata := [] |}).
Proof.
  destruct (StoreFacts.add_vector_get_entry
              "e1" "docs" [1; 2; 3] "item" None Scenario.docs _
              (proj1 docs_sound) eq_refl eq_refl)
    as (db' & H1 & H2 & _).
  exists db'. now split.
Defined.

Lemma delete_vector_get_entry_witness :
  exists db',
    delete_vector "kb" "e1" Scenario.chunks = (Ok true, db') /\
    get_entry "kb" "e1" db' = Ok None.
Proof.
  pose proof (StoreFacts.delete_vector_get_entry "kb" "e1" Scenario.chunks
                (proj1 chunks_sound)) as H.
  change (get_entry "kb" "e1" Scenario.chunks)
    with (Ok (Some (snd (Scenario.chunk "e1" [1; 0] "A")))) in H.
  cbv beta iota in H.
  destruct H as (db' & H1 & _ & H2 & _). exists db'. now split.
Defined.

Lemma delete_item_vectors_exact_witness :
  exists db',
    delete_item_vectors "i1"
      (KnowledgeModule.vector_database Scenario.one_fact) = (Ok 1%Z, db') /\
    get_item_vectors "i1" db' = [].
Proof.
  destruct (RemovalFacts.delete_item_vectors_exact "i1"
              (KnowledgeModule.vector_database Scenario.one_fact)
              (proj1 FacadeExamples.one_fact_consistent))
    as (db' & H1 & _ & H2 & _).
  exists db'. split; [exact H1|exact H2].
Defined.

Lemma delete_collection_removes_witness :
  exists db',
    delete_collection "docs" Scenario.docs = (Ok true, db') /\
    get_collection "docs" db' = None.
Proof.
  pose proof (RemovalFacts.delete_collection_removes "docs" Scenario.docs
                docs_indexed) as H.
  change (PyDict.mem (collections Scenario.docs) "docs") with true in H.
  cbv beta iota in H.
  destruct H as (db' & H1 & H2 & _). exists db'. now split.
Defined.

End StoreExamples.

Module MemoryExamples.
Import MemoryManager.
Local Open Scope R_scope.

Lemma three_notes_exclusive : exclusive Scenario.three_notes.
Proof. intros id _ Hl. discriminate Hl. Qed.

Lemma three_notes_keys :
  NoDup (PyDict.keys (short_term_memory Scenario.three_notes)).
Proof.
  change (NoDup ["c"; "b"; "a"]).
  repeat constructor; simpl; intuition discriminate.
Qed.

Lemma delete_item_then_retrieve_item_witness :
  fst (delete_item "a" Scenario.three_notes) = true /\
  retrieve_item 0 "a" (snd (delete_item "a" Scenario.three_notes))
  = (None, snd (delete_item "a" Scenario.three_notes)).
Proof.
  destruct (MemoryRoundTrips.delete_item_then_retrieve_item "a" 0
              Scenario.three_notes three_notes_exclusive)
    as (H1 & H2 & _).
  split; [exact H1|exact H2].
Defined.

Lemma optimize_memory_moves_low_value_items_witness :
  PyDict.get (long_term_memory (snd (optimize_memory Scenario.three_notes)))
    "c"
  = Some (with_memory_type Scenario.note_c LONG_TERM).
Proof.
  destruct (OptimizeFacts.optimize_memory_moves_low_value_items
              Scenario.three_notes three_notes_keys)
    as (_ & _ & H & _).
  apply H; [reflexivity|].
  unfold low_value, Scenario.note_c, Scenario.memory_item. simpl.
  decide_real. reflexivity.
Defined.

Lemma filed_notes_keyed : keyed Scenario.filed_notes.
Proof.
  unfold Scenario.filed_notes, Scenario.three_notes.
  repeat apply PromotionFacts.run_keyed. apply PromotionFacts.init_keyed.
Qed.

Lemma filed_notes_categories : categories_ok Scenario.filed_notes.
Proof.
  unfold Scenario.filed_notes, Scenario.three_notes.
  repeat apply CategoryFacts.run_categories_ok.
  apply CategoryFacts.init_categories_ok.
Qed.

Lemma get_items_by_category_returns_members_witness :
  map mi_item_id (fst (get_items_by_category 1 "cat" Scenario.filed_notes))
  = ["a"; "c"].
Proof.
  pose proof (CategoryItems.get_items_by_category_returns_members 1 "cat"
                Scenario.filed_notes filed_notes_keyed filed_notes_categories)
    as H.
  cbv zeta in H. destruct H as [H _].
  change (PyDict.get (categories Scenario.filed_notes) "cat")
    with (Some {| mc_category_id := "cat"; mc_name := "letters";
                  mc_description := "a and c"; mc_parent_id := None;
                  mc_items := ["a"; "c"] |}) in H.
  cbv beta iota in H. exact (proj1 H).
Defined.

Lemma context_window_takes_all_witness :
  cw_current_tokens
    (create_context_window "w" 0 20 "importance" Scenario.three_notes)
  = 15%Z.
Proof.
  destruct (WindowFacts.context_window_takes_all "w" 0 20 "importance"
              Scenario.three_notes) as (_ & _ & H).
  - unfold token_sum. simpl. lia.
  - rewrite H. reflexivity.
Defined.

End MemoryExamples.

Module QueryExamples.
Import RetrievalEngine.
Local Open Scope R_scope.

Lemma keyword_search_scores_witness :
  exists item,
    In ("A", item) Scenario.catalog /\
    1 = keyword_score (tokens "red car") (tokens (ki_content item)).
Proof.
  destruct (KeywordFacts.keyword_search_scores Scenario.services 0
              (Scenario.query "red car" Q_KEYWORD [] 1 0.5) Scenario.catalog
              [("A", 1)] ltac:(simpl; lia)
              (RetrievalExamples.keyword_red_car 1)) as (_ & H & _).
  destruct (H "A" 1 (or_introl eq_refl)) as (item & Hin & _ & Hs & _).
  exists item. split; [exact Hin|exact Hs].
Defined.

Lemma exact_search_finds_substrings_witness :
  exists item,
    In ("A", item) Scenario.catalog /\
    contains (lower "Red") (lower (ki_content item)) = true.
Proof.
  destruct (ExactFacts.exact_search_finds_substrings Scenario.services 0
              (Scenario.query "Red" Q_EXACT [] 5 2) Scenario.catalog
              [("A", 1)] ltac:(simpl; lia) eq_refl) as (H & _).
  destruct (H "A" 1 (or_introl eq_refl)) as (_ & item & Hin & _ & Hc).
  exists item. split; [exact Hin|exact Hc].
Defined.

Lemma keyword_and_exact_queries_return_witness :
  exists results response,
    search Scenario.services 0 VectorDatabase.init None
      (Scenario.query "red car" Q_KEYWORD [] 1 0.5) Scenario.catalog
    = Ok results /\
    process_query Scenario.services 0 VectorDatabase.init None
      (Scenario.query "red car" Q_KEYWORD [] 1 0.5) Scenario.catalog
    = Ok response.
Proof.
  destruct (ExactFacts.keyword_and_exact_queries_return Scenario.services 0
              VectorDatabase.init None
              (Scenario.query "red car" Q_KEYWORD [] 1 0.5) Scenario.catalog
              (or_introl eq_refl))
    as (results & response & H1 & H2 & _).
  - intros key value [].
  - exists results, response. now split.
Defined.

End QueryExamples.


Module EmbeddingExamples.
Import EmbeddingService.
Local Open Scope R_scope.

Lemma cache_stays_bounded_witness :
  (len (cache (snd (get_embeddings Scenario.provider ["a"; "b"] None None
                      true Scenario.embedder))) <= 10000)%Z.
Proof.
  destruct (EmbeddingFacts.cache_stays_bounded Scenario.provider ["a"; "b"]
              "q" None None true 5 Scenario.embedder)
    as (_ & H & _).
  - unfold len. simpl. lia.
  - exact H.
Defined.

Lemma cached_embedding_is_returned_witness :
  get_embedding (fun _ _ _ => None) "a" None None true
    (snd (get_embedding Scenario.provider "a" None None true
            Scenario.embedder))
  = get_embedding Scenario.provider "a" None None true Scenario.embedder.
Proof.
  destruct (EmbeddingFacts.cached_embedding_is_returned Scenario.provider
              (fun _ _ _ => None) "a" None None Scenario.embedder
              eq_refl eq_refl) as (H & _).
  - right. discriminate.
  - exact H.
Defined.

(** The query is answered with the first unit vector, the candidate "b"
    with the second and the candidate "a" with the first: "a" is ranked
    before "b", each with its index among the candidates. *)
Lemma provider_most_similar :
  fst (find_most_similar Scenario.two_way_provider "q" ["b"; "a"] None None 5
         Scenario.embedder)
  = Ok [{| sim_text := "a"; sim_similarity := 1; sim_index := 1 |};
        {| sim_text := "b"; sim_similarity := 0; sim_index := 0 |}].
Proof.
  unfold find_most_similar, get_embeddings, get_embedding. simpl.
  unfold _cosine_similarity.
  rewrite SearchExamples.cosine_same, SearchExamples.cosine_orthogonal.
  cbn -[Rlt_dec slice_to]. unfold sort_desc. cbn -[Rlt_dec slice_to].
  repeat (decide_real; cbn -[Rlt_dec slice_to]).
  reflexivity.
Qed.

Lemma find_most_similar_ranks_candidates_witness :
  fst (find_most_similar Scenario.two_way_provider "q" ["b"; "a"] None None 5
         Scenario.embedder)
  = Ok [{| sim_text := "a"; sim_similarity := 1; sim_index := 1 |};
        {| sim_text := "b"; sim_similarity := 0; sim_index := 0 |}] /\
  (len [{| sim_text := "a"; sim_similarity := 1; sim_index := 1 |};
        {| sim_text := "b"; sim_similarity := 0; sim_index := 0 |}] <= 5)%Z /\
  StronglySorted (desc sim_similarity)
    [{| sim_text := "a"; sim_similarity := 1; sim_index := 1 |};
     {| sim_text := "b"; sim_similarity := 0; sim_index := 0 |}] /\
  Forall (fun r =>
            nth_error ["b"; "a"] (Z.to_nat (sim_index r))
            = Some (sim_text r))
    [{| sim_text := "a"; sim_similarity := 1; sim_index := 1 |};
     {| sim_text := "b"; sim_similarity := 0; sim_index := 0 |}].
Proof.
  destruct (SimilarFacts.find_most_similar_ranks_candidates
              Scenario.two_way_provider "q" ["b"; "a"] None None 5
              Scenario.embedder _ provider_most_similar)
    as (Hk & _ & Hsorted & Hindex).
  split; [exact provider_most_similar|].
  split; [apply Hk; lia|]. split; [exact Hsorted|].
  apply (Forall_impl _ (fun r H => proj2 H) Hindex).
Defined.

End EmbeddingExamples.

Module HybridExamples.
Import RetrievalEngine.
Local Open Scope R_scope.

Lemma cosine_three_four :
  VectorDatabase._cosine_similarity [1; 0] [3; 4] = Ok 0.6.
Proof.
  unfold VectorDatabase._cosine_similarity, VectorDatabase.norm,
    VectorDatabase.dot. simpl.
  replace (1 * 1 + (0 * 0 + 0)) with 1 by lra.
  replace (3 * 3 + (4 * 4 + 0)) with 25 by lra.
  rewrite sqrt_1. rewrite (sqrt_lem_1 25 5) by lra.
  repeat decide_real. f_equal. lra.
Qed.

Lemma shelf_collection :
  PyDict.get (VectorDatabase.collections Scenario.shelf) "kb" =
  Some {| vc_collection_id := "kb"; vc_name := "kb"; vc_dimension := 2;
          vc_index_type := "flat";
          vc_metadata := [("created_at", PyStr "t0")] |}.
Proof. reflexivity. Qed.

Lemma shelf_entries :
  PyDict.get (VectorDatabase.entries Scenario.shelf) "kb" =
  Some [Scenario.chunk "e1" [1; 0] "A"; Scenario.chunk "e2" [1; 0] "A";
        Scenario.chunk "e3" [0; 1] "B"; Scenario.chunk "e4" [3; 4] "D"].
Proof. reflexivity. Qed.

Lemma shelf_search_items :
  VectorDatabase.search_items "kb" [1; 0] 5 0.1 [] Scenario.shelf
  = Ok [("A", 1); ("D", 0.6)].
Proof.
  unfold VectorDatabase.search_items, VectorDatabase.search_vectors.
  rewrite shelf_collection, shelf_entries.
  cbn -[VectorDatabase._cosine_similarity Rge_dec sort_desc slice_to
        VectorDatabase.dedup_items].
  rewrite SearchExamples.cosine_same, SearchExamples.cosine_orthogonal,
    cosine_three_four.
  cbn -[Rge_dec sort_desc slice_to VectorDatabase.dedup_items].
  repeat (decide_real;
          cbn -[Rge_dec Rlt_dec sort_desc slice_to
                VectorDatabase.dedup_items]).
  unfold sort_desc. cbn -[Rlt_dec slice_to VectorDatabase.dedup_items].
  repeat (decide_real; cbn -[Rlt_dec slice_to VectorDatabase.dedup_items]).
  reflexivity.
Qed.

Lemma mixed_semantic_side :
  _semantic_search Scenario.services Scenario.shelf (Some "kb")
    Scenario.mixed_query Scenario.library
  = Ok [("A", 1); ("D", 0.6)].
Proof.
  unfold _semantic_search. simpl String.eqb. cbv iota.
  simpl get_embedding. simpl kq_top_k. simpl kq_threshold. simpl kq_filters.
  rewrite shelf_search_items. reflexivity.
Qed.

Lemma mixed_keyword_side :
  _keyword_search Scenario.services 0 Scenario.mixed_query Scenario.library
  = Ok [("A", 0.5); ("B", 0.5)].
Proof.
  unfold _keyword_search. simpl to_set. simpl keyword_scores.
  unfold keyword_score. simpl.
  repeat (decide_real; simpl).
  unfold slice_to. simpl. repeat f_equal; lra.
Qed.

Lemma mixed_hybrid :
  _hybrid_search Scenario.services 0 Scenario.shelf (Some "kb")
    Scenario.mixed_query Scenario.library
  = Ok [("A", 0.85); ("D", 0.42); ("B", 0.15)].
Proof.
  unfold _hybrid_search.
  rewrite mixed_semantic_side, mixed_keyword_side. cbn [bind].
  cbn -[Rge_dec sort_desc slice_to].
  unfold semantic_weight, keyword_weight.
  repeat (decide_real; cbn -[Rge_dec Rlt_dec sort_desc slice_to]).
  unfold sort_desc. cbn -[Rlt_dec slice_to].
  repeat (decide_real; cbn -[Rlt_dec slice_to]).
  unfold slice_to. simpl. repeat f_equal; lra.
Qed.

Lemma library_keys : NoDup (PyDict.keys Scenario.library).
Proof.
  simpl. repeat constructor; simpl; intuition discriminate.
Qed.

(** The scores of the hybrid query on the library: item A is in both result
    sets with the scores 1 and 0.5, item D in the semantic results only with
    0.6, item B in the keyword results only with 0.5. *)
Lemma hybrid_score_weights_witness :
  _hybrid_search Scenario.services 0 Scenario.shelf (Some "kb")
    Scenario.mixed_query Scenario.library
  = Ok [("A", 0.85); ("D", 0.42); ("B", 0.15)] /\
  0.85 = 0.7 * 1 + 0.3 * 0.5 /\
  0.42 = 0.7 * 0.6 /\
  0.15 = 0.3 * 0.5 /\
  In ("B", 0.7 * 0 + 0.3 * 0.5) [("A", 0.85); ("D", 0.42); ("B", 0.15)].
Proof.
  destruct (HybridScores.hybrid_score_weights
              Scenario.services 0 Scenario.shelf (Some "kb")
              Scenario.mixed_query Scenario.library
              [("A", 1); ("D", 0.6)] [("A", 0.5); ("B", 0.5)]
              library_keys mixed_semantic_side mixed_keyword_side)
    as (results & Hresults & Hscores & Hall).
  rewrite mixed_hybrid in Hresults. injection Hresults as <-.
  split; [exact mixed_hybrid|].
  split.
  { apply (proj1 (Hscores "A" 0.85 (or_introl eq_refl)) 1 0.5);
      simpl; auto. }
  split.
  { apply (proj1 (proj2 (Hscores "D" 0.42 (or_intror (or_introl eq_refl))))
             0.6); simpl; [auto|].
    intros [H|[H|[]]]; discriminate. }
  split.
  { apply (proj1 (proj2 (proj2 (Hscores "B" 0.15
                   (or_intror (or_intror (or_introl eq_refl)))))) 0.5);
      simpl; [|auto].
    intros [H|[H|[]]]; discriminate. }
  destruct Hall as [_ Hcomplete]; [intros ids id; apply nodup_In|].
  destruct (Hcomplete ltac:(simpl; lia) "B" 0 0.5) as [Hin|[Hfull _]].
  - right. split; [|reflexivity]. simpl. intros [H|[H|[]]]; discriminate.
  - left. simpl. auto.
  - right. simpl. auto.
  - simpl. lra.
  - exact Hin.
  - discriminate Hfull.
Defined.

End HybridExamples.

Module CascadeExamples.
Import KnowledgeModule.

Lemma two_facts_consistent : consistent Scenario.two_facts.
Proof.
  apply (BuiltStores.built_consistent Scenario.two_facts
           [VectorDatabase.CreateCollection "kb" "t0" "default_knowledge" 768
              "flat";
            VectorDatabase.AddVector "e1" "kb" (Scenario.zero_embedding "")
              "i1" None;
            VectorDatabase.AddVector "e2" "kb" (Scenario.zero_embedding "")
              "i1" None;
            VectorDatabase.AddVector "e3" "kb" (Scenario.zero_embedding "")
              "i2" None]
           [MemoryManager.Store "s1"
              (KnowledgeModule.memory_item "i1" "a red sports car" [] []
                 0.9 0);
            MemoryManager.Store "s2"
              (KnowledgeModule.memory_item "i2" "a blue bike" [] [] 0.5 0);
            MemoryManager.CreateCategory "cat" "vehicles" "cars and bikes"
              None;
            MemoryManager.AddItemToCategory "i1" "cat";
            MemoryManager.AddItemToCategory "i2" "cat"]).
  - reflexivity.
  - repeat split; reflexivity.
  - reflexivity.
Qed.

(** Before the deletion the first item has two vectors, the second has one,
    and the category lists both. *)
Lemma two_facts_references :
  VectorDatabase.get_item_vectors "i1" (vector_database Scenario.two_facts)
    = [("kb", "e1"); ("kb", "e2")] /\
  VectorDatabase.get_item_vectors "i2" (vector_database Scenario.two_facts)
    = [("kb", "e3")] /\
  option_map mc_items
    (PyDict.get (MemoryManager.categories
                   (memory_manager Scenario.two_facts)) "cat")
    = Some ["i1"; "i2"].
Proof. repeat split; reflexivity. Qed.

Lemma two_facts_entries :
  VectorDatabase.entry_at (vector_database Scenario.two_facts) "kb" "e1"
    = Some (snd (Scenario.chunk "e1" (Scenario.zero_embedding "") "i1")) /\
  VectorDatabase.entry_at (vector_database Scenario.two_facts) "kb" "e2"
    = Some (snd (Scenario.chunk "e2" (Scenario.zero_embedding "") "i1")) /\
  VectorDatabase.entry_at (vector_database Scenario.two_facts) "kb" "e3"
    = Some (snd (Scenario.chunk "e3" (Scenario.zero_embedding "") "i2")).
Proof. repeat split; reflexivity. Qed.

Lemma delete_knowledge_item_cascade_witness :
  exists km',
    delete_knowledge_item "ev" 1 "i1" Scenario.two_facts = (Ok true, km') /\
    fst (VectorDatabase.delete_item_vectors "i1"
           (vector_database Scenario.two_facts)) = Ok 2 /\
    VectorDatabase.get_item_vectors "i1" (vector_database km') = [] /\
    VectorDatabase.get_item_vectors "i2" (vector_database km')
      = [("kb", "e3")] /\
    (exists entry,
        VectorDatabase.entry_at (vector_database km') "kb" "e3" = Some entry /\
        ve_item_id entry = "i2") /\
    VectorDatabase.entry_at (vector_database km') "kb" "e1" = None /\
    VectorDatabase.entry_at (vector_database km') "kb" "e2" = None /\
    (exists category,
        PyDict.get (MemoryManager.categories (memory_manager km')) "cat"
        = Some category /\
        mc_name category = "vehicles" /\
        In "i2" (mc_items category) /\ ~ In "i1" (mc_items category)) /\
    PyDict.mem (knowledge_items km') "i2" = true /\
    PyDict.mem (knowledge_items km') "i1" = false.
Proof.
  destruct (CascadeFacts.delete_knowledge_item_cascade
              "ev" 1 "i1" Scenario.two_facts two_facts_consistent eq_refl)
    as (km' & Hdel & Hcount & _ & Hnone & Hentries & Hothers & _ & _
        & Hcats & Hrest & Hgone & _).
  exists km'. split; [exact Hdel|].
  split; [rewrite Hcount; reflexivity|].
  split.
  { unfold VectorDatabase.get_item_vectors. now rewrite Hnone. }
  split.
  { rewrite (Hothers "i2") by discriminate. reflexivity. }
  destruct two_facts_entries as (He1 & He2 & He3).
  split.
  { exists (snd (Scenario.chunk "e3" (Scenario.zero_embedding "") "i2")).
    split; [|reflexivity]. apply Hentries. split; [exact He3|].
    discriminate. }
  split.
  { destruct (VectorDatabase.entry_at (vector_database km') "kb" "e1")
      as [entry|] eqn:E; [|reflexivity].
    apply Hentries in E. destruct E as [E Hne]. rewrite He1 in E.
    injection E as <-. now elim Hne. }
  split.
  { destruct (VectorDatabase.entry_at (vector_database km') "kb" "e2")
      as [entry|] eqn:E; [|reflexivity].
    apply Hentries in E. destruct E as [E Hne]. rewrite He2 in E.
    injection E as <-. now elim Hne. }
  split.
  { specialize (Hcats "cat").
    change (PyDict.get (MemoryManager.categories
                          (memory_manager Scenario.two_facts)) "cat")
      with (Some {| mc_category_id := "cat"; mc_name := "vehicles";
                    mc_description := "cars and bikes";
                    mc_parent_id := None;
                    mc_items := ["i1"; "i2"] |}) in Hcats.
    cbv beta iota in Hcats.
    destruct Hcats as (category & Hget & _ & Hname & _ & _ & Hitems).
    exists category. split; [exact Hget|]. split; [exact Hname|]. split.
    - apply Hitems. split; [simpl; auto|discriminate].
    - intros Hin. apply Hitems in Hin. now destruct Hin as [_ Hne]. }
  split; [|exact Hgone].
  destruct (Hrest "i2") as (_ & _ & Hitem); [discriminate|].
  unfold PyDict.mem. rewrite Hitem. reflexivity.
Defined.

End CascadeExamples.
